(* ===== verification/_CoqProject ===== *)
-Q . S2P
Prelude.v
Config.v
Markup.v
Router.v
CertStore.v
CertRace.v
Handler.v
Tor.v
Network.v
Cli.v
Startup.v
System.v
