(* ===== verification/Prelude.v ===== *)
(** * Raproxy: a verification development of the Raproxy forward proxy

    The program (Python, four files under src/) is a local HTTP/HTTPS
    forward proxy with optional TLS interception, an egress router over
    Tor or a pool of upstream proxies, and an interactive shell.

    Parts of the program and how they interact:
    - [ProxyEngine] (src/proxy_engine.py) keeps the runtime
      configuration (a Python dict), the proxy pool, the port and the
      running flag; its [Handler] class serves one connection:
      [do_CONNECT] (TLS interception, certificate issue) and [do_GET]
      (URL normalisation, header building, egress routing, forwarding).
    - [generate_cert] is the certificate store: a per-host PEM pair on
      disk, generated on a miss; [do_CONNECT] calls it.
    - [TorManager] (src/Core/tor_manager.py) probes the Tor SOCKS port
      and launches the binary it finds.
    - [NetworkUtils.fetch_proxies] (src/network.py) fills the proxy pool
      from a downloaded text list.
    - raproxy.py is the shell: it parses commands and mutates the
      engine, and [cmd_start] orchestrates Tor, the pool and the listener.

    Files of this development, in dependency order, with the source
    each models:
    - Prelude.v (this file): the Python semantics every component shares.
      Strings: [py_startswith], [py_lstrip_char], [py_split_first],
      [py_lower], [py_strip], [py_contains], [py_splitlines],
      [py_split_ws], and [os.path.join] as [path_join].  Floor modulo
      and list indexing with negative indices: [py_mod], [py_index].
      An insertion-ordered dict: [pydict], [dict_get], [dict_set].
      Exceptions ([exn]) and a state and exception monad [PyM], with
      [try_except] and notations in [py_scope].  Also the hint databases
      [raproxy] and [raproxy_rw] and the lemmas the components share.
    - Config.v, Module [Engine]: the engine's state ([ProxyEngine.__init__],
      [set_config], [add_header], [update_proxy_pool], [start_proxy],
      [_run_server]) as the records [Config] and [ProxyEngine], and the
      Python dict the record stands for ([pyval], [config_items]).
    - Router.v, Modules [Router] and [RouterProps]: the egress decision of
      [do_GET] (lines 135-142).  [route] reads the pool once; [route_reads]
      gives each of the three reads of the pool its own list.
    - CertStore.v, Module [CertStore]: [generate_cert] (lines 37-83) over
      a file system that is a gmap from paths to PEM contents, and the
      [load_cert_chain] check of [do_CONNECT].
    - CertRace.v, Module [CertRace]: [generate_cert] cut into its atomic
      file-system steps ([step_thread]), with threads run under an explicit
      schedule ([run_sched]).
    - Handler.v, Module [Handler]: the [Handler] class (lines 97-157).
      [do_GET], [relay], [do_CONNECT], [tls_tunnel], [handle_one] and
      [serve] run in a [PyM] over the client transcript, the outbound
      requests and the store.  The certificate store is reached through
      the interface [CertIssuer] with laws [CertIssuerLaws].  Its instance
      [store_issuer] is [generate_cert].
    - Tor.v, Module [Tor]: [get_tor_cmd] and [ensure_running] over an
      environment record, with the effects as a log.
    - Network.v, Module [Network]: [fetch_proxies].
    - Markup.v, Module [Markup]: what [console.print] does with the text
      of the two prints of user data (lines 173 and 178 of raproxy.py).
      [markup_check] is rich's markup parser ([rich.markup.render]): its
      tag scanner as an automaton over the bytes ([markup_step],
      [markup_go]), escapes by backslashes, the stack of open tags and the
      [MarkupError] of a closing tag that closes nothing, with rich's
      message and position.  [py_repr] and [py_str_val] are Python's
      [repr] and [str] of the config values; [header_line] and
      [status_line] are the two f-strings.
    - Cli.v, Module [Cli]: the globals of raproxy.py as [Shell], the
      [cmd_*] functions, one iteration of [main] as [run_line], [main_loop],
      and the step relation [reachable] of the shell (a line, or a Ctrl-C
      at the prompt).  A line ends in [Continue], [Exit] ([sys.exit]) or
      [Raised]: [cmd_set_header] and [cmd_status] print through [cprint],
      which raises the [MarkupError] of [markup_check], and [main]
      catches only [KeyboardInterrupt] and [EOFError].
    - Startup.v, Module [Startup]: what runs before the shell reads a
      line, as [raproxy].  This covers [sys.path] and the core imports
      (lines 11-25), the [rich] bootstrap, [install_deps],
      [show_disclaimer] and [banner].  It also covers the loop of [main]
      over input events ([shell_loop]: lines, Ctrl-C, and the end of
      input) and the exit status: 0 after [exit] or the end of input, a
      traceback ([Uncaught]) when a command raises.
    - System.v, Module [System]: the main thread and the server thread
      over one engine.  [sys_step] interleaves operator lines, Ctrl-C,
      clients that send a whole request, clients whose handler does not
      return (nothing sent, or an upstream body that never ends) and
      their hang-up.  The [TCPServer] is serial and sets no timeout: a
      handler that does not return blocks the server, and later clients
      wait in the accept queue ([pending]) until its peer hangs up
      ([drain]).  Nothing is accepted unless the server thread has bound
      the port and the process is alive.

    What the theorems show, by group:
    - Handler: the 502 of a failed upstream request, and the relay of a
      response in order, for every URL [urlparse] accepts; a URL whose
      netloc has an unbalanced bracket makes [urlparse] raise
      [ValueError], answered 502 too.  A disabled MITM answers 403 and
      does nothing else.  With the program's certificate store, the
      first answer to a CONNECT is 403, the 200 of the tunnel, or none
      (an exception), never the 500 of line 109.  An upstream failure
      mid-body puts a second status line inside the body.  A request
      inside a tunnel loses the tunnel's host.  A missing [cryptography]
      package closes the connection with no answer.  No exception
      escapes [serve].
    - CertStore and CertRace: the cache hit (reuses expired
      certificates), the issue (valid from the first read of the clock
      to the second plus 30 days) and the idempotence of
      [generate_cert].  A host name outside 1..64 bytes makes
      [x509.NameAttribute] raise [ValueError] after the key was
      generated.  [generate_cert] keeps the store well formed, the pair
      it returns loads, and without [cryptography] it raises
      [NameError].  A host name starting with / escapes the certificate
      directory.  [run_alone_refines] relates the step model to
      [generate_cert].  The serial schedule of [TCPServer] generates
      once; an interleaved schedule leaves a mismatched pair.
    - Router: the pool choice [hash(url) % len(pool)] is always in range,
      and Tor has priority.  A pool replaced between the reads raises
      [IndexError].
    - Markup and Cli: by rule induction on [reachable], an invariant of
      the engine holds in every reachable state, and in particular
      every CONNECT gets 403 (MITM cannot be turned on).  [set header]
      stores the header and then crashes the program when its echo
      closes a tag that is not open; [status] prints every item, or
      crashes after the first three when the [repr] of the headers dict
      does not render; and a value escaped as rich advises renders in
      the echo but breaks every later [status], because [repr] doubles
      the backslash.  The theorems also cover [cmd_start]'s failure
      paths: Tor, the bind in the server thread, and a stale pool.
    - Tor and Network: the outcomes of [ensure_running] and
      [get_tor_cmd] (with the text-mode newline translation of
      [subprocess.run]), the shape of the pool [fetch_proxies] builds,
      and that any status, an error page included, feeds the pool.
    - Startup: the program as shipped exits with status 1, because
      [stealth] is missing.  With the repository's layout on a
      case-preserving file system it stops earlier, on [tor_manager]:
      the script looks in [core] and the repository has [Core].  The
      pip install of [requests] is dead code.  End of input or Ctrl-C at
      the disclaimer escapes [main].  Every shell state a run reaches is
      [reachable] ([raproxy_shell_reachable]), so the shell's
      invariants hold of the program.
    - System: after a failed bind, no connection is ever accepted
      again.  While a handler is blocked on a peer, no connection is
      served and nothing goes upstream, whatever the operator types.

    Parameters and fuel.  What the code takes from the outside world is
    a parameter or an input record:
    - Python's per-process string [hash];
    - [requests.get] as [fetch];
    - the two reads of the clock in [generate_cert];
    - whether [cryptography] imports, and which paths are writable;
    - the TLS handshake and the request read inside a tunnel;
    - the platform, Tor and download environments and the bind outcome.
    Startup adds the installation (script path, files, case folding of
    the file system, installed modules, pip) and the operator's input
    events.  Every definition is structural except [run_alone], whose
    fuel is 4.  That is the number of steps of [step_thread] on the
    longest branch (test, key, certificate, key file), and
    [run_alone_refines] proves it is enough on every branch.  The loop
    of [main] is structural over the finite list of input events; it
    ends at the end of the input, at [exit] or at an uncaught exception.

    Not modelled:
    - [core/stealth.py], which raproxy.py imports but which is absent
      from the repository.  Its absence is modelled (the import fails);
      in an installation that has it, its call is modelled as one that
      returns;
    - the text of the printed messages, kept as constructors, except
      the two prints of user data, whose text is rendered by
      [markup_check];
    - rich's [Style.normalize] beyond [strip().lower()] (exact on
      single-word styles), the evaluation of the parameters of [@] meta
      tags, and the prompt of line 188, whose markup holds the user
      name and the working directory;
    - the kernel's bound on the accept queue ([listen(5)]) and the
      clients' own timeouts;
    - failures of writes to the client socket;
    - the headers [requests] adds by itself;
    - the TLS handshake's cryptography;
    - thread interleavings finer than one connection between two shell
      lines, except the certificate-store schedules and the torn pool
      read;
    - a Ctrl-C during a command, as opposed to at the prompt.

    Left for later: the other torn reads of [config] by a handler while
    the shell writes it, client write failures, and the split of IPv6
    CONNECT targets. *)

From Stdlib Require Export ZArith Ascii String Lia.
From stdpp Require Export base list gmap strings pretty.

Declare Scope py_scope.
Delimit Scope py_scope with py.
Open Scope Z_scope.

Create HintDb raproxy.
Create Rewrite HintDb raproxy_rw.

(** ** Python strings (ASCII subset) *)

(** [str.isspace] on one ASCII character: tab, line feed, vertical tab,
    form feed, carriage return, the separators 0x1c-0x1f and space. *)
Definition is_space (c : ascii) : bool :=
  let n := nat_of_ascii c in
  ((9 <=? n) && (n <=? 13))%nat || ((28 <=? n) && (n <=? 32))%nat.

(** [s.startswith(p)]. *)
Definition py_startswith (s p : string) : bool := String.prefix p s.

(** [s.endswith(p)]. *)
Definition py_endswith (s p : string) : bool :=
  String.prefix (string_of_list_ascii (rev (list_ascii_of_string p)))
                (string_of_list_ascii (rev (list_ascii_of_string s))).

(** [os.path.join(a, b)] (POSIX): an absolute [b] discards [a]; a
    separator is inserted unless [a] is empty or already ends with one. *)
Definition path_join (a b : string) : string :=
  if py_startswith b "/" then b
  else if String.eqb a "" then b
  else if py_endswith a "/" then a +:+ b
  else a +:+ "/" +:+ b.

(** [s.lstrip(c)] for a one-character argument. *)
Fixpoint py_lstrip_char (c : ascii) (s : string) : string :=
  match s with
  | EmptyString => EmptyString
  | String d s' => if Ascii.eqb d c then py_lstrip_char c s' else s
  end.

(** [s.split(sep)[0]]: the text before the first [sep]. *)
Fixpoint py_split_first (sep : ascii) (s : string) : string :=
  match s with
  | EmptyString => EmptyString
  | String d s' => if Ascii.eqb d sep then EmptyString
                   else String d (py_split_first sep s')
  end.

(** [c.lower()] and [s.lower()] on ASCII. *)
Definition ascii_lower (c : ascii) : ascii :=
  let n := nat_of_ascii c in
  if ((65 <=? n) && (n <=? 90))%nat then ascii_of_nat (n + 32) else c.

Fixpoint py_lower (s : string) : string :=
  match s with
  | EmptyString => EmptyString
  | String c s' => String (ascii_lower c) (py_lower s')
  end.

(** [s.strip()]: leading and trailing whitespace removed. *)
Fixpoint lstrip_ws (l : list ascii) : list ascii :=
  match l with
  | [] => []
  | c :: l' => if is_space c then lstrip_ws l' else l
  end.

Definition py_strip (s : string) : string :=
  string_of_list_ascii (rev (lstrip_ws (rev (lstrip_ws (list_ascii_of_string s))))).

(** [needle in hay]. *)
Fixpoint py_contains (needle hay : string) : bool :=
  String.prefix needle hay ||
  match hay with
  | EmptyString => false
  | String _ hay' => py_contains needle hay'
  end.

(** [s.splitlines()]: the ASCII line boundaries are LF, CR, CR LF, VT,
    FF and 0x1c-0x1e; a final line without terminator is kept, a final
    terminator does not produce an empty line. *)
Definition is_line_break (c : ascii) : bool :=
  let n := nat_of_ascii c in
  ((10 <=? n) && (n <=? 13))%nat || ((28 <=? n) && (n <=? 30))%nat.

Fixpoint splitlines_go (cur : list ascii) (l : list ascii) : list string :=
  match l with
  | [] => match cur with [] => [] | _ => [string_of_list_ascii (rev cur)] end
  | c :: l' =>
      if is_line_break c then
        let rest := match c, l' with
                    | "013"%char, "010"%char :: l'' => l''
                    | _, _ => l'
                    end in
        string_of_list_ascii (rev cur) :: splitlines_go [] rest
      else splitlines_go (c :: cur) l'
  end.

Definition py_splitlines (s : string) : list string :=
  splitlines_go [] (list_ascii_of_string s).

(** [s.split()]: maximal runs of non-whitespace characters. *)
Fixpoint split_ws_go (cur : list ascii) (l : list ascii) : list string :=
  match l with
  | [] => match cur with [] => [] | _ => [string_of_list_ascii (rev cur)] end
  | c :: l' =>
      if is_space c then
        match cur with
        | [] => split_ws_go [] l'
        | _ => string_of_list_ascii (rev cur) :: split_ws_go [] l'
        end
      else split_ws_go (c :: cur) l'
  end.

Definition py_split_ws (s : string) : list string :=
  split_ws_go [] (list_ascii_of_string s).

(** ** Python integers and lists *)

(** [a % n]: Python's modulo rounds the quotient towards minus infinity,
    which is [Z.modulo]. *)
Definition py_mod (a n : Z) : Z := a mod n.

(** [l[i]]: a negative index counts from the end; [None] is IndexError. *)
Definition py_index {A} (l : list A) (i : Z) : option A :=
  if 0 <=? i then l !! Z.to_nat i
  else if - Z.of_nat (length l) <=? i then l !! Z.to_nat (Z.of_nat (length l) + i)
  else None.

(** ** Python dicts

    A dict is an association list in insertion order: [d[k] = v] replaces
    the value in place when [k] is present and appends otherwise. *)
Definition pydict (V : Type) := list (string * V).

Fixpoint dict_get {V} (k : string) (d : pydict V) : option V :=
  match d with
  | [] => None
  | (k', v) :: d' => if String.eqb k k' then Some v else dict_get k d'
  end.

Fixpoint dict_set {V} (k : string) (v : V) (d : pydict V) : pydict V :=
  match d with
  | [] => [(k, v)]
  | (k', v') :: d' =>
      if String.eqb k k' then (k', v) :: d' else (k', v') :: dict_set k v d'
  end.

Definition dict_keys {V} (d : pydict V) : list string := map fst d.

(** ** Python exceptions and the state and exception monad *)

Inductive exn :=
| ImportError (module : string)
| NameError (name : string)
| OSError (msg : string)
| IndexError (msg : string)
| RequestException (msg : string)
| SSLError (msg : string)
| Exception (msg : string)
| CalledProcessError (msg : string)
| ValueError (msg : string)
| MarkupError (msg : string)
| EOFError
| KeyboardInterrupt.

(** [str(e)]: the message an exception was raised with. *)
Definition exn_msg (e : exn) : string :=
  match e with
  | ImportError m => "No module named '" +:+ m +:+ "'"
  | NameError n => "name '" +:+ n +:+ "' is not defined"
  | OSError m | IndexError m | RequestException m | SSLError m | Exception m
  | CalledProcessError m | ValueError m | MarkupError m => m
  | EOFError | KeyboardInterrupt => ""
  end.

Inductive res (A : Type) :=
| Ok (a : A)
| Err (e : exn).
Arguments Ok {A} a.
Arguments Err {A} e.

(** A computation reads and writes a state [S] and returns a value or
    raises; the writes done before a raise are kept, as in Python. *)
Definition PyM (S A : Type) := S -> res A * S.

Definition ret {S A} (a : A) : PyM S A := fun s => (Ok a, s).

Definition bind {S A B} (m : PyM S A) (k : A -> PyM S B) : PyM S B :=
  fun s => match m s with
           | (Ok a, s') => k a s'
           | (Err e, s') => (Err e, s')
           end.

Definition raise {S A} (e : exn) : PyM S A := fun s => (Err e, s).

(** [try: m except (matching exceptions): h]; other exceptions
    propagate. *)
Definition try_except {S A} (m : PyM S A) (catches : exn -> bool)
    (h : exn -> PyM S A) : PyM S A :=
  fun s => match m s with
           | (Err e, s') => if catches e then h e s' else (Err e, s')
           | r => r
           end.

(** A pure computation that may raise, run in the monad. *)
Definition from_res {S A} (r : res A) : PyM S A := fun s => (r, s).

Definition get {S} : PyM S S := fun s => (Ok s, s).
Definition modify {S} (f : S -> S) : PyM S unit := fun s => (Ok tt, f s).

Notation "x <- m ;; k" := (bind m (fun x => k))
  (at level 100, m at next level, right associativity) : py_scope.
Notation "m ;; k" := (bind m (fun _ => k))
  (at level 100, right associativity) : py_scope.

Definition catch_all (_ : exn) : bool := true.

(** ** Generic lemmas *)

Lemma bind_ret_l {S A B} (a : A) (k : A -> PyM S B) s :
  bind (ret a) k s = k a s.
Proof. reflexivity. Qed.

Lemma bind_assoc {S A B C} (m : PyM S A) (k : A -> PyM S B) (h : B -> PyM S C) s :
  bind (bind m k) h s = bind m (fun a => bind (k a) h) s.
Proof. unfold bind. destruct (m s) as [[a|e] s']; reflexivity. Qed.

Lemma py_mod_bound a n : 0 < n -> 0 <= py_mod a n < n.
Proof. intros Hn. unfold py_mod. apply Z.mod_pos_bound; lia. Qed.

Lemma py_index_nonneg {A} (l : list A) i :
  0 <= i < Z.of_nat (length l) -> exists x, py_index l i = Some x /\ x ∈ l.
Proof.
  intros [H0 H1]. unfold py_index.
  destruct (Z.leb_spec 0 i); [|lia].
  destruct (lookup_lt_is_Some_2 l (Z.to_nat i)) as [x Hx]; [lia|].
  exists x. split; [done|]. by eapply list_elem_of_lookup_2.
Qed.

Lemma dict_get_set_eq {V} k (v : V) d : dict_get k (dict_set k v d) = Some v.
Proof.
  induction d as [|[k' v'] d IH]; simpl; [by rewrite String.eqb_refl|].
  destruct (String.eqb_spec k k'); simpl.
  - subst. by rewrite String.eqb_refl.
  - apply String.eqb_neq in n. by rewrite n.
Qed.

Lemma dict_get_set_ne {V} k k' (v : V) d :
  k <> k' -> dict_get k' (dict_set k v d) = dict_get k' d.
Proof.
  intros Hne. induction d as [|[k0 v0] d IH]; simpl.
  - destruct (String.eqb_spec k' k); [congruence|done].
  - destruct (String.eqb_spec k k0); simpl.
    + subst. destruct (String.eqb_spec k' k0); [congruence|done].
    + by rewrite IH.
Qed.

Lemma dict_keys_set {V} k (v : V) d :
  dict_keys (dict_set k v d) =
  if bool_decide (k ∈ dict_keys d) then dict_keys d else dict_keys d ++ [k].
Proof.
  induction d as [|[k0 v0] d IH]; simpl; [done|].
  destruct (String.eqb_spec k k0) as [->|Hne]; simpl.
  - rewrite bool_decide_true; [done|]. by left.
  - rewrite IH. destruct (decide (k ∈ dict_keys d)) as [Hin|Hin].
    + rewrite (bool_decide_true (k ∈ k0 :: dict_keys d)); [|by right].
      by rewrite bool_decide_true.
    + rewrite (bool_decide_false (k ∈ k0 :: dict_keys d));
        [|rewrite elem_of_cons; tauto].
      by rewrite bool_decide_false.
Qed.

(** A text without line boundaries is one line, or none if empty. *)
Lemma splitlines_go_no_break (l cur : list ascii) :
  forallb (fun c => negb (is_line_break c)) l = true ->
  splitlines_go cur l =
  match rev cur ++ l with [] => [] | l' => [string_of_list_ascii l'] end.
Proof.
  revert cur. induction l as [|c l IH]; intros cur Hl; simpl.
  - rewrite app_nil_r. destruct cur as [|a cur]; [done|].
    simpl. by destruct (rev cur ++ [a]) eqn:E; [apply app_eq_nil in E as [_ ?]|].
  - apply andb_true_iff in Hl as [Hc Hl]. apply negb_true_iff in Hc. rewrite Hc.
    rewrite IH by done. simpl. by rewrite <- app_assoc.
Qed.

Lemma py_splitlines_one_line (s : string) :
  s <> "" -> forallb (fun c => negb (is_line_break c)) (list_ascii_of_string s) = true ->
  py_splitlines s = [s].
Proof.
  intros Hs Hl. unfold py_splitlines. rewrite splitlines_go_no_break by done.
  simpl. destruct s as [|c s]; [done|]. cbn [list_ascii_of_string].
  by rewrite <- (string_of_list_ascii_of_string (String c s)).
Qed.

Lemma forallb_rev {A} (p : A -> bool) l : forallb p (rev l) = forallb p l.
Proof.
  induction l as [|x l IH]; simpl; [done|].
  rewrite forallb_app, IH. simpl. by rewrite andb_true_r, andb_comm.
Qed.

(** Setting a key keeps the keys of a dict pairwise distinct. *)
Lemma dict_set_nodup {V} k (v : V) d :
  NoDup (dict_keys d) -> NoDup (dict_keys (dict_set k v d)).
Proof.
  intros Hnd. rewrite dict_keys_set. case_bool_decide as Hin; [done|].
  apply NoDup_app. split; [done|]. split; [|apply NoDup_singleton].
  intros x Hx Hx'. apply list_elem_of_singleton in Hx'. subst. contradiction.
Qed.

(** Indexing by [a % len(l)] always hits, at the non-negative position. *)
Lemma py_index_mod {A} (l : list A) a :
  l <> [] ->
  exists x, py_index l (py_mod a (Z.of_nat (length l))) = Some x /\
            l !! Z.to_nat (a mod Z.of_nat (length l)) = Some x /\ x ∈ l.
Proof.
  intros Hne. assert (0 < Z.of_nat (length l)) as Hlen.
  { destruct l; [congruence|simpl; lia]. }
  destruct (py_index_nonneg l (py_mod a (Z.of_nat (length l)))) as [x [Hx Hin]].
  { by apply py_mod_bound. }
  exists x. split; [done|]. split; [|done].
  unfold py_index, py_mod in Hx. destruct (Z.leb_spec 0 (a mod Z.of_nat (length l))).
  - done.
  - pose proof (Z.mod_pos_bound a (Z.of_nat (length l)) Hlen). lia.
Qed.

(** stdpp makes [String.append] opaque to [simpl]; these are its two
    defining equations. *)
Lemma append_nil (b : string) : "" +:+ b = b.
Proof. reflexivity. Qed.

Lemma append_cons c (a b : string) : String c a +:+ b = String c (a +:+ b).
Proof. reflexivity. Qed.

Lemma append_empty_r (a : string) : a +:+ "" = a.
Proof. induction a; rewrite ?append_nil, ?append_cons; congruence. Qed.

Lemma prefix_empty (s : string) : String.prefix "" s = true.
Proof. by destruct s. Qed.

Lemma in_firstn_in {A} n (l : list A) x : In x (firstn n l) -> In x l.
Proof. intros H. rewrite <- (firstn_skipn n l). apply in_or_app. by left. Qed.

Lemma list_ascii_app (a b : string) :
  list_ascii_of_string (a +:+ b) = list_ascii_of_string a ++ list_ascii_of_string b.
Proof. induction a; rewrite ?append_nil, ?append_cons; simpl; congruence. Qed.

Lemma string_app_assoc (a b c : string) : a +:+ (b +:+ c) = (a +:+ b) +:+ c.
Proof. induction a; rewrite ?append_nil, ?append_cons; congruence. Qed.

Lemma list_ascii_inj (a b : string) :
  list_ascii_of_string a = list_ascii_of_string b -> a = b.
Proof.
  intros H. rewrite <- (string_of_list_ascii_of_string a), H.
  apply string_of_list_ascii_of_string.
Qed.

Lemma length_list_ascii (s : string) :
  List.length (list_ascii_of_string s) = String.length s.
Proof. induction s; simpl; congruence. Qed.

(** Strings with a common prefix compare as their rests. *)
Lemma string_app_eqb_l (b x y : string) : String.eqb (b +:+ x) (b +:+ y) = String.eqb x y.
Proof.
  destruct (String.eqb_spec x y) as [->|Hne]; [apply String.eqb_refl|].
  apply String.eqb_neq. intros H. apply Hne. apply (f_equal list_ascii_of_string) in H.
  rewrite !list_ascii_app in H. apply app_inv_head in H. by apply list_ascii_inj.
Qed.

Lemma string_app_eqb_self (b x : string) : x <> "" -> String.eqb (b +:+ x) b = false.
Proof.
  intros Hx. apply String.eqb_neq. intros H.
  apply (f_equal (fun s => List.length (list_ascii_of_string s))) in H.
  rewrite list_ascii_app, length_app in H. destruct x; [done|simpl in H; lia].
Qed.

Lemma string_app_eqb_self_r (b x : string) : x <> "" -> String.eqb b (b +:+ x) = false.
Proof. intros Hx. rewrite String.eqb_sym. by apply string_app_eqb_self. Qed.

(** Two concatenations with suffixes of the same length are equal only
    component-wise. *)
Lemma string_app_inj_suffix (a b s1 s2 : string) :
  String.length s1 = String.length s2 -> a +:+ s1 = b +:+ s2 -> a = b /\ s1 = s2.
Proof.
  intros Hl Heq. apply (f_equal list_ascii_of_string) in Heq.
  rewrite !list_ascii_app in Heq. apply app_inj_2 in Heq as [Ha Hs].
  - split; by apply list_ascii_inj.
  - by rewrite !length_list_ascii.
Qed.

Lemma startswith_slash_cons a x y :
  py_startswith (String a x) "/" = py_startswith (String a y) "/".
Proof.
  unfold py_startswith. cbn -[ascii_dec].
  destruct (ascii_dec "/" a); by rewrite ?prefix_empty.
Qed.

(** Appending a suffix that does not start with a separator commutes
    with [os.path.join]. *)
Lemma path_join_app (d h sfx : string) :
  py_startswith sfx "/" = false ->
  path_join d (h +:+ sfx) = path_join d h +:+ sfx.
Proof.
  intros Hs. unfold path_join.
  assert (py_startswith (h +:+ sfx) "/" =
          if String.eqb h "" then false else py_startswith h "/") as ->.
  { destruct h; [done|]. rewrite append_cons. apply startswith_slash_cons. }
  destruct (String.eqb_spec h ""); simpl.
  - subst. rewrite append_nil. destruct (String.eqb d ""); [done|].
    destruct (py_endswith d "/"); [by rewrite append_empty_r|].
    by rewrite string_app_assoc.
  - destruct (py_startswith h "/"); [done|].
    destruct (String.eqb d ""); [done|].
    destruct (py_endswith d "/"); by rewrite !string_app_assoc.
Qed.

#[export] Hint Resolve dict_set_nodup py_mod_bound : raproxy.
#[export] Hint Rewrite @dict_get_set_eq @bind_ret_l : raproxy_rw.

(** Unfold the monad and the definitions [ds], then split on the tests
    the code performs. *)
Ltac py_run := unfold bind, ret, raise, try_except, get, modify in *; simpl in *.
