(* ===== verification/Config.v ===== *)
(** * The state of [ProxyEngine] (src/proxy_engine.py, lines 11-35 and 85-95)

    The engine keeps a configuration dict, the port, the proxy pool (an
    attribute of its own, distinct from the [proxy_pool] entry of the
    dict) and the running flag.  The dict is modelled as a record with
    one field per key that [__init__] creates; [set_config] is modelled
    for those keys, the only ones any caller writes.  [config_items] is
    the dict itself, in the order [status] prints it. *)

From S2P Require Import Prelude.

Module Engine.

(** [self.config]: the six keys created by [__init__]. *)
Record Config := {
  ip_rotation : string;
  tor_enabled : bool;
  anti_fingerprint : bool;
  headers : pydict string;
  cfg_proxy_pool : list string;
  mitm_enabled : bool
}.

(** [ProxyEngine]: the attributes that outlive [__init__]. *)
Record ProxyEngine := {
  config : Config;
  port : Z;
  proxy_pool : list string;
  running : bool;
  cert_dir : string
}.

(** [ProxyEngine.__init__]; [home] is the value [~] expands to. *)
Definition init_engine (home : string) : ProxyEngine := {|
  config := {| ip_rotation := "disabled"; tor_enabled := false;
               anti_fingerprint := false; headers := [];
               cfg_proxy_pool := []; mitm_enabled := false |};
  port := 8080;
  proxy_pool := [];
  running := false;
  cert_dir := home +:+ "/.raproxy/certs"
|}.

(** A key of the dict with a value of its type. *)
Inductive setting :=
| Set_ip_rotation (v : string)
| Set_tor_enabled (v : bool)
| Set_anti_fingerprint (v : bool)
| Set_headers (v : pydict string)
| Set_proxy_pool (v : list string)
| Set_mitm_enabled (v : bool).

Definition update_config (s : setting) (c : Config) : Config :=
  match s with
  | Set_ip_rotation v => {| ip_rotation := v; tor_enabled := tor_enabled c;
      anti_fingerprint := anti_fingerprint c; headers := headers c;
      cfg_proxy_pool := cfg_proxy_pool c; mitm_enabled := mitm_enabled c |}
  | Set_tor_enabled v => {| ip_rotation := ip_rotation c; tor_enabled := v;
      anti_fingerprint := anti_fingerprint c; headers := headers c;
      cfg_proxy_pool := cfg_proxy_pool c; mitm_enabled := mitm_enabled c |}
  | Set_anti_fingerprint v => {| ip_rotation := ip_rotation c;
      tor_enabled := tor_enabled c; anti_fingerprint := v; headers := headers c;
      cfg_proxy_pool := cfg_proxy_pool c; mitm_enabled := mitm_enabled c |}
  | Set_headers v => {| ip_rotation := ip_rotation c; tor_enabled := tor_enabled c;
      anti_fingerprint := anti_fingerprint c; headers := v;
      cfg_proxy_pool := cfg_proxy_pool c; mitm_enabled := mitm_enabled c |}
  | Set_proxy_pool v => {| ip_rotation := ip_rotation c; tor_enabled := tor_enabled c;
      anti_fingerprint := anti_fingerprint c; headers := headers c;
      cfg_proxy_pool := v; mitm_enabled := mitm_enabled c |}
  | Set_mitm_enabled v => {| ip_rotation := ip_rotation c; tor_enabled := tor_enabled c;
      anti_fingerprint := anti_fingerprint c; headers := headers c;
      cfg_proxy_pool := cfg_proxy_pool c; mitm_enabled := v |}
  end.

Definition with_config (c : Config) (e : ProxyEngine) : ProxyEngine :=
  {| config := c; port := port e; proxy_pool := proxy_pool e;
     running := running e; cert_dir := cert_dir e |}.

(** [set_config(key, value)]: [self.config[key] = value]. *)
Definition set_config (s : setting) (e : ProxyEngine) : ProxyEngine :=
  with_config (update_config s (config e)) e.

(** [add_header(key, val)]: [self.config["headers"][key] = val]. *)
Definition add_header (k v : string) (e : ProxyEngine) : ProxyEngine :=
  set_config (Set_headers (dict_set k v (headers (config e)))) e.

(** [update_proxy_pool(proxies)]: replaces the engine's pool; the
    [proxy_pool] entry of the dict is left as it is. *)
Definition update_proxy_pool (ps : list string) (e : ProxyEngine) : ProxyEngine :=
  {| config := config e; port := port e; proxy_pool := ps;
     running := running e; cert_dir := cert_dir e |}.

(** [start_proxy()]: returns at once when running; otherwise sets the
    flag and starts the server thread, reported by the boolean. *)
Definition start_proxy (e : ProxyEngine) : ProxyEngine * bool :=
  if running e then (e, false)
  else ({| config := config e; port := port e; proxy_pool := proxy_pool e;
           running := true; cert_dir := cert_dir e |}, true).

(** [_run_server()] binds [("", self.port)]: the empty host is every
    interface.  The bind outcome is the argument [bind_ok]. *)
Definition listen_address (e : ProxyEngine) : string * Z := (""%string, port e).

Inductive server := Serving (addr : string * Z) | Crashed (e : exn).

Definition run_server (bind_result : option exn) (e : ProxyEngine) : server :=
  match bind_result with
  | None => Serving (listen_address e)
  | Some x => Crashed x
  end.

(** ** The dict behind the record

    [self.config] is a Python dict from key strings to values of four
    Python types; the record [Config] is its typed view.  [config_items]
    is the dict a record stands for, in the insertion order of
    [__init__] (lines 13-20), which is the order [config.items()]
    iterates in [cmd_status]. *)
Inductive pyval :=
| PyStr (s : string)
| PyBool (b : bool)
| PyDict (d : pydict string)
| PyList (l : list string).

Definition config_items (c : Config) : pydict pyval :=
  [("ip_rotation", PyStr (ip_rotation c));
   ("tor_enabled", PyBool (tor_enabled c));
   ("anti_fingerprint", PyBool (anti_fingerprint c));
   ("headers", PyDict (headers c));
   ("proxy_pool", PyList (cfg_proxy_pool c));
   ("mitm_enabled", PyBool (mitm_enabled c))].

(** Header names are case-sensitive dict keys: setting "X-A" and then
    "x-a" keeps two headers, where the spec asks for names unique up to
    case. *)
Theorem add_header_case_sensitive home :
  headers (config (add_header "x-a" "2" (add_header "X-A" "1" (init_engine home)))) =
  [("X-A", "1"); ("x-a", "2")].
Proof. reflexivity. Qed.

End Engine.
