(* ===== verification/Markup.v ===== *)
(** * What [console.print] renders: rich's markup and Python's [str]

    Every [console.print(text)] of src/raproxy.py renders [text] as rich
    console markup before it writes anything ([rich.markup.render]), and
    raises [rich.errors.MarkupError] on a closing tag that closes
    nothing.  Two call sites of the shell print text the user typed:
    [cmd_set_header] (line 173) prints the header's name and value inside
    [[green]...[/green]], and [cmd_status] (line 178) prints [str(v)] of
    each value of the config dict, where the headers dict is printed as
    its [repr].  This file holds:
    - [markup_check]: rich's tag scanner ([RE_TAGS.finditer]: a run of
      backslashes, an opening bracket, a character of [a-z#/@], and the
      shortest text up to a closing bracket with no opening bracket in
      it) and its tag stack,
      as a structural automaton over the bytes of the text, with the
      error messages and positions (in code points) rich reports;
    - [py_repr], [py_str_val]: Python's [repr] of a [str] and [str] of the
      four value types of the config dict;
    - [header_line], [status_line]: the f-strings of lines 173 and 178.
    The code modelled here is rich's and CPython's, not the repository's;
    [Style.normalize] is taken as [strip().lower()], which is what it
    returns on every single-word style, and the literal evaluation of
    the parameters of [@] meta tags is not modelled. *)

From S2P Require Import Prelude Config.
Import Engine.

Module Markup.

(** ** rich.markup.render *)

(** [[a-z#/@]]: the first character of a tag. *)
Definition tag_start (c : ascii) : bool :=
  let n := nat_of_ascii c in
  ((97 <=? n) && (n <=? 122))%nat || Ascii.eqb c "#" || Ascii.eqb c "/" || Ascii.eqb c "@".

(** Positions count code points: every byte but a UTF-8 continuation
    byte starts one. *)
Definition starts_code_point (c : ascii) : bool :=
  negb ((128 <=? nat_of_ascii c) && (nat_of_ascii c <=? 191))%nat.

(** [Style.normalize] on a single-word style. *)
Definition style_normalize (s : string) : string := py_lower (py_strip s).

(** [text.partition("=")[0]]. *)
Fixpoint before_eq (l : list ascii) : list ascii :=
  match l with
  | [] => []
  | c :: l' => if Ascii.eqb c "=" then [] else c :: before_eq l'
  end.

(** [pop_style]: remove the most recent open tag of that name. *)
Fixpoint pop_style (name : string) (stack : list string) : option (list string) :=
  match stack with
  | [] => None
  | t :: st => if String.eqb t name then Some st
               else option_map (cons t) (pop_style name st)
  end.

(** The stack is kept most recent first. *)
Definition close_tag_error (body : string) (pos : nat) : exn :=
  MarkupError ("closing tag '[" +:+ body +:+ "]' at position " +:+
               pretty (N.of_nat pos) +:+ " doesn't match any open tag").

Definition implicit_close_error (pos : nat) : exn :=
  MarkupError ("closing tag '[/]' at position " +:+ pretty (N.of_nat pos) +:+
               " has nothing to close").

(** The loop body of [render] for one unescaped tag found at [pos]. *)
Definition apply_tag (body : list ascii) (pos : nat) (stack : list string)
    : res (list string) :=
  match before_eq body with
  | "/"%char :: rest =>
      let style_name := py_strip (string_of_list_ascii rest) in
      if String.eqb style_name "" then
        match stack with
        | [] => Err (implicit_close_error pos)
        | _ :: st => Ok st
        end
      else match pop_style (style_normalize style_name) stack with
           | Some st => Ok st
           | None => Err (close_tag_error (string_of_list_ascii body) pos)
           end
  | name => Ok (style_normalize (string_of_list_ascii name) :: stack)
  end.

(** Where [finditer] is: in text; after [k] backslashes; at a [[] with
    [k] backslashes before it, at code point [p]; inside the tag body
    (kept reversed). *)
Inductive scan :=
| SText
| SBs (k : nat)
| SOpen (k p : nat)
| SBody (k p : nat) (body : list ascii).

(** The state after a character [c] at code point [p] read in text. *)
Definition text_step (c : ascii) (p : nat) : scan :=
  if Ascii.eqb c "\" then SBs 1
  else if Ascii.eqb c "[" then SOpen 0 p
  else SText.

Fixpoint leading_bs (l : list ascii) : nat :=
  match l with
  | c :: l' => if Ascii.eqb c "\" then S (leading_bs l') else 0
  | [] => 0
  end.

(** What the scanner carries from one byte to the next: where it is,
    the code point it is at, and the stack of open tags. *)
Definition cursor := (scan * nat * list string)%type.

(** One byte [c] of the text.  A failed match at a [[] resumes at the
    next character; a body cut by a [[] is text whose trailing
    backslashes escape that [[].  An odd number of backslashes escapes
    the tag. *)
Definition markup_step (c : ascii) (cfg : cursor) : res cursor :=
  let '(st, pos, stack) := cfg in
  let pos' := if starts_code_point c then S pos else pos in
  match st with
  | SText => Ok (text_step c pos, pos', stack)
  | SBs k =>
      if Ascii.eqb c "\" then Ok (SBs (S k), pos', stack)
      else if Ascii.eqb c "[" then Ok (SOpen k pos, pos', stack)
      else Ok (SText, pos', stack)
  | SOpen k p =>
      if tag_start c then Ok (SBody k p [c], pos', stack)
      else Ok (text_step c pos, pos', stack)
  | SBody k p b =>
      if Ascii.eqb c "]" then
        if Nat.even k then
          match apply_tag (rev b) p stack with
          | Ok stack' => Ok (SText, pos', stack')
          | Err e => Err e
          end
        else Ok (SText, pos', stack)
      else if Ascii.eqb c "[" then Ok (SOpen (leading_bs b) pos, pos', stack)
      else Ok (SBody k p (c :: b), pos', stack)
  end.

Fixpoint markup_go (cfg : cursor) (l : list ascii) : res cursor :=
  match l with
  | [] => Ok cfg
  | c :: l' =>
      match markup_step c cfg with
      | Ok cfg' => markup_go cfg' l'
      | Err e => Err e
      end
  end.

(** [rich.markup.render(text)]: [Err] is the [MarkupError] it raises. *)
Definition markup_check (text : string) : res unit :=
  match markup_go (SText, 0%nat, []) (list_ascii_of_string text) with
  | Ok _ => Ok tt
  | Err e => Err e
  end.

(** ** Python's str and repr *)

Definition hex_digit (n : nat) : ascii :=
  if (n <? 10)%nat then ascii_of_nat (48 + n) else ascii_of_nat (87 + n).

(** One character of [repr(s)], with [q] the quote chosen. *)
Definition repr_char (q c : ascii) : string :=
  let n := nat_of_ascii c in
  if Ascii.eqb c q || Ascii.eqb c "\" then String "\" (String c "")
  else if (n =? 9)%nat then "\t"
  else if (n =? 10)%nat then "\n"
  else if (n =? 13)%nat then "\r"
  else if (n <? 32)%nat || (n =? 127)%nat then
    String "\" (String "x" (String (hex_digit (n / 16)) (String (hex_digit (n mod 16)) "")))
  else String c "".

(** [repr(s)]: single quotes unless the text has one and no double
    quote.  Bytes above 0x7f are kept, as for printable code points. *)
Definition py_repr (s : string) : string :=
  let q := if py_contains "'" s && negb (py_contains (String "034" "") s)
           then "034"%char else "'"%char in
  String q (String.concat "" (map (repr_char q) (list_ascii_of_string s)) +:+ String q "").

(** [str(v)] of a value of the config dict. *)
Definition py_str_val (v : pyval) : string :=
  match v with
  | PyStr s => s
  | PyBool b => if b then "True" else "False"
  | PyDict d =>
      "{" +:+ String.concat ", " (map (fun kv => py_repr kv.1 +:+ ": " +:+ py_repr kv.2) d)
      +:+ "}"
  | PyList l => "[" +:+ String.concat ", " (map py_repr l) +:+ "]"
  end.

(** ** The two lines of the shell that print user data *)

(** Line 173: [f"[green]✓ Header '{key}' = '{val}'[/green]"]. *)
Definition header_line (k v : string) : string :=
  "[green]" +:+ String "226" (String "156" (String "147" (" Header '" +:+ k +:+ "' = '" +:+ v
  +:+ "'[/green]"))).

(** Line 178: [f"  {k}: {v}"]. *)
Definition status_line (k : string) (v : pyval) : string :=
  "  " +:+ k +:+ ": " +:+ py_str_val v.

(** ** Scanning a text piece by piece *)

(** The bytes of a bare word: ASCII letters, digits, [-] and [_]. *)
Definition word_char (c : ascii) : bool :=
  let n := nat_of_ascii c in
  ((48 <=? n) && (n <=? 57))%nat || ((65 <=? n) && (n <=? 90))%nat ||
  ((97 <=? n) && (n <=? 122))%nat || (n =? 45)%nat || (n =? 95)%nat.

Definition is_word (s : string) : bool :=
  negb (String.eqb s "") && forallb word_char (list_ascii_of_string s).

Lemma markup_go_app cfg l1 l2 :
  markup_go cfg (l1 ++ l2) =
  match markup_go cfg l1 with Ok cfg' => markup_go cfg' l2 | Err e => Err e end.
Proof.
  revert cfg. induction l1 as [|c l1 IH]; intros cfg; simpl; [done|].
  destruct (markup_step c cfg); [apply IH|done].
Qed.

(** What a word byte is not. *)
Lemma word_char_spec c :
  word_char c = true ->
  Ascii.eqb c "\" = false /\ Ascii.eqb c "[" = false /\ Ascii.eqb c "]" = false /\
  Ascii.eqb c "=" = false /\ Ascii.eqb c "'" = false /\ Ascii.eqb c "034" = false /\
  is_space c = false /\ starts_code_point c = true /\ repr_char "'" c = String c "".
Proof.
  destruct c as [[] [] [] [] [] [] [] []]; vm_compute; intros H;
    first [discriminate | repeat split].
Qed.

(** A word in text is text, one code point per byte. *)
Lemma text_words pos stack l :
  forallb word_char l = true -> markup_go (SText, pos, stack) l = Ok (SText, pos + length l, stack)%nat.
Proof.
  revert pos. induction l as [|c l IH]; intros pos Hl; simpl; [by rewrite Nat.add_0_r|].
  apply andb_prop in Hl as [Hc Hl].
  destruct (word_char_spec c Hc) as (H1 & H2 & _ & _ & _ & _ & _ & H8 & _).
  unfold text_step. rewrite H1, H2, H8, IH by done. by rewrite Nat.add_succ_r.
Qed.

(** A word in a tag body is part of the body. *)
Lemma body_words k p acc pos stack l :
  forallb word_char l = true ->
  markup_go (SBody k p acc, pos, stack) l = Ok (SBody k p (rev l ++ acc), pos + length l, stack)%nat.
Proof.
  revert acc pos. induction l as [|c l IH]; intros acc pos Hl; simpl; [by rewrite Nat.add_0_r|].
  apply andb_prop in Hl as [Hc Hl].
  destruct (word_char_spec c Hc) as (_ & H2 & H3 & _ & _ & _ & _ & H8 & _).
  rewrite H2, H3, H8, IH by done. rewrite <- app_assoc. by rewrite Nat.add_succ_r.
Qed.

Lemma lstrip_words l : forallb word_char l = true -> lstrip_ws l = l.
Proof.
  destruct l as [|c l]; [done|]. simpl. intros [Hc _]%andb_prop.
  by destruct (word_char_spec c Hc) as (_ & _ & _ & _ & _ & _ & -> & _).
Qed.

Lemma py_strip_word s : forallb word_char (list_ascii_of_string s) = true -> py_strip s = s.
Proof.
  intros Hs. unfold py_strip.
  rewrite (lstrip_words (list_ascii_of_string s)), (lstrip_words (rev _)), rev_involutive
    by (rewrite ?forallb_rev; done).
  apply string_of_list_ascii_of_string.
Qed.

Lemma before_eq_words l : forallb word_char l = true -> before_eq l = l.
Proof.
  induction l as [|c l IH]; simpl; [done|]. intros [Hc Hl]%andb_prop.
  destruct (word_char_spec c Hc) as (_ & _ & _ & -> & _). by rewrite IH.
Qed.

(** A closing tag of a word with no tag open raises. *)
Lemma apply_tag_unopened t p :
  is_word t = true ->
  apply_tag ("/"%char :: list_ascii_of_string t) p [] = Err (close_tag_error ("/" +:+ t) p).
Proof.
  intros [Hne Ht]%andb_prop. unfold apply_tag. cbn [before_eq Ascii.eqb Bool.eqb].
  rewrite before_eq_words, string_of_list_ascii_of_string, py_strip_word by done.
  apply negb_true_iff in Hne. rewrite Hne. cbn [pop_style].
  cbn [string_of_list_ascii]. by rewrite string_of_list_ascii_of_string, append_cons, append_nil.
Qed.

Lemma concat_empty_cons x xs : String.concat "" (x :: xs) = x +:+ String.concat "" xs.
Proof. destruct xs; simpl; [by rewrite append_empty_r|by rewrite append_nil]. Qed.

Lemma concat_empty_app xs ys :
  String.concat "" (xs ++ ys) = String.concat "" xs +:+ String.concat "" ys.
Proof.
  induction xs as [|x xs IH]; [by rewrite append_nil|].
  by rewrite <- app_comm_cons, !concat_empty_cons, IH, string_app_assoc.
Qed.

Lemma repr_words s :
  forallb word_char (list_ascii_of_string s) = true ->
  String.concat "" (map (repr_char "'") (list_ascii_of_string s)) = s.
Proof.
  induction s as [|c s IH]; [done|]. cbn [list_ascii_of_string map forallb]. intros [Hc Hs]%andb_prop.
  rewrite concat_empty_cons, IH by done.
  by destruct (word_char_spec c Hc) as (_ & _ & _ & _ & _ & _ & _ & _ & ->).
Qed.

Lemma py_contains_absent c s :
  forallb (fun d => negb (Ascii.eqb d c)) (list_ascii_of_string s) = true ->
  py_contains (String c "") s = false.
Proof.
  induction s as [|d s IH]; [done|]. cbn [list_ascii_of_string forallb].
  intros [Hd Hs]%andb_prop. simpl. rewrite IH by done.
  destruct (ascii_dec c d) as [->|]; [by rewrite Ascii.eqb_refl in Hd|done].
Qed.

Lemma words_no_quote l : forallb word_char l = true -> forallb (fun d => negb (Ascii.eqb d "'")) l = true.
Proof.
  rewrite !forallb_forall. intros H x Hx.
  by destruct (word_char_spec x (H x Hx)) as (_ & _ & _ & _ & -> & _).
Qed.

(** [repr] of a word quotes it. *)
Lemma py_repr_word s : forallb word_char (list_ascii_of_string s) = true -> py_repr s = "'" +:+ s +:+ "'".
Proof.
  intros Hs. unfold py_repr. rewrite py_contains_absent by (by apply words_no_quote).
  cbn [andb]. by rewrite repr_words, append_cons, append_nil.
Qed.

(** [repr] doubles the backslash that escapes a tag. *)
Lemma py_repr_escaped t :
  forallb word_char (list_ascii_of_string t) = true ->
  py_repr ("\[/" +:+ t +:+ "]") = "'\\[/" +:+ t +:+ "]'".
Proof.
  intros Ht. unfold py_repr. rewrite py_contains_absent.
  2: { rewrite !list_ascii_app, !forallb_app, (words_no_quote (list_ascii_of_string t)) by done. done. }
  cbn [andb]. rewrite !list_ascii_app, !map_app, !concat_empty_app, (repr_words t) by done.
  by rewrite <- !string_app_assoc.
Qed.

Lemma header_line_app k v :
  header_line k v =
  "[green]" +:+ String "226" (String "156" (String "147" "")) +:+ " Header '" +:+ k +:+
  "' = '" +:+ v +:+ "'[/green]".
Proof. reflexivity. Qed.

(** Scan the first piece of the text: a word by [text_words] or
    [body_words], a piece of the program's own text by evaluation. *)
Ltac markup_piece :=
  match goal with
  | |- context [markup_go ?cfg (?l1 ++ ?l2)] =>
      rewrite (markup_go_app cfg l1 l2);
      first [ rewrite (text_words _ _ l1) by done
            | rewrite (body_words _ _ _ _ _ l1) by done
            | let r := eval vm_compute in (markup_go cfg l1) in change (markup_go cfg l1) with r ];
      cbv beta iota
  end.

(** C14 Escaping a tag does not protect [status]: a header whose value is
    a closing tag escaped with a backslash, as rich's documentation
    advises, is echoed by [set header] without error, but [status]
    prints the [repr] of the headers dict, which doubles the backslash;
    the tag is then no longer escaped and rich raises [MarkupError] on
    it. *)
Theorem escaped_tag_breaks_status k t :
  is_word k = true -> is_word t = true ->
  markup_check (header_line k ("\[/" +:+ t +:+ "]")) = Ok tt /\
  exists pos, markup_check (status_line "headers" (PyDict [(k, "\[/" +:+ t +:+ "]")])) =
              Err (close_tag_error ("/" +:+ t) pos).
Proof.
  intros Hk Ht. pose proof Hk as [_ Hk']%andb_prop. pose proof Ht as [_ Ht']%andb_prop.
  split.
  - unfold markup_check. rewrite header_line_app, !list_ascii_app, <- !app_assoc.
    do 8 markup_piece. vm_compute. reflexivity.
  - unfold markup_check, status_line, py_str_val. cbn [map String.concat fst snd].
    rewrite py_repr_word, py_repr_escaped by done.
    rewrite !list_ascii_app, <- !app_assoc. do 10 markup_piece.
    rewrite (markup_go_app _ (list_ascii_of_string "]'")). cbn [list_ascii_of_string markup_go].
    cbn [markup_step Ascii.eqb Bool.eqb Nat.even].
    rewrite rev_app_distr, rev_involutive. cbn [rev app]. rewrite apply_tag_unopened by done.
    eexists. reflexivity.
Qed.

Lemma escaped_tag_breaks_status_witness :
  markup_check (header_line "X-Test" ("\[/" +:+ "x" +:+ "]")) = Ok tt /\
  exists pos, markup_check (status_line "headers" (PyDict [("X-Test", "\[/" +:+ "x" +:+ "]")])) =
              Err (close_tag_error ("/" +:+ "x") pos).
Proof. apply escaped_tag_breaks_status; reflexivity. Defined.

End Markup.
