(* ===== verification/Router.v ===== *)
(** * The egress router of [do_GET] (src/proxy_engine.py, lines 135-142)

    [route] computes the [proxies] dict handed to [requests.get]: Tor's
    SOCKS endpoint when Tor is enabled, otherwise the pool entry at
    [hash(url) % len(pool)] when the rotation mode is exactly
    ["per-request"] and the pool is non-empty, otherwise the empty dict
    (a direct connection).  Python's [hash] of a string is a per-process
    function (randomised by PYTHONHASHSEED) into the signed 64-bit
    range: it is the section variable [hash].  [route_reads] separates
    the three reads of the pool that the code makes, for a pool that the
    shell replaces while a request is being routed. *)

From S2P Require Import Prelude Config.
Import Engine.

Module Router.

Definition tor_socks : string := "socks5://127.0.0.1:9150".

(** The transport the code selects, before it is written as a dict. *)
Inductive egress := Direct | ViaTor | ViaPool (p : string).

Definition proxies_of (g : egress) : pydict string :=
  match g with
  | Direct => []
  | ViaTor => [("http", tor_socks); ("https", tor_socks)]
  | ViaPool p => [("http", "http://" +:+ p); ("https", "http://" +:+ p)]
  end.

Section Route.

Variable hash : string -> Z.

(** Lines 135-142: [idx = hash(url) % len(pool)]; [pool[idx]]. *)
Definition route (c : Config) (pool : list string) (url : string) : res egress :=
  if tor_enabled c then Ok ViaTor
  else if String.eqb (ip_rotation c) "per-request" && negb (bool_decide (pool = [])) then
    let idx := py_mod (hash url) (Z.of_nat (length pool)) in
    match py_index pool idx with
    | Some p => Ok (ViaPool p)
    | None => Err (IndexError "list index out of range")
    end
  else Ok Direct.

(** Lines 139-141 read [outer_self.proxy_pool] three times: for the
    test, for [len] and for the index.  The shell's main thread may
    replace the pool in between ([update_proxy_pool] during a second
    [start]); [route_reads] takes the list each read sees. *)
Definition route_reads (c : Config) (pool_test pool_len pool_index : list string)
    (url : string) : res egress :=
  if tor_enabled c then Ok ViaTor
  else if String.eqb (ip_rotation c) "per-request" && negb (bool_decide (pool_test = [])) then
    let idx := py_mod (hash url) (Z.of_nat (length pool_len)) in
    match py_index pool_index idx with
    | Some p => Ok (ViaPool p)
    | None => Err (IndexError "list index out of range")
    end
  else Ok Direct.

End Route.

End Router.

Module RouterProps.
Import Router.

Section Props.

Variable hash : string -> Z.

(** The egress router never raises: whatever the hash of the URL,
    including a negative one, the index [hash(url) % len(pool)] is in
    range. *)
Theorem route_never_raises c pool url :
  exists g, route hash c pool url = Ok g.
Proof.
  unfold route. destruct (tor_enabled c); [eauto|].
  destruct (String.eqb (ip_rotation c) "per-request"); simpl; [|eauto].
  case_bool_decide as Hnil; simpl; [eauto|].
  destruct (py_index_mod pool (hash url) Hnil) as (x & -> & _). eauto.
Qed.

(** Tor takes precedence: with Tor enabled every request goes to the
    SOCKS endpoint 127.0.0.1:9150, whatever the rotation mode and pool. *)
Theorem route_tor_first c pool url :
  tor_enabled c = true -> route hash c pool url = Ok ViaTor.
Proof. intros Ht. unfold route. by rewrite Ht. Qed.

(** C5 Per-request rotation picks the pool entry at position
    [hash(url) mod len(pool)] (floor modulo, so non-negative), an entry
    of the pool; the URL enters the choice only through its hash. *)
Theorem route_pool_choice c pool url :
  tor_enabled c = false -> ip_rotation c = "per-request" -> pool <> [] ->
  exists p, route hash c pool url = Ok (ViaPool p) /\
            pool !! Z.to_nat (hash url mod Z.of_nat (length pool)) = Some p /\
            p ∈ pool.
Proof.
  intros Ht Hm Hnil. unfold route. rewrite Ht, Hm. simpl.
  rewrite bool_decide_false by done. simpl.
  destruct (py_index_mod pool (hash url) Hnil) as (x & -> & Hx & Hin). eauto.
Qed.

(** Without Tor, a rotation mode other than exactly ["per-request"]
    or an empty pool gives a direct connection (the empty proxies dict). *)
Theorem route_direct c pool url :
  tor_enabled c = false -> (ip_rotation c <> "per-request" \/ pool = []) ->
  route hash c pool url = Ok Direct /\ proxies_of Direct = [].
Proof.
  intros Ht Hor. split; [|done]. unfold route. rewrite Ht.
  destruct Hor as [Hm| ->].
  - apply String.eqb_neq in Hm. by rewrite Hm.
  - by rewrite andb_false_r.
Qed.

(** Without a concurrent update the three reads agree and give [route]. *)
Lemma route_reads_same c pool url : route_reads hash c pool pool pool url = route hash c pool url.
Proof. reflexivity. Qed.

(** C25 A torn read: when the pool is replaced by a shorter one between
    the [len] and the index, the index computed for the old length can
    be out of range for the new list and the router raises IndexError,
    which [do_GET]'s [except] turns into a 502 for the request. *)
Theorem route_torn_read c p_old p_new url :
  tor_enabled c = false -> ip_rotation c = "per-request" -> p_old <> [] ->
  (length p_new <= Z.to_nat (hash url mod Z.of_nat (length p_old)))%nat ->
  route_reads hash c p_old p_old p_new url = Err (IndexError "list index out of range").
Proof.
  intros Ht Hm Hne Hlen. unfold route_reads. rewrite Ht, Hm. simpl.
  rewrite bool_decide_false by done. simpl. unfold py_index, py_mod.
  assert (0 < Z.of_nat (length p_old)) as Hpos by (destruct p_old; [done|simpl; lia]).
  pose proof (Z.mod_pos_bound (hash url) _ Hpos).
  destruct (Z.leb_spec 0 (hash url mod Z.of_nat (length p_old))); [|lia].
  by rewrite lookup_ge_None_2.
Qed.

End Props.


(** The spec's scenario: pool ["1.2.3.4:8000"; "5.6.7.8:8000"], URL
    "http://example.com/", a hash that is negative on it. *)
Definition demo_hash (s : string) : Z := 7 - Z.of_nat (String.length s) * 1000003.

Definition demo_config : Config := {|
  ip_rotation := "per-request"; tor_enabled := false; anti_fingerprint := false;
  headers := []; cfg_proxy_pool := []; mitm_enabled := false |}.

Lemma route_pool_choice_witness :
  demo_hash "http://example.com/" < 0 /\
  exists p, route demo_hash demo_config ["1.2.3.4:8000"; "5.6.7.8:8000"]
              "http://example.com/" = Ok (ViaPool p) /\
            ["1.2.3.4:8000"; "5.6.7.8:8000"] !! Z.to_nat (demo_hash "http://example.com/" mod 2) = Some p /\
            p ∈ ["1.2.3.4:8000"; "5.6.7.8:8000"].
Proof.
  split; [vm_compute; reflexivity|].
  apply (route_pool_choice demo_hash demo_config); [reflexivity|reflexivity|discriminate].
Defined.

Lemma route_tor_first_witness :
  route demo_hash (update_config (Set_tor_enabled true) demo_config) ["1.2.3.4:8000"]
    "http://example.com/" = Ok ViaTor.
Proof. apply route_tor_first. reflexivity. Defined.

Lemma route_direct_witness :
  route demo_hash demo_config [] "http://example.com/" = Ok Direct /\ proxies_of Direct = [].
Proof. apply route_direct; [reflexivity|by right]. Defined.

Lemma route_torn_read_witness :
  route_reads demo_hash demo_config ["1.2.3.4:8000"; "5.6.7.8:8000"; "9.9.9.9:8000"]
    ["1.2.3.4:8000"; "5.6.7.8:8000"; "9.9.9.9:8000"] ["1.2.3.4:8000"] "http://b.example/" =
  Err (IndexError "list index out of range").
Proof. apply route_torn_read; [reflexivity|reflexivity|discriminate|vm_compute; lia]. Defined.

End RouterProps.
