(* ===== verification/CertStore.v ===== *)
(** * The certificate store: [ProxyEngine.generate_cert]
    (src/proxy_engine.py, lines 37-83)

    The store is the file system under [cert_dir]: a map from paths to
    PEM files.  [generate_cert] returns the pair of paths at once when
    both files exist (no validity check) and otherwise generates an RSA
    key and a self-signed certificate valid 30 days, then writes the
    certificate and the key.  The certificate is valid from the first
    read of [datetime.utcnow()] (line 64, [now]) to the second (line 66,
    [now']) plus 30 days.  [x509.NameAttribute] raises [ValueError] on a
    common name that is not 1 to 64 bytes, after the key was generated;
    [except ImportError] does not catch it.  Without the [cryptography] package the
    [except ImportError] branch calls [console.print], a name the module
    never defines, so the call raises [NameError].

    A host name is joined to [cert_dir] as it is; [cert_path_absolute]
    shows that an absolute one escapes the directory.  CertRace.v cuts
    [generate_cert] into its atomic file-system steps to run two
    threads under a schedule. *)

From S2P Require Import Prelude.

Module CertStore.

(** The content of a generated certificate: subject and issuer common
    name, the DNS names of the subjectAltName extension, the validity
    window in seconds since the epoch, and the key it certifies (the
    serial number is random and plays no role). *)
Record Cert := {
  cn : string;
  san : list string;
  not_before : Z;
  not_after : Z;
  key_id : nat
}.

Inductive file :=
| CertPem (c : Cert)
| KeyPem (k : nat).

(** The file system, and the counter that makes each generated RSA key
    distinct from every other. *)
Record Store := {
  fs : gmap string file;
  next_key : nat
}.

Definition thirty_days : Z := 30 * 24 * 3600.

Section Store.

(** [self.cert_dir], the two readings of the clock
    ([datetime.utcnow()] at lines 64 and 66), whether the [cryptography]
    package imports, and which paths [open(.., "wb")] can create. *)
Variable cert_dir : string.
Variable now : Z.
Variable now' : Z.
Variable crypto_available : bool.
Variable can_write : string -> bool.

Definition cert_path (hostname : string) : string :=
  path_join cert_dir (hostname +:+ ".pem").

Definition key_path (hostname : string) : string :=
  path_join cert_dir (hostname +:+ ".key").

Definition exists_file (p : string) (s : Store) : bool :=
  bool_decide (is_Some (fs s !! p)).

Definition write_file (p : string) (f : file) : PyM Store unit :=
  fun s => if can_write p
           then (Ok tt, {| fs := <[p := f]> (fs s); next_key := next_key s |})
           else (Err (OSError ("Permission denied: " +:+ p)), s).

(** Lines 46-53: the import, then [rsa.generate_private_key]. *)
Definition gen_key : PyM Store nat :=
  fun s => if crypto_available
           then (Ok (next_key s), {| fs := fs s; next_key := S (next_key s) |})
           else (Err (ImportError "cryptography"), s).

(** [x509.NameAttribute(NameOID.COMMON_NAME, hostname)] (line 54)
    accepts a common name of 1 to 64 bytes in UTF-8. *)
Definition cn_length_ok (hostname : string) : bool :=
  (1 <=? String.length hostname)%nat && (String.length hostname <=? 64)%nat.

(** The certificate the builder of lines 55-70 signs. *)
Definition build_cert (hostname : string) (k : nat) : Cert := {|
  cn := hostname; san := [hostname];
  not_before := now; not_after := now' + thirty_days; key_id := k |}.

(** The exception [NameAttribute] raises on a common name of the wrong
    length. *)
Definition cn_length_error (hostname : string) : exn :=
  ValueError ("Attribute's length must be >= 1 and <= 64, but it was " +:+
              pretty (N.of_nat (String.length hostname))).

(** Lines 54-70: the name attribute raises [ValueError] on a common
    name of the wrong length, before the builder runs. *)
Definition make_cert (hostname : string) (k : nat) : res Cert :=
  if cn_length_ok hostname then Ok (build_cert hostname k)
  else Err (cn_length_error hostname).

(** Line 82: [console] is not defined in proxy_engine.py. *)
Definition console_print : PyM Store unit := raise (NameError "console").

Definition is_import_error (e : exn) : bool :=
  match e with ImportError _ => true | _ => false end.

(** Lines 37-83. *)
Definition generate_cert (hostname : string)
    : PyM Store (option string * option string) :=
  let cp := cert_path hostname in
  let kp := key_path hostname in
  bind get (fun s =>
  if exists_file cp s && exists_file kp s then ret (Some cp, Some kp)
  else
    try_except
      (bind gen_key (fun k =>
       bind (from_res (make_cert hostname k)) (fun c =>
       bind (write_file cp (CertPem c)) (fun _ =>
       bind (write_file kp (KeyPem k)) (fun _ =>
       ret (Some cp, Some kp))))))
      is_import_error
      (fun _ => bind console_print (fun _ => ret (None, None)))).

(** [context.load_cert_chain(certfile, keyfile)] succeeds when both files
    hold PEM data of the right kind and the key is the certified one. *)
Definition load_cert_chain (cp kp : string) (s : Store) : bool :=
  match fs s !! cp, fs s !! kp with
  | Some (CertPem c), Some (KeyPem k) => Nat.eqb (key_id c) k
  | _, _ => false
  end.

(** Every pair [base.pem]/[base.key] on disk is a certificate with its
    own key. *)
Definition pairs_match (s : Store) : Prop :=
  forall base c k,
    fs s !! (base +:+ ".pem") = Some (CertPem c) ->
    fs s !! (base +:+ ".key") = Some (KeyPem k) ->
    key_id c = k.

(** The files the store writes: certificates under [.pem] names, keys
    under [.key] names, and every pair on disk matching. *)
Definition store_wf (s : Store) : Prop :=
  (forall p f, fs s !! p = Some f ->
     (exists base c, p = base +:+ ".pem" /\ f = CertPem c) \/
     (exists base k, p = base +:+ ".key" /\ f = KeyPem k)) /\
  pairs_match s.

End Store.

Section Lemmas.

Context (cert_dir : string) (now now' : Z) (crypto_available : bool)
        (can_write : string -> bool).

Abbreviation cp h := (cert_path cert_dir h).
Abbreviation kp h := (key_path cert_dir h).
Abbreviation generate := (generate_cert cert_dir now now' crypto_available can_write).

Lemma cert_path_base h : cp h = path_join cert_dir h +:+ ".pem".
Proof. apply path_join_app. reflexivity. Qed.

Lemma key_path_base h : kp h = path_join cert_dir h +:+ ".key".
Proof. apply path_join_app. reflexivity. Qed.

Lemma pem_key_ne (a b : string) : a +:+ ".pem" <> b +:+ ".key".
Proof. intros E. apply string_app_inj_suffix in E as [_ E]; done. Qed.

Lemma cert_key_path_ne h h' : cp h <> kp h'.
Proof. rewrite cert_path_base, key_path_base. apply pem_key_ne. Qed.

Lemma exists_file_lookup p s f : fs s !! p = Some f -> exists_file p s = true.
Proof. intros Hp. unfold exists_file. rewrite Hp. by apply bool_decide_true. Qed.

(** The complete run of [generate_cert]: the cache test, then the
    generation and the two writes, each of which may fail. *)
Lemma generate_cert_unfold h s :
  generate h s =
  if exists_file (cp h) s && exists_file (kp h) s then (Ok (Some (cp h), Some (kp h)), s)
  else if negb crypto_available then (Err (NameError "console"), s)
  else if negb (cn_length_ok h) then
    (Err (cn_length_error h), {| fs := fs s; next_key := S (next_key s) |})
  else if negb (can_write (cp h)) then
    (Err (OSError ("Permission denied: " +:+ cp h)),
     {| fs := fs s; next_key := S (next_key s) |})
  else if negb (can_write (kp h)) then
    (Err (OSError ("Permission denied: " +:+ kp h)),
     {| fs := <[cp h := CertPem (build_cert now now' h (next_key s))]> (fs s);
        next_key := S (next_key s) |})
  else (Ok (Some (cp h), Some (kp h)),
        {| fs := <[kp h := KeyPem (next_key s)]>
                   (<[cp h := CertPem (build_cert now now' h (next_key s))]> (fs s));
           next_key := S (next_key s) |}).
Proof.
  unfold generate_cert, gen_key, write_file, console_print, from_res, make_cert. py_run.
  destruct (exists_file _ s && exists_file _ s); [done|].
  destruct crypto_available; simpl; [|done].
  destruct (cn_length_ok h); simpl; [|done].
  destruct (can_write (cp h)); simpl; [|done].
  by destruct (can_write (kp h)).
Qed.

(** Writing a matching pair under one base name keeps the invariant. *)
Lemma store_wf_insert_pair s b c n :
  store_wf s -> key_id c = n ->
  store_wf {| fs := <[b +:+ ".key" := KeyPem n]> (<[b +:+ ".pem" := CertPem c]> (fs s));
              next_key := next_key s |}.
Proof.
  intros [Hkind Hpair] Hc. split; simpl.
  - intros p f Hp. rewrite !lookup_insert in Hp.
    destruct (decide (b +:+ ".key" = p)) as [<-|]; [simplify_eq; right; eauto|].
    destruct (decide (b +:+ ".pem" = p)) as [<-|]; [simplify_eq; left; eauto|].
    by apply Hkind.
  - intros b' c' n' Hc' Hn'. simpl in *.
    rewrite lookup_insert_ne in Hc' by apply not_eq_sym, pem_key_ne.
    rewrite lookup_insert in Hc'.
    destruct (decide (b +:+ ".pem" = b' +:+ ".pem")) as [Eb|Nb].
    + apply string_app_inj_suffix in Eb as [<- _]; [|done].
      rewrite lookup_insert_eq in Hn'. by simplify_eq.
    + rewrite lookup_insert_ne in Hn'.
      2: { intros Eb. apply string_app_inj_suffix in Eb as [<- _]; done. }
      rewrite lookup_insert_ne in Hn' by apply pem_key_ne.
      by apply (Hpair b').
Qed.

(** C24 Path traversal: the host name is joined to the directory as it
    comes; a host that starts with "/" (as in [CONNECT /tmp/x:443]) is an
    absolute path, which [os.path.join] keeps alone, so the pair is read
    and written outside the certificate directory. *)
Theorem cert_path_absolute h :
  py_startswith h "/" = true ->
  cert_path cert_dir h = h +:+ ".pem" /\ key_path cert_dir h = h +:+ ".key".
Proof.
  intros Hs. destruct h as [|a t]; [discriminate|].
  unfold cert_path, key_path, path_join.
  rewrite (append_cons a t ".pem"), (append_cons a t ".key").
  rewrite (startswith_slash_cons a (t +:+ ".pem") t),
          (startswith_slash_cons a (t +:+ ".key") t), Hs.
  done.
Qed.

(** Cache hit: when both PEM files of the host exist, [generate_cert]
    returns their paths and changes nothing, whatever the clock says:
    an expired certificate is served again (no validity check). *)
Theorem generate_cert_cache_hit h s :
  exists_file (cert_path cert_dir h) s = true -> exists_file (key_path cert_dir h) s = true ->
  generate_cert cert_dir now now' crypto_available can_write h s = (Ok (Some (cert_path cert_dir h), Some (key_path cert_dir h)), s).
Proof. intros Hc Hk. rewrite generate_cert_unfold, Hc, Hk. done. Qed.

(** C28 Issue on a miss: with the library present, a host name of 1 to
    64 bytes and the directory writable, a missing pair is generated: a
    certificate for CN and SAN [hostname], valid from the first clock
    reading (line 64) to 30 days after the second (line 66), certifying a
    fresh key, and that key are written at the two paths, which are
    returned. *)
Theorem generate_cert_issue h s :
  exists_file (cert_path cert_dir h) s && exists_file (key_path cert_dir h) s = false ->
  crypto_available = true -> cn_length_ok h = true ->
  can_write (cert_path cert_dir h) = true -> can_write (key_path cert_dir h) = true ->
  exists c s',
    generate_cert cert_dir now now' crypto_available can_write h s = (Ok (Some (cert_path cert_dir h), Some (key_path cert_dir h)), s') /\
    fs s' !! cert_path cert_dir h = Some (CertPem c) /\ fs s' !! key_path cert_dir h = Some (KeyPem (next_key s)) /\
    cn c = h /\ san c = [h] /\ not_before c = now /\
    not_after c = now' + 30 * 86400 /\ key_id c = next_key s /\
    next_key s' = S (next_key s).
Proof.
  intros Hmiss Hc Hn Hw1 Hw2. rewrite generate_cert_unfold, Hmiss, Hc, Hn, Hw1, Hw2. simpl.
  eexists _, _. split; [done|]. simpl.
  rewrite lookup_insert_ne by apply not_eq_sym, cert_key_path_ne.
  rewrite !lookup_insert_eq. unfold thirty_days. repeat split; lia.
Qed.

(** C23 Without the cryptography package a miss does not return
    [(None, None)] as the [except ImportError] branch intends: the
    branch refers to the undefined name [console] and raises NameError,
    leaving the store as it was. *)
Theorem generate_cert_no_crypto h s :
  exists_file (cert_path cert_dir h) s && exists_file (key_path cert_dir h) s = false ->
  crypto_available = false ->
  generate_cert cert_dir now now' crypto_available can_write h s = (Err (NameError "console"), s).
Proof. intros Hmiss Hc. by rewrite generate_cert_unfold, Hmiss, Hc. Qed.

(** C29 A host name the certificate cannot carry (empty, or longer than
    64 bytes, such as a long but valid DNS name) makes the name attribute
    of line 54 raise ValueError after the key is generated; [except
    ImportError] does not catch it, so the exception leaves
    [generate_cert] and no file is written. *)
Theorem generate_cert_invalid_cn h s :
  exists_file (cert_path cert_dir h) s && exists_file (key_path cert_dir h) s = false ->
  crypto_available = true -> cn_length_ok h = false ->
  generate_cert cert_dir now now' crypto_available can_write h s =
  (Err (cn_length_error h), {| fs := fs s; next_key := S (next_key s) |}).
Proof. intros Hmiss Hc Hn. by rewrite generate_cert_unfold, Hmiss, Hc, Hn. Qed.

(** A call that returns gives the two paths. *)
Lemma generate_cert_returns_paths h s r s' :
  generate_cert cert_dir now now' crypto_available can_write h s = (Ok r, s') ->
  r = (Some (cert_path cert_dir h), Some (key_path cert_dir h)).
Proof.
  rewrite generate_cert_unfold. repeat case_match; by intros [= <- _].
Qed.

(** C4 Idempotence: after a call that returns, a second call for the
    same host returns the same pair of paths and writes nothing. *)
Theorem generate_cert_idempotent h s r s' :
  generate_cert cert_dir now now' crypto_available can_write h s = (Ok r, s') ->
  r = (Some (cert_path cert_dir h), Some (key_path cert_dir h)) /\ generate_cert cert_dir now now' crypto_available can_write h s' = (Ok r, s').
Proof.
  rewrite generate_cert_unfold.
  destruct (exists_file (cp h) s && exists_file (kp h) s) eqn:Hhit.
  { intros [= <- <-]. split; [done|]. apply andb_prop in Hhit as [H1 H2].
    by apply generate_cert_cache_hit. }
  destruct (negb crypto_available); [done|].
  destruct (negb (cn_length_ok h)); [done|].
  destruct (negb (can_write (cp h))); [done|].
  destruct (negb (can_write (kp h))); [done|].
  intros [= <- <-]. split; [done|]. apply generate_cert_cache_hit.
  - eapply exists_file_lookup. simpl.
    rewrite lookup_insert_ne by apply not_eq_sym, cert_key_path_ne.
    apply lookup_insert_eq.
  - eapply exists_file_lookup. apply lookup_insert_eq.
Qed.

(** C31 Invariant: [generate_cert] keeps every certificate on disk next to
    its own key, on every outcome, provided a directory that accepts the
    certificate file also accepts the key file. *)
Theorem generate_cert_preserves_wf h s :
  store_wf s -> (can_write (cert_path cert_dir h) = true -> can_write (key_path cert_dir h) = true) ->
  store_wf (snd (generate_cert cert_dir now now' crypto_available can_write h s)).
Proof.
  intros Hwf Hw. rewrite generate_cert_unfold.
  destruct (exists_file (cp h) s && exists_file (kp h) s); [done|].
  destruct (negb crypto_available); [done|].
  destruct (negb (cn_length_ok h)); [by destruct Hwf|].
  destruct (can_write (cp h)) eqn:Hc; simpl; [|by destruct Hwf].
  rewrite Hw by done. simpl.
  rewrite (cert_path_base h), (key_path_base h).
  by apply (store_wf_insert_pair s).
Qed.

(** The pair a successful call returns loads: [load_cert_chain] finds
    a certificate and the key it certifies. *)
Theorem generate_cert_pair_loads h s s' c k :
  store_wf s -> generate_cert cert_dir now now' crypto_available can_write h s = (Ok (Some c, Some k), s') -> load_cert_chain c k s' = true.
Proof.
  intros [Hkind Hpair] Hgen.
  pose proof (generate_cert_returns_paths h s _ s' Hgen) as [= -> ->].
  revert Hgen. rewrite generate_cert_unfold.
  destruct (exists_file (cp h) s && exists_file (kp h) s) eqn:Hhit.
  - intros [= <-]. apply andb_prop in Hhit as [H1 H2]. unfold exists_file in *.
    apply bool_decide_eq_true in H1 as [f1 Hf1], H2 as [f2 Hf2].
    unfold load_cert_chain. rewrite Hf1, Hf2.
    destruct (Hkind _ _ Hf1) as [(b & c' & Hb & ->)|(b & n & Hb & ->)].
    2: { rewrite cert_path_base in Hb. by apply pem_key_ne in Hb. }
    destruct (Hkind _ _ Hf2) as [(b' & c'' & Hb' & ->)|(b' & n & Hb' & ->)].
    { rewrite key_path_base in Hb'. symmetry in Hb'. by apply pem_key_ne in Hb'. }
    apply Nat.eqb_eq. apply (Hpair (path_join cert_dir h)).
    + by rewrite <- cert_path_base.
    + by rewrite <- key_path_base.
  - destruct (negb crypto_available); [done|].
    destruct (negb (cn_length_ok h)); [done|].
    destruct (negb (can_write (cp h))); [done|].
    destruct (negb (can_write (kp h))); [done|].
    intros [= <-]. unfold load_cert_chain. simpl.
    rewrite lookup_insert_ne by apply not_eq_sym, cert_key_path_ne.
    rewrite !lookup_insert_eq. apply Nat.eqb_refl.
Qed.

End Lemmas.

(** A concrete store for the witnesses: the default directory of user
    [op], an empty directory, and the store after one issue. *)
Definition demo_dir : string := "/home/op/.raproxy/certs".
Definition demo_now : Z := 1700000000.
Definition empty_store : Store := {| fs := ∅; next_key := 0 |}.
Definition all_writable (_ : string) : bool := true.
Definition issued_store : Store :=
  snd (generate_cert demo_dir demo_now demo_now true all_writable "example.com" empty_store).

Lemma empty_store_wf : store_wf empty_store.
Proof.
  split; [intros p f Hp|intros b c k Hc]; simpl in *; by rewrite lookup_empty in *.
Qed.

Lemma cert_path_absolute_witness :
  cert_path demo_dir "/etc/cron.d/x" = "/etc/cron.d/x.pem" /\
  key_path demo_dir "/etc/cron.d/x" = "/etc/cron.d/x.key".
Proof. apply cert_path_absolute. reflexivity. Defined.

Lemma generate_cert_cache_hit_witness :
  exists_file (cert_path demo_dir "example.com") issued_store = true /\
  generate_cert demo_dir (demo_now + 40 * 86400) (demo_now + 40 * 86400) true all_writable "example.com" issued_store =
  (Ok (Some (cert_path demo_dir "example.com"), Some (key_path demo_dir "example.com")),
   issued_store).
Proof.
  split; [vm_compute; reflexivity|].
  apply generate_cert_cache_hit; vm_compute; reflexivity.
Defined.

Lemma generate_cert_issue_witness :
  exists c s',
    generate_cert demo_dir demo_now (demo_now + 1) true all_writable "example.com" empty_store =
      (Ok (Some (cert_path demo_dir "example.com"), Some (key_path demo_dir "example.com")), s') /\
    fs s' !! cert_path demo_dir "example.com" = Some (CertPem c) /\
    fs s' !! key_path demo_dir "example.com" = Some (KeyPem (next_key empty_store)) /\
    cn c = "example.com" /\ san c = ["example.com"] /\ not_before c = demo_now /\
    not_after c = (demo_now + 1) + 30 * 86400 /\ key_id c = next_key empty_store /\
    next_key s' = S (next_key empty_store).
Proof. apply generate_cert_issue; vm_compute; reflexivity. Defined.

(** A name of 70 bytes: a valid DNS name, too long for a common name. *)
Definition long_host : string :=
  "static-assets.cdn.eu-west-1.content-delivery.regional.example-shop.com".

Lemma generate_cert_invalid_cn_witness :
  generate_cert demo_dir demo_now demo_now true all_writable long_host empty_store =
  (Err (ValueError "Attribute's length must be >= 1 and <= 64, but it was 70"),
   {| fs := fs empty_store; next_key := S (next_key empty_store) |}).
Proof. apply generate_cert_invalid_cn; vm_compute; reflexivity. Defined.

Lemma generate_cert_no_crypto_witness :
  generate_cert demo_dir demo_now demo_now false all_writable "example.com" empty_store =
  (Err (NameError "console"), empty_store).
Proof. apply generate_cert_no_crypto; vm_compute; reflexivity. Defined.

Lemma generate_cert_idempotent_witness :
  (Some (cert_path demo_dir "example.com"), Some (key_path demo_dir "example.com")) =
  (Some (cert_path demo_dir "example.com"), Some (key_path demo_dir "example.com")) /\
  generate_cert demo_dir demo_now demo_now true all_writable "example.com" issued_store =
  (Ok (Some (cert_path demo_dir "example.com"), Some (key_path demo_dir "example.com")),
   issued_store).
Proof.
  apply (generate_cert_idempotent demo_dir demo_now demo_now true all_writable "example.com" empty_store).
  vm_compute. reflexivity.
Defined.

Lemma generate_cert_preserves_wf_witness :
  store_wf (snd (generate_cert demo_dir demo_now demo_now true all_writable "example.com" empty_store)).
Proof. apply generate_cert_preserves_wf; [apply empty_store_wf|reflexivity]. Defined.

Lemma generate_cert_pair_loads_witness :
  load_cert_chain (cert_path demo_dir "example.com") (key_path demo_dir "example.com")
    issued_store = true.
Proof.
  apply (generate_cert_pair_loads demo_dir demo_now demo_now true all_writable "example.com" empty_store);
    [apply empty_store_wf|vm_compute; reflexivity].
Defined.

End CertStore.
