(* ===== verification/CertRace.v ===== *)
(** * Concurrent first use of the certificate store
    (src/proxy_engine.py, lines 37-80, run by two handler threads)

    [socketserver.TCPServer] (line 94, no ThreadingMixIn) serves one
    connection at a time, so inside one process the calls are serial:
    [serial_single_generation] shows that the serial schedule issues one
    pair per host.  The spec asks for a handler per connection running
    concurrently, and two raproxy processes share the directory
    [~/.raproxy/certs]; the code takes no lock and no exclusive create,
    so under an interleaving [interleaved_mismatched_pair] shows two
    generations and a certificate left next to the other thread's key.  A thread
    is the host it asks for and its program counter; [run_sched] runs a
    schedule of thread indices.  The steps are those of
    [CertStore.generate_cert]: the existence test (line 41), the key
    generation (lines 46-53), the certificate write (lines 72-73) and the
    key write (lines 74-79). *)

From S2P Require Import Prelude CertStore.
Import CertStore.

Module CertRace.

Inductive pc :=
| PStart
| PGen
| PWriteCert (k : nat)
| PWriteKey (k : nat)
| PDone (r : res (option string * option string)).

Record thread := { host : string; tpc : pc }.

Section Race.

Variable cert_dir : string.
Variable now : Z.
Variable now' : Z.
Variable crypto_available : bool.
Variable can_write : string -> bool.

(** The [except ImportError] handler of line 81, or the exception
    propagating out of [generate_cert]. *)
Definition handle_exn (e : exn) : PyM Store (option string * option string) :=
  try_except (raise e) is_import_error
    (fun _ => bind console_print (fun _ => ret (None, None))).

(** Run one atomic action; on an exception the thread ends with what the
    handler returns. *)
Definition continue_with {A} (m : PyM Store A) (next : A -> pc) (s : Store) : pc * Store :=
  match m s with
  | (Ok a, s') => (next a, s')
  | (Err e, s') => let '(r, s'') := handle_exn e s' in (PDone r, s'')
  end.

Definition step_thread (h : string) (p : pc) (s : Store) : pc * Store :=
  let cp := cert_path cert_dir h in
  let kp := key_path cert_dir h in
  match p with
  | PStart =>
      if exists_file cp s && exists_file kp s
      then (PDone (Ok (Some cp, Some kp)), s) else (PGen, s)
  | PGen => continue_with (gen_key crypto_available) PWriteCert s
  | PWriteCert k =>
      continue_with (bind (from_res (make_cert now now' h k)) (fun c =>
                     write_file can_write cp (CertPem c)))
                    (fun _ => PWriteKey k) s
  | PWriteKey k =>
      continue_with (write_file can_write kp (KeyPem k))
                    (fun _ => PDone (Ok (Some cp, Some kp))) s
  | PDone r => (PDone r, s)
  end.

(** Thread [i] takes one step; an index with no thread is skipped. *)
Definition step_index (i : nat) (cfg : list thread * Store) : list thread * Store :=
  let '(ts, s) := cfg in
  match ts !! i with
  | Some t => let '(p', s') := step_thread (host t) (tpc t) s in
              (<[i := {| host := host t; tpc := p' |}]> ts, s')
  | None => (ts, s)
  end.

Fixpoint run_sched (sched : list nat) (cfg : list thread * Store) : list thread * Store :=
  match sched with
  | [] => cfg
  | i :: sched' => run_sched sched' (step_index i cfg)
  end.

(** A thread alone: [fuel] steps, stopping when it is done. *)
Fixpoint run_alone (fuel : nat) (h : string) (p : pc) (s : Store) : pc * Store :=
  match fuel with
  | O => (p, s)
  | S n => match p with
           | PDone _ => (p, s)
           | _ => let '(p', s') := step_thread h p s in run_alone n h p' s'
           end
  end.

End Race.

Section Props.

Context (cert_dir : string) (now now' : Z) (crypto_available : bool)
        (can_write : string -> bool).

Abbreviation cp h := (cert_path cert_dir h).
Abbreviation kp h := (key_path cert_dir h).
Abbreviation step := (step_thread cert_dir now now' crypto_available can_write).

Lemma step_start_hit h s :
  exists_file (cp h) s && exists_file (kp h) s = true ->
  step h PStart s = (PDone (Ok (Some (cp h), Some (kp h))), s).
Proof. intros H. unfold step_thread. by rewrite H. Qed.

Lemma step_start_miss h s :
  exists_file (cp h) s && exists_file (kp h) s = false -> step h PStart s = (PGen, s).
Proof. intros H. unfold step_thread. by rewrite H. Qed.

Lemma step_gen h s :
  crypto_available = true ->
  step h PGen s = (PWriteCert (next_key s), {| fs := fs s; next_key := S (next_key s) |}).
Proof. intros H. unfold step_thread, continue_with, gen_key. by rewrite H. Qed.

Lemma step_write_cert h k s :
  cn_length_ok h = true -> can_write (cp h) = true ->
  step h (PWriteCert k) s =
  (PWriteKey k, {| fs := <[cp h := CertPem (build_cert now now' h k)]> (fs s); next_key := next_key s |}).
Proof.
  intros Hn H. unfold step_thread, continue_with, write_file, bind, from_res, make_cert.
  by rewrite Hn, H.
Qed.

Lemma step_write_key h k s :
  can_write (kp h) = true ->
  step h (PWriteKey k) s =
  (PDone (Ok (Some (cp h), Some (kp h))),
   {| fs := <[kp h := KeyPem k]> (fs s); next_key := next_key s |}).
Proof. intros H. unfold step_thread, continue_with, write_file. by rewrite H. Qed.

(** Refinement: a thread that runs alone finishes within four steps
    with exactly the result and the store of [generate_cert], on every
    branch (cache hit, missing library, failed writes). *)
Theorem run_alone_refines h s :
  run_alone cert_dir now now' crypto_available can_write 4 h PStart s =
  (PDone (fst (generate_cert cert_dir now now' crypto_available can_write h s)),
   snd (generate_cert cert_dir now now' crypto_available can_write h s)).
Proof.
  rewrite generate_cert_unfold. simpl run_alone.
  destruct (exists_file (cp h) s && exists_file (kp h) s); [done|].
  destruct (negb crypto_available) eqn:Hc.
  { apply negb_true_iff in Hc.
    by unfold step_thread at 1, continue_with, gen_key; rewrite Hc. }
  apply negb_false_iff in Hc. rewrite step_gen by done. cbv beta iota.
  destruct (negb (cn_length_ok h)) eqn:Hn.
  { apply negb_true_iff in Hn.
    by unfold step_thread at 1, continue_with, bind, from_res, make_cert; rewrite Hn. }
  apply negb_false_iff in Hn.
  destruct (negb (can_write (cp h))) eqn:Hw1.
  { apply negb_true_iff in Hw1.
    by unfold step_thread at 1, continue_with, bind, from_res, make_cert, write_file;
      rewrite Hn, Hw1. }
  apply negb_false_iff in Hw1. rewrite step_write_cert by done. cbv beta iota.
  destruct (negb (can_write (kp h))) eqn:Hw2.
  { apply negb_true_iff in Hw2.
    by unfold step_thread at 1, continue_with, write_file; rewrite Hw2. }
  apply negb_false_iff in Hw2. by rewrite step_write_key.
Qed.

Definition two_threads (h : string) : list thread :=
  [{| host := h; tpc := PStart |}; {| host := h; tpc := PStart |}].

(** Thread 0 runs to the end, then thread 1: what [TCPServer] does. *)
Definition serial_sched : list nat := [0; 0; 0; 0; 1; 1; 1; 1]%nat.

(** Both threads test before either writes, then their writes cross. *)
Definition interleaved_sched : list nat := [0; 1; 0; 1; 0; 1; 1; 0]%nat.

#[local] Arguments step_thread : simpl never.

(** Advance the schedule through the steps whose guards hold, with the
    step equations [miss gen wcert wkey]. *)
Ltac run_steps Hmiss miss gen wcert wkey :=
  repeat (first [ rewrite miss by exact Hmiss
                | rewrite gen by done
                | rewrite wcert by done
                | rewrite wkey by done ]; simpl).

(** C7 Serial use issues one pair: two first requests for a host served
    one after the other both get the paths, exactly one key is
    generated, and the pair on disk loads. *)
Theorem serial_single_generation h s :
  exists_file (cp h) s && exists_file (kp h) s = false ->
  crypto_available = true -> cn_length_ok h = true ->
  can_write (cp h) = true -> can_write (kp h) = true ->
  let '(ts, s') := run_sched cert_dir now now' crypto_available can_write serial_sched
                     (two_threads h, s) in
  map tpc ts = [PDone (Ok (Some (cp h), Some (kp h))); PDone (Ok (Some (cp h), Some (kp h)))] /\
  next_key s' = S (next_key s) /\ load_cert_chain (cp h) (kp h) s' = true.
Proof.
  intros Hmiss Hc Hn Hw1 Hw2. simpl. run_steps Hmiss step_start_miss step_gen step_write_cert step_write_key.
  rewrite step_start_hit; simpl.
  - split; [done|]. split; [done|]. unfold load_cert_chain. simpl.
    rewrite lookup_insert_ne by apply not_eq_sym, cert_key_path_ne.
    rewrite !lookup_insert_eq. apply Nat.eqb_refl.
  - apply andb_true_intro. split; eapply exists_file_lookup; simpl.
    + rewrite lookup_insert_ne by apply not_eq_sym, cert_key_path_ne.
      apply lookup_insert_eq.
    + apply lookup_insert_eq.
Qed.

(** C6 Without a lock, interleaved first uses break the store: both
    threads see the files missing, two keys are generated, both threads
    return the paths, and the certificate left on disk certifies the
    second key while the key file holds the first, so [load_cert_chain]
    fails for every later CONNECT to the host. *)
Theorem interleaved_mismatched_pair h s :
  exists_file (cp h) s && exists_file (kp h) s = false ->
  crypto_available = true -> cn_length_ok h = true ->
  can_write (cp h) = true -> can_write (kp h) = true ->
  let '(ts, s') := run_sched cert_dir now now' crypto_available can_write interleaved_sched
                     (two_threads h, s) in
  map tpc ts = [PDone (Ok (Some (cp h), Some (kp h))); PDone (Ok (Some (cp h), Some (kp h)))] /\
  next_key s' = S (S (next_key s)) /\ load_cert_chain (cp h) (kp h) s' = false.
Proof.
  intros Hmiss Hc Hn Hw1 Hw2. simpl. run_steps Hmiss step_start_miss step_gen step_write_cert step_write_key.
  split; [done|]. split; [done|]. unfold load_cert_chain. simpl.
  rewrite lookup_insert_ne by apply not_eq_sym, cert_key_path_ne.
  rewrite lookup_insert_ne by apply not_eq_sym, cert_key_path_ne.
  rewrite !lookup_insert_eq. apply Nat.eqb_neq. simpl. lia.
Qed.

End Props.

Lemma serial_single_generation_witness :
  let '(ts, s') := run_sched demo_dir demo_now demo_now true all_writable serial_sched
                     (two_threads "example.com", empty_store) in
  map tpc ts = [PDone (Ok (Some (cert_path demo_dir "example.com"), Some (key_path demo_dir "example.com")));
                PDone (Ok (Some (cert_path demo_dir "example.com"), Some (key_path demo_dir "example.com")))] /\
  next_key s' = S (next_key empty_store) /\
  load_cert_chain (cert_path demo_dir "example.com") (key_path demo_dir "example.com") s' = true.
Proof. apply serial_single_generation; vm_compute; reflexivity. Defined.

Lemma interleaved_mismatched_pair_witness :
  let '(ts, s') := run_sched demo_dir demo_now demo_now true all_writable interleaved_sched
                     (two_threads "example.com", empty_store) in
  map tpc ts = [PDone (Ok (Some (cert_path demo_dir "example.com"), Some (key_path demo_dir "example.com")));
                PDone (Ok (Some (cert_path demo_dir "example.com"), Some (key_path demo_dir "example.com")))] /\
  next_key s' = S (S (next_key empty_store)) /\
  load_cert_chain (cert_path demo_dir "example.com") (key_path demo_dir "example.com") s' = false.
Proof. apply interleaved_mismatched_pair; vm_compute; reflexivity. Defined.

End CertRace.
