(* ===== verification/Handler.v ===== *)
(** * One connection: the [Handler] class of [ProxyEngine._make_handler]
    (src/proxy_engine.py, lines 97-157)

    [BaseHTTPRequestHandler] reads one request line and calls [do_<METHOD>]
    ([send_error(501)] when there is none); with its default protocol
    HTTP/1.0 it handles one request per connection, and one per CONNECT
    tunnel.  An exception that escapes the handler is caught by
    [socketserver] ([handle_error]) and the connection is closed.

    The handler state [HState] is what the connection writes (events on
    the client socket), the outbound requests it issues, and the store
    of the certificate issuer.  The handler reaches the certificate
    store only through the interface [CertIssuer]; [store_issuer] is its
    implementation by [CertStore.generate_cert]. *)

From S2P Require Import Prelude Config Router CertStore.
Import Engine Router.

Module Handler.

(** ** The interface between the handler and the certificate store *)

(** [issue h] is [outer_self.generate_cert(h)]; [chain_loads c k] is
    [context.load_cert_chain(certfile=c, keyfile=k)] succeeding. *)
Class CertIssuer (St : Type) := {
  issue : string -> PyM St (option string * option string);
  chain_loads : string -> string -> St -> bool
}.

(** What the handler relies on: a call that returns gives two
    non-empty paths. *)
Class CertIssuerLaws (St : Type) `{CertIssuer St} := {
  issue_returns_paths : forall h s r s',
    issue h s = (Ok r, s') -> exists c k, r = (Some c, Some k) /\ c <> "" /\ k <> ""
}.

(** ** Data *)

(** The calls the handler makes on the client socket. *)
Inductive out_event :=
| SendResponse (code : Z) (message : option string)
| SendHeader (k v : string)
| EndHeaders
| WriteBody (data : string)
| TlsEstablished
| SendError (code : Z) (message : string)
| HandlerError (e : exn).

(** A call [requests.get(url, headers=..., proxies=..., timeout=...)]. *)
Record outbound := {
  req_url : string;
  req_headers : pydict string;
  req_proxies : pydict string;
  req_timeout : Z
}.

(** What [requests.get(..., stream=True)] gives: an exception before any
    response, or a status, the response headers, the chunks
    [iter_content] yields and the exception it raises after them, if
    any. *)
Inductive upstream :=
| UpFail (e : exn)
| UpResp (status : Z) (hdrs : list (string * string)) (chunks : list string)
         (tail : option exn).

(** What the client sends: nothing, or a request line; after a CONNECT,
    [Some c] is a successful TLS handshake followed by the request [c]
    inside the tunnel, [None] a failed handshake. *)
Inductive client :=
| CClose
| CReq (method path : string) (tunnel : option client).

(** The induction principle of [client] with the hypothesis on the
    request inside the tunnel. *)
Fixpoint client_ind' (P : client -> Prop) (H0 : P CClose)
    (H1 : forall m p t, (forall c, t = Some c -> P c) -> P (CReq m p t)) (c : client) : P c :=
  match c with
  | CClose => H0
  | CReq m p t =>
      H1 m p t (fun c' Ht => match Ht in _ = o return (match o with Some c'' => P c'' | None => True end) with
                             | eq_refl => match t with
                                          | Some c0 => client_ind' P H0 H1 c0
                                          | None => I
                                          end
                             end)
  end.

Record HState (St : Type) := {
  out : list out_event;
  sent : list outbound;
  store : St
}.
Arguments out {St} h.
Arguments sent {St} h.
Arguments store {St} h.

(** ** Pure parts of [do_GET] *)

(** Lines 130-131. *)
Definition normalize_url (path : string) : string :=
  if py_startswith path "http://" || py_startswith path "https://" then path
  else "http://" +:+ py_lstrip_char "/" path.

(** [urlparse(url).netloc] (urllib.parse.urlsplit): a scheme is the text
    before the first colon when it starts with a letter and uses only
    letters, digits, [+], [-] and [.]; the netloc follows a [//] and
    ends at the first [/], [?] or [#]. *)
Definition is_alpha (c : ascii) : bool :=
  let n := nat_of_ascii c in ((65 <=? n) && (n <=? 90))%nat || ((97 <=? n) && (n <=? 122))%nat.

Definition is_scheme_char (c : ascii) : bool :=
  let n := nat_of_ascii c in
  is_alpha c || ((48 <=? n) && (n <=? 57))%nat || Ascii.eqb c "+" || Ascii.eqb c "-"
  || Ascii.eqb c ".".

Fixpoint split_colon (s : string) : option (string * string) :=
  match s with
  | EmptyString => None
  | String c s' =>
      if Ascii.eqb c ":" then Some (EmptyString, s')
      else match split_colon s' with
           | Some (a, b) => Some (String c a, b)
           | None => None
           end
  end.

Fixpoint all_scheme_chars (s : string) : bool :=
  match s with
  | EmptyString => true
  | String c s' => is_scheme_char c && all_scheme_chars s'
  end.

Definition valid_scheme (s : string) : bool :=
  match s with
  | EmptyString => false
  | String c _ => is_alpha c && all_scheme_chars s
  end.

Fixpoint take_netloc (s : string) : string :=
  match s with
  | EmptyString => EmptyString
  | String c s' =>
      if Ascii.eqb c "/" || Ascii.eqb c "?" || Ascii.eqb c "#" then EmptyString
      else String c (take_netloc s')
  end.

Definition url_netloc (url : string) : string :=
  let rest := match split_colon url with
              | Some (sch, r) => if valid_scheme sch then r else url
              | None => url
              end in
  match rest with
  | String "/" (String "/" r) => take_netloc r
  | _ => EmptyString
  end.

Definition has_char (c : ascii) (s : string) : bool :=
  existsb (Ascii.eqb c) (list_ascii_of_string s).

(** [urlsplit] (line 134) raises [ValueError] on a network location
    with an opening square bracket and no closing one, or the reverse. *)
Definition urlparse_check (url : string) : res unit :=
  let n := url_netloc url in
  if (has_char "[" n && negb (has_char "]" n)) || (has_char "]" n && negb (has_char "[" n))
  then Err (ValueError "Invalid IPv6 URL") else Ok tt.

(** Lines 133-134. *)
Definition outbound_headers (c : Config) (url : string) : pydict string :=
  dict_set "Host" (url_netloc url) (headers c).

(** Lines 129-144: the arguments of [requests.get] for egress [g]. *)
Definition outbound_for (c : Config) (path : string) (g : egress) : outbound :=
  let url := normalize_url path in
  {| req_url := url; req_headers := outbound_headers c url;
     req_proxies := proxies_of g; req_timeout := 20 |}.

(** Line 147. *)
Definition hop_by_hop : list string := ["content-encoding"; "transfer-encoding"; "connection"].

Definition forwarded (k : string) : bool := negb (bool_decide (py_lower k ∈ hop_by_hop)).

(** [if not cert or not key]: [None] and the empty string are false. *)
Definition py_truthy (o : option string) : bool :=
  match o with Some s => negb (String.eqb s "") | None => false end.

(** The outbound request of [do_GET]: the configured headers, with
    [Host] set to the network location of the URL (overriding a
    configured [Host]) and every other configured header unchanged, and
    a timeout of 20 seconds. *)
Theorem outbound_request_headers c path g :
  dict_get "Host" (req_headers (outbound_for c path g)) =
    Some (url_netloc (req_url (outbound_for c path g))) /\
  (forall k, k <> "Host" -> dict_get k (req_headers (outbound_for c path g)) = dict_get k (headers c)) /\
  req_timeout (outbound_for c path g) = 20.
Proof.
  unfold outbound_for, outbound_headers. simpl. split; [apply dict_get_set_eq|].
  split; [|done]. intros k Hk. apply dict_get_set_ne. congruence.
Qed.

(** ** The handler *)

Section Handler.

Context {St : Type} `{CertIssuer St}.

(** [requests.get]; [hash] is Python's string hash of the process. *)
Variable fetch : outbound -> upstream.
Variable hash : string -> Z.

Abbreviation M := (PyM (HState St)).

Definition emit (ev : out_event) : M unit :=
  modify (fun s => {| out := out s ++ [ev]; sent := sent s; store := store s |}).

Definition lift_store {A} (m : PyM St A) : M A :=
  fun s => let '(r, st') := m (store s) in
           (r, {| out := out s; sent := sent s; store := st' |}).

Definition lift_res {A} (r : res A) : M A :=
  match r with Ok a => ret a | Err e => raise e end.

Definition requests_get (o : outbound) : M upstream :=
  fun s => let s' := {| out := out s; sent := sent s ++ [o]; store := store s |} in
           match fetch o with
           | UpFail e => (Err e, s')
           | r => (Ok r, s')
           end.

(** Lines 146-148. *)
Fixpoint send_headers (hs : list (string * string)) : M unit :=
  match hs with
  | [] => ret tt
  | (k, v) :: hs' =>
      bind (if forwarded k then emit (SendHeader k v) else ret tt) (fun _ =>
      send_headers hs')
  end.

(** Lines 150-151: the chunks, then the exception [iter_content] raises.
    A body is a finite list of chunks here; a body that never ends keeps
    the handler in this loop for ever, which System.v models as a
    connection whose handler does not return. *)
Fixpoint write_chunks (cs : list string) (tail : option exn) : M unit :=
  match cs with
  | [] => match tail with None => ret tt | Some e => raise e end
  | c :: cs' => bind (emit (WriteBody c)) (fun _ => write_chunks cs' tail)
  end.

Definition relay (r : upstream) : M unit :=
  match r with
  | UpFail e => raise e
  | UpResp st hs cs tail =>
      bind (emit (SendResponse st None)) (fun _ =>
      bind (send_headers hs) (fun _ =>
      bind (emit EndHeaders) (fun _ =>
      write_chunks cs tail)))
  end.

(** Lines 127-155. *)
Definition do_GET (e : ProxyEngine) (path : string) : M unit :=
  try_except
    (bind (lift_res (urlparse_check (normalize_url path))) (fun _ =>
     bind (lift_res (route hash (config e) (proxy_pool e) (normalize_url path))) (fun g =>
     bind (requests_get (outbound_for (config e) path g)) (fun r =>
     relay r))))
    catch_all
    (fun _ =>
       bind (emit (SendResponse 502 None)) (fun _ =>
       bind (emit EndHeaders) (fun _ =>
       emit (WriteBody "Proxy Error")))).

(** Lines 116-125: load the chain, wrap the socket, serve the tunnel;
    any exception is swallowed. *)
Definition tls_tunnel (cert key : string) (tunnel : option (M unit)) : M unit :=
  try_except
    (bind get (fun s =>
     if chain_loads cert key (store s) then
       match tunnel with
       | Some inner => bind (emit TlsEstablished) (fun _ => inner)
       | None => raise (SSLError "handshake failed")
       end
     else raise (SSLError "key values mismatch")))
    catch_all
    (fun _ => ret tt).

(** Lines 100-125. *)
Definition do_CONNECT (e : ProxyEngine) (path : string) (tunnel : option (M unit)) : M unit :=
  if negb (mitm_enabled (config e)) then
    bind (emit (SendResponse 403 None)) (fun _ => emit EndHeaders)
  else
    let hostname := py_split_first ":" path in
    bind (lift_store (issue hostname)) (fun '(cert, key) =>
    if py_truthy cert && py_truthy key then
      let c := default "" cert in
      let k := default "" key in
      bind (emit (SendResponse 200 (Some "Connection Established"))) (fun _ =>
      bind (emit EndHeaders) (fun _ =>
      tls_tunnel c k tunnel))
    else
      bind (emit (SendResponse 500 None)) (fun _ => emit EndHeaders)).

(** [handle_one_request]: dispatch on the method name. *)
Fixpoint handle_one (e : ProxyEngine) (c : client) : M unit :=
  match c with
  | CClose => ret tt
  | CReq m path tun =>
      if String.eqb m "CONNECT" then
        do_CONNECT e path (match tun with Some c' => Some (handle_one e c') | None => None end)
      else if String.eqb m "GET" then do_GET e path
      else emit (SendError 501 ("Unsupported method ('" +:+ m +:+ "')"))
  end.

(** [socketserver]'s [finish_request] under [handle_error]: an escaping
    exception is reported and the connection closed. *)
Definition handle (e : ProxyEngine) (c : client) : M unit :=
  try_except (handle_one e c) catch_all (fun ex => emit (HandlerError ex)).

(** The transcript of one connection from a given store. *)
Definition run_connection (e : ProxyEngine) (c : client) (st : St)
    : list out_event * list outbound * St :=
  let '(_, s') := handle e c {| out := []; sent := []; store := st |} in
  (out s', sent s', store s').

(** [serve_forever] of a [TCPServer]: the connections one after the
    other, each with the engine as it is when it is accepted. *)
Fixpoint serve (conns : list (ProxyEngine * client)) (st : St)
    : list (list out_event) * St :=
  match conns with
  | [] => ([], st)
  | (e, c) :: conns' =>
      let '(o, _, st') := run_connection e c st in
      let '(os, st'') := serve conns' st' in
      (o :: os, st'')
  end.

End Handler.

(** ** Running the handler *)

(** The headers lines 146-148 send, in order. *)
Definition header_events (hs : list (string * string)) : list out_event :=
  map (fun kv => SendHeader kv.1 kv.2) (List.filter (fun kv => forwarded kv.1) hs).

Definition record_sent {St} (s : HState St) (o : outbound) : HState St :=
  {| out := out s; sent := sent s ++ [o]; store := store s |}.

Definition proxy_error : list out_event :=
  [SendResponse 502 None; EndHeaders; WriteBody "Proxy Error"].

Definition with_store {St} (s : HState St) (st : St) : HState St :=
  {| out := out s; sent := sent s; store := st |}.

Definition established : list out_event :=
  [SendResponse 200 (Some "Connection Established"); EndHeaders].

Definition append_out {St} (s : HState St) (evs : list out_event) : HState St :=
  {| out := out s ++ evs; sent := sent s; store := store s |}.

Section Run.

Context {St : Type} `{CertIssuer St}.
Variable fetch : outbound -> upstream.
Variable hash : string -> Z.

Abbreviation M := (PyM (HState St)).

Lemma append_out_app (s : HState St) a b :
  append_out (append_out s a) b = append_out s (a ++ b).
Proof. unfold append_out. simpl. by rewrite app_assoc. Qed.

Lemma append_out_nil (s : HState St) : append_out s [] = s.
Proof. unfold append_out. rewrite app_nil_r. by destruct s. Qed.

Lemma emit_run ev (s : HState St) : emit ev s = (Ok tt, append_out s [ev]).
Proof. reflexivity. Qed.

Lemma send_headers_run hs (s : HState St) :
  send_headers hs s = (Ok tt, append_out s (header_events hs)).
Proof.
  revert s. induction hs as [|[k v] hs IH]; intros s; cbn [send_headers].
  - by rewrite append_out_nil.
  - unfold bind. unfold header_events. destruct (forwarded k) eqn:Hf.
    + rewrite emit_run, IH, append_out_app. cbn [List.filter map fst snd]. by rewrite Hf.
    + unfold ret. rewrite IH. cbn [List.filter fst]. by rewrite Hf.
Qed.

Lemma write_chunks_run cs tail (s : HState St) :
  write_chunks cs tail s =
  (match tail with None => Ok tt | Some e => Err e end, append_out s (map WriteBody cs)).
Proof.
  revert s. induction cs as [|c cs IH]; intros s; cbn [write_chunks map].
  - rewrite append_out_nil. by destruct tail.
  - unfold bind. rewrite emit_run, IH, append_out_app. done.
Qed.

Lemma relay_run st hs cs tail (s : HState St) :
  relay (UpResp st hs cs tail) s =
  (match tail with None => Ok tt | Some e => Err e end,
   append_out s ([SendResponse st None] ++ header_events hs ++ [EndHeaders] ++ map WriteBody cs)).
Proof.
  cbn [relay]. unfold bind. rewrite emit_run, send_headers_run, emit_run, write_chunks_run.
  by rewrite !append_out_app.
Qed.

(** [do_GET] up to the call of [requests.get]: the route is taken and
    the call recorded. *)
Lemma do_GET_unfold e path g (s : HState St) :
  urlparse_check (normalize_url path) = Ok tt ->
  route hash (config e) (proxy_pool e) (normalize_url path) = Ok g ->
  do_GET fetch hash e path s =
  let o := outbound_for (config e) path g in
  let s1 := record_sent s o in
  try_except (fun s => match fetch o with UpFail x => (Err x, s) | r => relay r s end)
    catch_all
    (fun _ => bind (emit (SendResponse 502 None)) (fun _ =>
              bind (emit EndHeaders) (fun _ => emit (WriteBody "Proxy Error")))) s1.
Proof.
  intros Hu Hr. unfold do_GET, try_except, bind. rewrite Hu. simpl. rewrite Hr. simpl.
  unfold requests_get. by destruct (fetch _).
Qed.

Lemma proxy_error_run (s : HState St) :
  bind (emit (SendResponse 502 None)) (fun _ =>
  bind (emit EndHeaders) (fun _ => emit (WriteBody "Proxy Error"))) s =
  (Ok tt, append_out s proxy_error).
Proof. unfold bind. rewrite !emit_run, !append_out_app. done. Qed.

(** C1 Forwarding failure: when [requests.get] raises (DNS failure,
    refused connection, the 20 s timeout), the client receives exactly a
    502 status, the end of the headers and the body "Proxy Error", and
    the handler returns normally. *)
Theorem do_GET_upstream_failure e path g x (s : HState St) :
  urlparse_check (normalize_url path) = Ok tt ->
  route hash (config e) (proxy_pool e) (normalize_url path) = Ok g ->
  fetch (outbound_for (config e) path g) = UpFail x ->
  do_GET fetch hash e path s =
  (Ok tt, append_out (record_sent s (outbound_for (config e) path g)) proxy_error).
Proof.
  intros Hu Hr Hf. rewrite (do_GET_unfold e path g s Hu Hr). cbv zeta.
  unfold try_except at 1. rewrite Hf. apply proxy_error_run.
Qed.

(** C2 Relay: when the upstream answers and streams its body to the end,
    the client receives the upstream status, the upstream headers in
    order except the hop-by-hop ones, the end of the headers and every
    chunk in order, and nothing else. *)
Theorem do_GET_relays e path g st hs cs (s : HState St) :
  urlparse_check (normalize_url path) = Ok tt ->
  route hash (config e) (proxy_pool e) (normalize_url path) = Ok g ->
  fetch (outbound_for (config e) path g) = UpResp st hs cs None ->
  do_GET fetch hash e path s =
  (Ok tt, append_out (record_sent s (outbound_for (config e) path g))
            ([SendResponse st None] ++ header_events hs ++ [EndHeaders] ++ map WriteBody cs)).
Proof.
  intros Hu Hr Hf. rewrite (do_GET_unfold e path g s Hu Hr). cbv zeta.
  unfold try_except at 1. rewrite Hf, relay_run. done.
Qed.

(** C19 A failure while the body streams is answered with a second status
    line: the 502 response of the [except] branch is written after the
    upstream status, headers and chunks already sent, inside the body of
    the response the client is reading. *)
Theorem do_GET_midstream_failure e path g st hs cs x (s : HState St) :
  urlparse_check (normalize_url path) = Ok tt ->
  route hash (config e) (proxy_pool e) (normalize_url path) = Ok g ->
  fetch (outbound_for (config e) path g) = UpResp st hs cs (Some x) ->
  do_GET fetch hash e path s =
  (Ok tt, append_out (record_sent s (outbound_for (config e) path g))
            ([SendResponse st None] ++ header_events hs ++ [EndHeaders] ++ map WriteBody cs
             ++ proxy_error)).
Proof.
  intros Hu Hr Hf. rewrite (do_GET_unfold e path g s Hu Hr). cbv zeta.
  unfold try_except at 1. rewrite Hf, relay_run. simpl.
  rewrite proxy_error_run, append_out_app. simpl. by rewrite <- app_assoc.
Qed.

(** C30 A malformed IPv6 authority ("http://[::1/" has "[" and no "]")
    makes [urlparse] raise at line 134, before any egress is chosen:
    the client gets 502 "Proxy Error" and nothing is sent upstream. *)
Theorem do_GET_invalid_ipv6 e path x (s : HState St) :
  urlparse_check (normalize_url path) = Err x ->
  do_GET fetch hash e path s = (Ok tt, append_out s proxy_error).
Proof.
  intros Hu. unfold do_GET, try_except, bind at 1. rewrite Hu. simpl.
  apply proxy_error_run.
Qed.

(** ** Output is only ever appended *)

Definition appends {A} (m : M A) : Prop :=
  forall s r s', m s = (r, s') -> exists evs, out s' = out s ++ evs.

Lemma appends_ret {A} (a : A) : appends (ret a).
Proof. intros s r s' [= _ <-]. exists []. by rewrite app_nil_r. Qed.

Lemma appends_raise {A} x : appends (A:=A) (raise x).
Proof. intros s r s' [= _ <-]. exists []. by rewrite app_nil_r. Qed.

Lemma appends_emit ev : appends (emit ev).
Proof. intros s r s' [= _ <-]. by exists [ev]. Qed.

Lemma appends_bind {A B} (m : M A) (k : A -> M B) :
  appends m -> (forall a, appends (k a)) -> appends (bind m k).
Proof.
  intros Hm Hk s r s'. unfold bind. destruct (m s) as [[a|x] s1] eqn:E.
  - intros Hr. destruct (Hk a _ _ _ Hr) as [e2 ->]. destruct (Hm _ _ _ E) as [e1 ->].
    exists (e1 ++ e2). by rewrite app_assoc.
  - intros [= _ <-]. by apply (Hm _ _ _ E).
Qed.

Lemma appends_try {A} (m : M A) p h :
  appends m -> (forall x, appends (h x)) -> appends (try_except m p h).
Proof.
  intros Hm Hh s r s'. unfold try_except. destruct (m s) as [[a|x] s1] eqn:E.
  - intros [= _ <-]. by apply (Hm _ _ _ E).
  - destruct (p x).
    + intros Hr. destruct (Hh x _ _ _ Hr) as [e2 ->]. destruct (Hm _ _ _ E) as [e1 ->].
      exists (e1 ++ e2). by rewrite app_assoc.
    + intros [= _ <-]. by apply (Hm _ _ _ E).
Qed.

Lemma appends_get : appends get.
Proof. intros s r s' [= _ <-]. exists []. by rewrite app_nil_r. Qed.

Lemma appends_lift_store {A} (m : PyM St A) : appends (lift_store m).
Proof.
  intros s r s'. unfold lift_store. destruct (m (store s)).
  intros [= _ <-]. exists []. simpl. by rewrite app_nil_r.
Qed.

Lemma appends_lift_res {A} (x : res A) : appends (lift_res x).
Proof. destruct x; [apply appends_ret|apply appends_raise]. Qed.

Lemma appends_requests_get o : appends (requests_get fetch o).
Proof.
  intros s r s'. unfold requests_get. simpl.
  destruct (fetch o); intros [= _ <-]; exists []; simpl; by rewrite app_nil_r.
Qed.

#[local] Hint Resolve appends_ret appends_raise appends_emit appends_bind appends_try
  appends_get appends_lift_store appends_lift_res appends_requests_get : raproxy.

Lemma appends_send_headers hs : appends (send_headers hs).
Proof. induction hs as [|[k v] hs IH]; simpl; [auto with raproxy|].
  apply appends_bind; [destruct (forwarded k)|]; auto with raproxy. Qed.

Lemma appends_write_chunks cs tail : appends (write_chunks cs tail).
Proof. induction cs; simpl; [destruct tail|]; auto with raproxy. Qed.

Lemma appends_relay r : appends (relay r).
Proof.
  destruct r; simpl; auto 7 using appends_send_headers, appends_write_chunks with raproxy.
Qed.

Lemma appends_do_GET e path : appends (do_GET fetch hash e path).
Proof. unfold do_GET. auto 8 using appends_relay with raproxy. Qed.

Lemma appends_tls_tunnel c k tun :
  (forall m, tun = Some m -> appends m) -> appends (tls_tunnel c k tun).
Proof.
  intros Ht. unfold tls_tunnel. apply appends_try; [|auto with raproxy].
  apply appends_bind; [auto with raproxy|]. intros s.
  destruct (chain_loads c k (store s)); [|auto with raproxy].
  destruct tun as [m|]; [|auto with raproxy]. apply appends_bind; auto with raproxy.
Qed.

Lemma appends_do_CONNECT e path tun :
  (forall m, tun = Some m -> appends m) -> appends (do_CONNECT e path tun).
Proof.
  intros Ht. unfold do_CONNECT. destruct (negb _); [auto with raproxy|].
  apply appends_bind; [auto with raproxy|]. intros [c k].
  destruct (py_truthy c && py_truthy k); [|auto with raproxy].
  repeat (apply appends_bind; [auto with raproxy|intros _]).
  by apply appends_tls_tunnel.
Qed.

Lemma appends_handle_one e c : appends (handle_one fetch hash e c).
Proof.
  induction c as [|m path tun IH] using client_ind'; simpl; [auto with raproxy|].
  destruct (String.eqb m "CONNECT"); [|destruct (String.eqb m "GET")];
    auto using appends_do_GET with raproxy.
  apply appends_do_CONNECT. intros m' Hm'. destruct tun; simplify_eq. by apply IH.
Qed.

(** ** CONNECT *)

Lemma lift_store_run {A} (m : PyM St A) (s : HState St) :
  lift_store m s = (fst (m (store s)), with_store s (snd (m (store s)))).
Proof. unfold lift_store. by destruct (m (store s)). Qed.

Lemma append_out_with_store (s : HState St) st evs :
  append_out (with_store s st) evs = with_store (append_out s evs) st.
Proof. reflexivity. Qed.

(** The CONNECT branch once the certificate is issued: the 200 line,
    then the tunnel whose failures are swallowed. *)
Lemma do_CONNECT_issued e p tun c k st1 (s : HState St) :
  mitm_enabled (config e) = true ->
  issue (py_split_first ":" p) (store s) = (Ok (Some c, Some k), st1) ->
  c <> "" -> k <> "" ->
  do_CONNECT e p tun s = tls_tunnel c k tun (append_out (with_store s st1) established).
Proof.
  intros Hm Hi Hc Hk. unfold do_CONNECT. rewrite Hm. simpl. unfold bind at 1.
  rewrite lift_store_run, Hi. simpl.
  apply String.eqb_neq in Hc, Hk. rewrite Hc, Hk. simpl.
  unfold bind. rewrite !emit_run, append_out_app. done.
Qed.

Lemma handle_one_connect e p t :
  handle_one fetch hash e (CReq "CONNECT" p t) =
  do_CONNECT e p (match t with Some c => Some (handle_one fetch hash e c) | None => None end).
Proof. reflexivity. Qed.

Lemma handle_one_get e p t :
  handle_one fetch hash e (CReq "GET" p t) = do_GET fetch hash e p.
Proof. reflexivity. Qed.

Lemma do_CONNECT_disabled e p tun (s : HState St) :
  mitm_enabled (config e) = false ->
  do_CONNECT e p tun s = (Ok tt, append_out s [SendResponse 403 None; EndHeaders]).
Proof.
  intros Hm. unfold do_CONNECT. rewrite Hm. cbn [negb].
  unfold bind. rewrite !emit_run, append_out_app. done.
Qed.

(** C3 MITM disabled: a CONNECT is answered 403 and nothing else: no
    certificate is requested, no handshake is attempted, nothing is sent
    upstream. *)
Theorem connect_disabled_403 e p t (s : HState St) :
  mitm_enabled (config e) = false ->
  handle_one fetch hash e (CReq "CONNECT" p t) s =
  (Ok tt, append_out s [SendResponse 403 None; EndHeaders]).
Proof.
  intros Hm. rewrite handle_one_connect. by apply do_CONNECT_disabled.
Qed.

Lemma handle_one_established e p c k st1 inner (s : HState St) :
  mitm_enabled (config e) = true ->
  issue (py_split_first ":" p) (store s) = (Ok (Some c, Some k), st1) ->
  c <> "" -> k <> "" -> chain_loads c k st1 = true ->
  handle_one fetch hash e (CReq "CONNECT" p (Some inner)) s =
  (Ok tt, snd (handle_one fetch hash e inner
                 (append_out (with_store s st1) (established ++ [TlsEstablished])))).
Proof.
  intros Hm Hi Hc Hk Hl. rewrite handle_one_connect.
  rewrite (do_CONNECT_issued e p _ c k st1 s) by done.
  unfold tls_tunnel, try_except, bind, get. cbn -[handle_one emit]. rewrite Hl.
  rewrite emit_run, append_out_app.
  change (established ++ [TlsEstablished]) with
    [SendResponse 200 (Some "Connection Established"); EndHeaders; TlsEstablished].
  destruct (handle_one fetch hash e inner _) as [[[]|x] s2]; reflexivity.
Qed.

(** C18 Interception: with MITM enabled and a certificate that loads, the
    client gets "200 Connection Established", the TLS handshake runs and
    the request inside the tunnel is handled; whatever that request does,
    an exception in it is swallowed and the CONNECT returns normally. *)
Theorem connect_established e p c k st1 inner (s : HState St) :
  mitm_enabled (config e) = true ->
  issue (py_split_first ":" p) (store s) = (Ok (Some c, Some k), st1) ->
  c <> "" -> k <> "" -> chain_loads c k st1 = true ->
  handle_one fetch hash e (CReq "CONNECT" p (Some inner)) s =
  (Ok tt, snd (handle_one fetch hash e inner
                 (append_out (with_store s st1) (established ++ [TlsEstablished])))).
Proof. apply handle_one_established. Qed.

(** A failed TLS setup (the key does not load, or the client's
    handshake fails) is swallowed: the client has received the 200 line
    and the connection ends with nothing more. *)
Theorem connect_tls_failure e p tun c k st1 (s : HState St) :
  mitm_enabled (config e) = true ->
  issue (py_split_first ":" p) (store s) = (Ok (Some c, Some k), st1) ->
  c <> "" -> k <> "" -> (chain_loads c k st1 = false \/ tun = None) ->
  do_CONNECT e p tun s = (Ok tt, append_out (with_store s st1) established).
Proof.
  intros Hm Hi Hc Hk Hf. rewrite (do_CONNECT_issued e p _ c k st1 s) by done.
  unfold tls_tunnel, try_except, bind, get. simpl.
  destruct Hf as [-> | ->]; [done|]. by destruct (chain_loads c k st1).
Qed.

Lemma append_out_sent (s : HState St) evs : sent (append_out s evs) = sent s.
Proof. reflexivity. Qed.

(** [do_GET] issues exactly one outbound request, whatever happens next. *)
Lemma do_GET_sent e path g (s : HState St) :
  urlparse_check (normalize_url path) = Ok tt ->
  route hash (config e) (proxy_pool e) (normalize_url path) = Ok g ->
  sent (snd (do_GET fetch hash e path s)) = sent s ++ [outbound_for (config e) path g].
Proof.
  intros Hu Hr. rewrite (do_GET_unfold e path g s Hu Hr). cbv zeta. unfold try_except at 1.
  destruct (fetch (outbound_for (config e) path g)) as [x|st hs cs [x|]].
  - by rewrite proxy_error_run.
  - rewrite relay_run. cbn [catch_all]. by rewrite proxy_error_run.
  - by rewrite relay_run.
Qed.

(** C20 Inside a CONNECT tunnel the request is forwarded as if it had
    come in plain: its URL is [normalize_url] of the request path alone,
    so the tunnel's host is dropped and the scheme is http; an
    origin-form path "/index.html" is sent to http://index.html. *)
Theorem tunnel_request_target_ignored e target path c k st1 g (s : HState St) :
  mitm_enabled (config e) = true ->
  issue (py_split_first ":" target) (store s) = (Ok (Some c, Some k), st1) ->
  c <> "" -> k <> "" -> chain_loads c k st1 = true ->
  urlparse_check (normalize_url path) = Ok tt ->
  route hash (config e) (proxy_pool e) (normalize_url path) = Ok g ->
  sent (snd (handle_one fetch hash e (CReq "CONNECT" target (Some (CReq "GET" path None))) s)) =
  sent s ++ [outbound_for (config e) path g].
Proof.
  intros Hm Hi Hc Hk Hl Hu Hr. rewrite (handle_one_established e target c k st1) by done.
  rewrite handle_one_get. cbn [snd]. by rewrite (do_GET_sent e path g).
Qed.

(** A method other than CONNECT and GET (POST, PUT, HEAD, ...) is
    answered 501 by the request handler and nothing is forwarded. *)
Theorem other_method_501 e m p t (s : HState St) :
  m <> "CONNECT" -> m <> "GET" ->
  handle_one fetch hash e (CReq m p t) s =
  (Ok tt, append_out s [SendError 501 ("Unsupported method ('" +:+ m +:+ "')")]).
Proof.
  intros H1 H2. cbn [handle_one].
  apply String.eqb_neq in H1, H2. rewrite H1, H2. apply emit_run.
Qed.

(** Containment: no exception leaves the handling of a connection, so
    no failure of one connection stops the server loop. *)
Theorem handle_contained e c (s : HState St) :
  fst (handle fetch hash e c s) = Ok tt.
Proof.
  unfold handle, try_except. destruct (handle_one fetch hash e c s) as [[[]|x] s'];
    reflexivity.
Qed.

(** For an issuer that, when it returns, returns two non-empty paths,
    the first answer to a CONNECT is 403 or "200 Connection Established",
    or an exception escapes with nothing written. *)
Lemma tls_tunnel_ok c k tun (s : HState St) : fst (tls_tunnel c k tun s) = Ok tt.
Proof. unfold tls_tunnel, try_except. by destruct (bind get _ s) as [[[]|x] s']. Qed.

Lemma connect_first_response_of_laws `{!CertIssuerLaws St} e p t (s s' : HState St) r :
  handle_one fetch hash e (CReq "CONNECT" p t) s = (r, s') ->
  (exists x, r = Err x /\ out s' = out s) \/
  (r = Ok tt /\ exists rest, out s' = out s ++ SendResponse 200 (Some "Connection Established") :: rest) \/
  (r = Ok tt /\ out s' = out s ++ [SendResponse 403 None; EndHeaders]).
Proof.
  rewrite handle_one_connect. unfold do_CONNECT.
  destruct (mitm_enabled (config e)) eqn:Hm; cbn [negb].
  - unfold bind at 1. rewrite lift_store_run.
    destruct (issue (py_split_first ":" p) (store s)) as [[r0|x] st1] eqn:Hi; simpl.
    + destruct (issue_returns_paths _ _ _ _ Hi) as (c & k & -> & Hc & Hk).
      apply String.eqb_neq in Hc, Hk. cbn. rewrite Hc, Hk. cbn -[tls_tunnel].
      intros Ht. right; left. split.
      { match type of Ht with
        | tls_tunnel ?c ?k ?tn ?S = _ =>
            pose proof (tls_tunnel_ok c k tn S) as Hok; rewrite Ht in Hok; exact Hok
        end. }
      assert (forall m, match t with Some c0 => Some (handle_one fetch hash e c0)
                                     | None => None end = Some m -> appends m) as Hin.
      { intros m Hmt. destruct t; simplify_eq. apply appends_handle_one. }
      destruct (appends_tls_tunnel c k _ Hin _ _ _ Ht) as [evs ->].
      exists (EndHeaders :: evs). cbn [out]. rewrite <- !app_assoc. reflexivity.
    + intros [= <- <-]. left. by exists x.
  - unfold bind. rewrite !emit_run, append_out_app. intros [= <- <-]. by right; right.
Qed.

End Run.

(** ** The certificate store as an issuer *)


(** The environment of [generate_cert]: directory, the two clock readings, library and
    writable paths. *)
Record StoreEnv := {
  env_cert_dir : string;
  env_now : Z;
  env_now' : Z;
  env_crypto : bool;
  env_can_write : string -> bool
}.

Definition store_issuer (env : StoreEnv) : CertIssuer CertStore.Store := {|
  issue := CertStore.generate_cert (env_cert_dir env) (env_now env) (env_now' env) (env_crypto env)
             (env_can_write env);
  chain_loads := CertStore.load_cert_chain
|}.

(** ** The certificate store implements the interface *)

Lemma suffix_nonempty (a b : string) : b <> "" -> a +:+ b <> "".
Proof. intros Hb. destruct a; [done|]. rewrite append_cons. discriminate. Qed.

#[export] Instance store_issuer_laws env : @CertIssuerLaws CertStore.Store (store_issuer env).
Proof.
  constructor. intros h s r s' Hr.
  rewrite (CertStore.generate_cert_returns_paths _ _ _ _ _ h s r s' Hr).
  eexists _, _. split; [done|].
  rewrite CertStore.cert_path_base, CertStore.key_path_base.
  split; by apply suffix_nonempty.
Qed.

(** C21 A certificate failure drops the connection: with MITM enabled,
    no cryptography package and no cached pair, [generate_cert] raises
    NameError, the CONNECT handler never answers (no 500), and the
    server's error handler ends the connection. *)
Theorem connect_cert_unavailable fetch hash env e p t (s : HState CertStore.Store) :
  mitm_enabled (config e) = true -> env_crypto env = false ->
  CertStore.exists_file (CertStore.cert_path (env_cert_dir env) (py_split_first ":" p)) (store s)
  && CertStore.exists_file (CertStore.key_path (env_cert_dir env) (py_split_first ":" p)) (store s)
  = false ->
  @handle _ (store_issuer env) fetch hash e (CReq "CONNECT" p t) s =
  (Ok tt, append_out s [HandlerError (NameError "console")]).
Proof.
  intros Hm Hc Hmiss. unfold handle, try_except. rewrite handle_one_connect.
  unfold do_CONNECT. rewrite Hm. cbn [negb]. unfold bind at 1. rewrite lift_store_run.
  simpl issue. rewrite CertStore.generate_cert_unfold, Hmiss, Hc. simpl.
  by destruct s.
Qed.

(** C17 With the certificate store of the program as issuer, in any
    directory, with any clock, with or without [cryptography] and
    whatever paths are writable, a CONNECT gets 403, or "200 Connection
    Established" first, or no answer at all (an exception escapes and
    the connection is closed): the 500 of line 109 is never sent,
    because [generate_cert] either raises or returns two non-empty
    paths. *)
Theorem connect_first_response fetch hash env e p t (s : HState CertStore.Store) :
  let s' := snd (@handle _ (store_issuer env) fetch hash e (CReq "CONNECT" p t) s) in
  out s' = out s ++ [SendResponse 403 None; EndHeaders] \/
  (exists rest, out s' = out s ++ SendResponse 200 (Some "Connection Established") :: rest) \/
  (exists x, out s' = out s ++ [HandlerError x]).
Proof.
  cbv zeta. unfold handle, try_except.
  destruct (@handle_one _ (store_issuer env) fetch hash e (CReq "CONNECT" p t) s)
    as [r s1] eqn:E.
  destruct (connect_first_response_of_laws (H := store_issuer env) fetch hash e p t s s1 r E)
    as [(x & -> & Hx)|[(-> & rest & Hr)|(-> & H4)]]; simpl.
  - right; right. exists x. unfold emit, modify. simpl. by rewrite Hx.
  - right; left. by exists rest.
  - by left.
Qed.

(** ** Concrete runs

    An upstream that answers http://example.com/ with two chunks, times
    out on http://slow.example/ and breaks after one chunk on
    http://flaky.example/; the engine with MITM off and on; an empty
    certificate directory with the library present. *)
Definition demo_fetch (o : outbound) : upstream :=
  if String.eqb (req_url o) "http://example.com/" then
    UpResp 200 [("Content-Type", "text/html"); ("Transfer-Encoding", "chunked")]
           ["<html>"; "</html>"] None
  else if String.eqb (req_url o) "http://flaky.example/" then
    UpResp 200 [("Connection", "keep-alive")] ["part"] (Some (RequestException "Connection broken"))
  else UpFail (RequestException "Read timed out").

Definition demo_engine : ProxyEngine := init_engine "/home/op".
Definition demo_mitm_engine : ProxyEngine := set_config (Set_mitm_enabled true) demo_engine.
Definition demo_env : StoreEnv := {|
  env_cert_dir := CertStore.demo_dir; env_now := CertStore.demo_now; env_now' := CertStore.demo_now;
  env_crypto := true; env_can_write := CertStore.all_writable |}.
Definition demo_env_nocrypto : StoreEnv := {|
  env_cert_dir := CertStore.demo_dir; env_now := CertStore.demo_now; env_now' := CertStore.demo_now;
  env_crypto := false; env_can_write := CertStore.all_writable |}.
Definition s0 : HState CertStore.Store := {| out := []; sent := []; store := CertStore.empty_store |}.

Lemma do_GET_upstream_failure_witness :
  @do_GET CertStore.Store demo_fetch RouterProps.demo_hash demo_engine "http://slow.example/" s0 =
  (Ok tt, append_out (record_sent s0 (outbound_for (config demo_engine) "http://slow.example/" Direct))
            proxy_error).
Proof.
  apply do_GET_upstream_failure with (x := RequestException "Read timed out");
    vm_compute; reflexivity.
Defined.

Lemma do_GET_relays_witness :
  @do_GET CertStore.Store demo_fetch RouterProps.demo_hash demo_engine "example.com/" s0 =
  (Ok tt, append_out (record_sent s0 (outbound_for (config demo_engine) "example.com/" Direct))
            ([SendResponse 200 None] ++ header_events [("Content-Type", "text/html"); ("Transfer-Encoding", "chunked")]
             ++ [EndHeaders] ++ map WriteBody ["<html>"; "</html>"])).
Proof. apply do_GET_relays; vm_compute; reflexivity. Defined.

Lemma do_GET_invalid_ipv6_witness :
  @do_GET CertStore.Store demo_fetch RouterProps.demo_hash demo_engine "http://[::1/x" s0 =
  (Ok tt, append_out s0 proxy_error).
Proof.
  apply do_GET_invalid_ipv6 with (x := ValueError "Invalid IPv6 URL"). vm_compute. reflexivity.
Defined.

Lemma do_GET_midstream_failure_witness :
  @do_GET CertStore.Store demo_fetch RouterProps.demo_hash demo_engine "http://flaky.example/" s0 =
  (Ok tt, append_out (record_sent s0 (outbound_for (config demo_engine) "http://flaky.example/" Direct))
            ([SendResponse 200 None] ++ header_events [("Connection", "keep-alive")] ++ [EndHeaders]
             ++ map WriteBody ["part"] ++ proxy_error)).
Proof.
  apply do_GET_midstream_failure with (x := RequestException "Connection broken");
    vm_compute; reflexivity.
Defined.

Lemma connect_disabled_403_witness :
  @handle_one _ (store_issuer demo_env) demo_fetch RouterProps.demo_hash demo_engine
    (CReq "CONNECT" "example.com:443" None) s0 =
  (Ok tt, append_out s0 [SendResponse 403 None; EndHeaders]).
Proof. apply connect_disabled_403. reflexivity. Defined.

Definition issued_after_connect : CertStore.Store :=
  snd (CertStore.generate_cert CertStore.demo_dir CertStore.demo_now CertStore.demo_now true CertStore.all_writable
         "example.com" CertStore.empty_store).

Lemma connect_established_witness :
  @handle_one _ (store_issuer demo_env) demo_fetch RouterProps.demo_hash demo_mitm_engine
    (CReq "CONNECT" "example.com:443" (Some (CReq "GET" "/index.html" None))) s0 =
  (Ok tt, snd (@handle_one _ (store_issuer demo_env) demo_fetch RouterProps.demo_hash demo_mitm_engine
                 (CReq "GET" "/index.html" None)
                 (append_out (with_store s0 issued_after_connect) (established ++ [TlsEstablished])))).
Proof.
  apply connect_established with (c := CertStore.cert_path CertStore.demo_dir "example.com")
           (k := CertStore.key_path CertStore.demo_dir "example.com"); vm_compute; try reflexivity;
    discriminate.
Defined.

Lemma connect_tls_failure_witness :
  @do_CONNECT _ (store_issuer demo_env) demo_mitm_engine
    "example.com:443" None s0 =
  (Ok tt, append_out (with_store s0 issued_after_connect) established).
Proof.
  apply connect_tls_failure with (c := CertStore.cert_path CertStore.demo_dir "example.com")
           (k := CertStore.key_path CertStore.demo_dir "example.com"); vm_compute; try reflexivity;
    [discriminate|discriminate|by right].
Defined.

Lemma tunnel_request_target_ignored_witness :
  req_url (outbound_for (config demo_mitm_engine) "/index.html" Direct) = "http://index.html" /\
  sent (snd (@handle_one _ (store_issuer demo_env) demo_fetch RouterProps.demo_hash demo_mitm_engine
         (CReq "CONNECT" "example.com:443" (Some (CReq "GET" "/index.html" None))) s0)) =
  sent s0 ++ [outbound_for (config demo_mitm_engine) "/index.html" Direct].
Proof.
  split; [reflexivity|].
  apply tunnel_request_target_ignored with (c := CertStore.cert_path CertStore.demo_dir "example.com")
           (k := CertStore.key_path CertStore.demo_dir "example.com") (st1 := issued_after_connect);
    vm_compute; try reflexivity; discriminate.
Defined.

Lemma other_method_501_witness :
  @handle_one _ (store_issuer demo_env) demo_fetch RouterProps.demo_hash demo_engine
    (CReq "POST" "http://example.com/form" None) s0 =
  (Ok tt, append_out s0 [SendError 501 ("Unsupported method ('" +:+ "POST" +:+ "')")]).
Proof. apply other_method_501; discriminate. Defined.

Lemma connect_cert_unavailable_witness :
  @handle _ (store_issuer demo_env_nocrypto) demo_fetch RouterProps.demo_hash demo_mitm_engine
    (CReq "CONNECT" "example.com:443" None) s0 =
  (Ok tt, append_out s0 [HandlerError (NameError "console")]).
Proof. apply connect_cert_unavailable; vm_compute; reflexivity. Defined.

End Handler.
