(* ===== verification/Tor.v ===== *)
(** * The anonymising-transport supervisor: [TorManager]
    (src/Core/tor_manager.py)

    [get_tor_cmd] picks the Tor executable by platform; [ensure_running]
    probes the SOCKS port 127.0.0.1:9150 and, when nothing listens,
    launches the executable, sleeps 3 seconds and reports success
    without probing again.  The platform, the environment variable
    PREFIX, the files that exist, the outcome of [where tor.exe], the
    probe and [subprocess.Popen] are the environment [TorEnv]; the
    supervisor's effects (probe, launch, sleep) are its log.  The output
    of [where] is read in text mode, which turns CR LF into LF
    ([universal_newlines]). *)

From S2P Require Import Prelude.

Module Tor.

Record TorEnv := {
  system : string;                  (* platform.system().lower() *)
  prefix_var : string;              (* os.environ.get("PREFIX", "") *)
  path_exists : string -> bool;     (* os.path.exists *)
  where_tor : option (Z * string);  (* returncode, stdout; None: raised *)
  home : string;                    (* what ~ expands to *)
  port_open : bool;                 (* 127.0.0.1:9150 accepts *)
  popen : string -> option exn      (* None: the process started *)
}.

Inductive tor_event :=
| Probe (host : string) (port : Z)
| Spawn (cmd : string)
| Sleep (seconds : Z).

Section Tor.

Variable env : TorEnv.

(** [for p in paths: if os.path.exists(p): return p]. *)
Fixpoint first_existing (ps : list string) : option string :=
  match ps with
  | [] => None
  | p :: ps' => if path_exists env p then Some p else first_existing ps'
  end.

(** [text=True] reads the output through [TextIOWrapper] in universal
    newline mode: CR LF and a lone CR become LF. *)
Fixpoint universal_newlines (s : string) : string :=
  match s with
  | EmptyString => EmptyString
  | String "013" (String "010" s') => String "010" (universal_newlines s')
  | String "013" s' => String "010" (universal_newlines s')
  | String c s' => String c (universal_newlines s')
  end.

(** Lines 22-27: [where tor.exe] with [shell=True]; [where_tor] holds
    the bytes the command wrote. *)
Definition where_result : option string :=
  match where_tor env with
  | Some (rc, raw) =>
      let out := universal_newlines raw in
      if (rc =? 0) && negb (String.eqb (py_strip out) "")
      then Some (py_split_first "010" (py_strip out)) else None
  | None => None
  end.

(** Lines 9-37. *)
Definition get_tor_cmd : option string :=
  if py_contains "com.termux" (prefix_var env) then Some "tor"
  else if String.eqb (system env) "linux" then Some "tor"
  else if String.eqb (system env) "darwin" then
    match first_existing ["/opt/homebrew/bin/tor"; "/usr/local/bin/tor"] with
    | Some p => Some p
    | None => Some "tor"
    end
  else if String.eqb (system env) "windows" then
    match where_result with
    | Some p => Some p
    | None => first_existing [home env +:+ "/tor/tor.exe"; "C:/tor/tor.exe"; "tor.exe"]
    end
  else Some "tor".

Definition log (ev : tor_event) : PyM (list tor_event) unit :=
  modify (fun l => l ++ [ev]).

(** Lines 41-43: [sock.connect(("127.0.0.1", 9150))] raises when
    nothing listens. *)
Definition probe : PyM (list tor_event) unit :=
  bind (log (Probe "127.0.0.1" 9150)) (fun _ =>
  if port_open env then ret tt else raise (OSError "Connection refused")).

(** Line 50. *)
Definition spawn (cmd : string) : PyM (list tor_event) unit :=
  bind (log (Spawn cmd)) (fun _ =>
  match popen env cmd with None => ret tt | Some e => raise e end).

(** Lines 39-54. *)
Definition ensure_running : PyM (list tor_event) bool :=
  try_except (bind probe (fun _ => ret true)) catch_all
    (fun _ =>
       match get_tor_cmd with
       | None => raise (Exception "Tor not found. Install manually.")
       | Some cmd =>
           try_except
             (bind (spawn cmd) (fun _ => bind (log (Sleep 3)) (fun _ => ret true)))
             catch_all
             (fun e => raise (Exception ("Tor start failed: " +:+ exn_msg e)))
       end).

End Tor.

Section Props.

Variable env : TorEnv.

Lemma probe_run l :
  probe env l = (if port_open env then Ok tt else Err (OSError "Connection refused"),
                 l ++ [Probe "127.0.0.1" 9150]).
Proof. unfold probe, bind, log, modify. by destruct (port_open env). Qed.

Lemma spawn_run cmd l :
  spawn env cmd l = (match popen env cmd with None => Ok tt | Some e => Err e end,
                     l ++ [Spawn cmd]).
Proof. unfold spawn, bind, log, modify. by destruct (popen env cmd). Qed.

(** [ensure_running] after a failed probe. *)
Lemma ensure_running_closed l :
  port_open env = false ->
  ensure_running env l =
  match get_tor_cmd env with
  | None => (Err (Exception "Tor not found. Install manually."), l ++ [Probe "127.0.0.1" 9150])
  | Some cmd =>
      match popen env cmd with
      | None => (Ok true, l ++ [Probe "127.0.0.1" 9150; Spawn cmd; Sleep 3])
      | Some e => (Err (Exception ("Tor start failed: " +:+ exn_msg e)),
                   l ++ [Probe "127.0.0.1" 9150; Spawn cmd])
      end
  end.
Proof.
  intros Hp. unfold ensure_running, try_except at 1, bind at 1. rewrite probe_run, Hp.
  simpl. destruct (get_tor_cmd env) as [cmd|]; [|done].
  unfold try_except, bind at 1. rewrite spawn_run.
  destruct (popen env cmd); simpl; by rewrite <- !app_assoc.
Qed.

(** When the SOCKS port already accepts, [ensure_running] reports
    success after the one probe and launches nothing. *)
Theorem ensure_running_port_open l :
  port_open env = true ->
  ensure_running env l = (Ok true, l ++ [Probe "127.0.0.1" 9150]).
Proof.
  intros Hp. unfold ensure_running, try_except, bind at 1. rewrite probe_run, Hp. done.
Qed.

(** When the port is closed and an executable is found and starts,
    [ensure_running] launches it, sleeps 3 seconds and reports success
    without probing again: success does not mean that Tor listens. *)
Theorem ensure_running_launches l cmd :
  port_open env = false -> get_tor_cmd env = Some cmd -> popen env cmd = None ->
  ensure_running env l = (Ok true, l ++ [Probe "127.0.0.1" 9150; Spawn cmd; Sleep 3]).
Proof. intros Hp Hc Hs. by rewrite ensure_running_closed, Hc, Hs. Qed.

(** C32 [ensure_running] never returns False: it returns True exactly
    when the port accepts or a found executable starts, and raises
    otherwise, with "Tor not found" when no executable is found. *)
Theorem ensure_running_outcome l :
  (fst (ensure_running env l) = Ok true <->
   port_open env = true \/ exists cmd, get_tor_cmd env = Some cmd /\ popen env cmd = None) /\
  (fst (ensure_running env l) = Err (Exception "Tor not found. Install manually.") <->
   port_open env = false /\ get_tor_cmd env = None) /\
  fst (ensure_running env l) <> Ok false.
Proof.
  destruct (port_open env) eqn:Hp.
  { rewrite ensure_running_port_open by done. simpl. split; [|split]; [tauto| |done].
    split; [discriminate|]. intros [? _]; discriminate. }
  rewrite ensure_running_closed by done.
  destruct (get_tor_cmd env) as [cmd|] eqn:Hc; [destruct (popen env cmd) eqn:Hs|]; simpl.
  - split; [|split].
    + split; [discriminate|]. intros [?|(c & [= <-] & Hs')]; congruence.
    + split; [|intros [_ ?]; discriminate].
      intros Hm. discriminate Hm.
    + discriminate.
  - split; [|split]; [split; [eauto|done]| |discriminate].
    split; [discriminate|]. intros [_ ?]; discriminate.
  - split; [|split]; [|tauto|discriminate].
    split; [discriminate|]. intros [?|(c & ? & _)]; congruence.
Qed.

(** The "not found" failure exists only on Windows: on Termux,
    Linux, macOS and any other system [get_tor_cmd] names an executable
    (["tor"] when none was seen), so a missing binary is reported as a
    failed start instead. *)
Theorem get_tor_cmd_none_only_windows :
  get_tor_cmd env = None ->
  system env = "windows" /\ py_contains "com.termux" (prefix_var env) = false.
Proof.
  unfold get_tor_cmd. destruct (py_contains _ _); [done|].
  destruct (String.eqb_spec (system env) "linux"); [done|].
  destruct (String.eqb_spec (system env) "darwin").
  { by destruct (first_existing _ _). }
  destruct (String.eqb_spec (system env) "windows"); [done|done].
Qed.

End Props.

(** A Linux host where nothing listens on 9150, a Windows host without
    Tor, and a Windows host where [where] finds two executables. *)
Definition linux_env (open_port : bool) : TorEnv := {|
  system := "linux"; prefix_var := ""; path_exists := fun _ => false;
  where_tor := None; home := "/home/op"; port_open := open_port;
  popen := fun _ => None |}.

Definition windows_env (where_out : option (Z * string)) : TorEnv := {|
  system := "windows"; prefix_var := ""; path_exists := fun _ => false;
  where_tor := where_out; home := "C:/Users/op"; port_open := false;
  popen := fun _ => None |}.

Lemma ensure_running_port_open_witness :
  ensure_running (linux_env true) [] = (Ok true, [Probe "127.0.0.1" 9150]).
Proof. apply ensure_running_port_open. reflexivity. Defined.

Lemma ensure_running_launches_witness :
  ensure_running (linux_env false) [] = (Ok true, [Probe "127.0.0.1" 9150; Spawn "tor"; Sleep 3]).
Proof. apply (ensure_running_launches (linux_env false) [] "tor"); reflexivity. Defined.

Lemma get_tor_cmd_none_only_windows_witness :
  get_tor_cmd (windows_env (Some (1, ""))) = None /\
  system (windows_env (Some (1, ""))) = "windows" /\
  py_contains "com.termux" (prefix_var (windows_env (Some (1, "")))) = false.
Proof. split; [reflexivity|]. apply get_tor_cmd_none_only_windows. reflexivity. Defined.

(** [where] prints one path per line with CR LF endings; the text mode
    of [subprocess.run] turns them into LF, so with two hits the command
    is the first path, without a carriage return. *)
Lemma where_two_hits_first_line :
  get_tor_cmd (windows_env (Some (0, "C:\tor\tor.exe" +:+ String "013" (String "010" "D:\tor.exe") +:+ String "013" (String "010" ""))))
  = Some "C:\tor\tor.exe".
Proof. vm_compute. reflexivity. Qed.

End Tor.
