(* ===== verification/Network.v ===== *)
(** * The proxy-list fetcher: [NetworkUtils.fetch_proxies]
    (src/network.py)

    [fetch_proxies] downloads a text list with one GET (timeout 10 s),
    keeps the stripped non-empty lines that contain a colon, at most 20
    of them, and stores the list in [self.proxies]; any exception leaves
    the empty list.  The download is an input: [None] when
    [requests.get] raises, otherwise the HTTP status and the body text,
    the status being ignored by the code as [requests] does not raise on
    it. *)

From S2P Require Import Prelude.

Module Network.

Record NetworkUtils := { proxies : list string }.

Definition list_url : string :=
  "https://raw.githubusercontent.com/TheSpeedX/PROXY-List/master/http.txt".

(** Line 15: [[p.strip() for p in res.text.splitlines() if p.strip()]]. *)
Definition stripped_lines (text : string) : list string :=
  List.filter (fun p => negb (String.eqb p "")) (map py_strip (py_splitlines text)).

(** Line 16: [[p for p in lines if ":" in p][:20]]. *)
Definition select_proxies (lines : list string) : list string :=
  firstn 20 (List.filter (fun p => py_contains ":" p) lines).

(** Lines 8-18. *)
Definition fetch_proxies (download : option (Z * string)) (_ : NetworkUtils) : NetworkUtils :=
  match download with
  | Some (_, text) => {| proxies := select_proxies (stripped_lines text) |}
  | None => {| proxies := [] |}
  end.

Section Props.

(** C34 The fetched pool has at most 20 entries, each a non-empty
    stripped line of the downloaded text that contains a colon, in the
    order of the text; a failed download gives the empty pool. *)
Theorem fetch_proxies_shape download n :
  (length (proxies (fetch_proxies download n)) <= 20)%nat /\
  (forall p, In p (proxies (fetch_proxies download n)) ->
     p <> "" /\ py_contains ":" p = true /\
     exists status text, download = Some (status, text) /\ In p (map py_strip (py_splitlines text))) /\
  (download = None -> proxies (fetch_proxies download n) = []).
Proof.
  destruct download as [[status text]|]; simpl; [|split; [lia|split; [done|done]]].
  split; [|split; [|discriminate]].
  - unfold select_proxies. rewrite length_firstn. lia.
  - intros p Hp. unfold select_proxies, stripped_lines in Hp.
    apply in_firstn_in in Hp.
    apply filter_In in Hp as [Hp Hc]. apply filter_In in Hp as [Hp Hne].
    split; [by apply negb_true_iff, String.eqb_neq in Hne|].
    split; [done|]. eauto.
Qed.

End Props.

(** C35 The status of the response is not checked: for every HTTP
    status, a body of one stripped line that contains a colon, such as
    GitHub's error page "404: Not Found", becomes the whole proxy pool. *)
Theorem fetch_proxies_ignores_status status text n :
  text <> "" -> py_strip text = text ->
  forallb (fun c => negb (is_line_break c)) (list_ascii_of_string text) = true ->
  py_contains ":" text = true ->
  proxies (fetch_proxies (Some (status, text)) n) = [text].
Proof.
  intros Hne Hs Hl Hc. cbn [fetch_proxies proxies].
  unfold stripped_lines. rewrite py_splitlines_one_line by done.
  cbn [map List.filter]. rewrite Hs.
  destruct (String.eqb_spec text ""); [done|]. cbn [negb].
  unfold select_proxies. cbn [List.filter]. by rewrite Hc.
Qed.

Lemma fetch_proxies_ignores_status_witness :
  proxies (fetch_proxies (Some (404, "404: Not Found")) {| proxies := [] |}) = ["404: Not Found"].
Proof.
  apply (fetch_proxies_ignores_status 404 "404: Not Found"); [discriminate|vm_compute; reflexivity..].
Defined.

End Network.
