(* ===== verification/Cli.v ===== *)
(** * The command shell (src/raproxy.py)

    The shell owns the global instances [engine], [tor], [net] and the
    global [IS_ROOT]; [main] reads lines, splits them into words and
    dispatches to the [cmd_*] functions, which mutate the engine and
    print.  [Shell] is that global state with the printed messages;
    [run_line] is one iteration of the loop of [main] (lines 186-219) and
    [main_loop] the loop over the lines read ([Startup.shell_loop] adds
    Ctrl-C).  A line ends in [Continue], [Exit] or [Raised]: the two
    commands that print user data ([set header], [status]) print through
    [cprint], which raises rich's [MarkupError] (Markup.v), and [main]
    catches only [KeyboardInterrupt] and [EOFError].  What the shell asks of the
    platform (Termux, [os.geteuid], [tsu], [net session]), of Tor, of the
    proxy-list download and of the socket bind is the input [ShellEnv].
    The fingerprint module ([stealth], not in the repository) is an
    external call that returns. *)

From S2P Require Import Prelude Config Markup Router Handler Tor Network.
Import Engine Markup Handler Tor Network.

Module Cli.

(** What [detect_platform] consults. *)
Record PlatformEnv := {
  os_name : string;                 (* platform.system().lower() *)
  termux : bool;                    (* "com.termux" in $PREFIX *)
  tsu_id : option (Z * string);     (* tsu -c "id -u": rc, stdout; None: raised *)
  euid : Z;                         (* os.geteuid() *)
  net_session_rc : Z                (* net session: return code *)
}.

Record ShellEnv := {
  platform : PlatformEnv;
  tor_env : TorEnv;
  download : option (Z * string);   (* the GET of fetch_proxies *)
  bind_result : option exn          (* TCPServer(("", port)) in the thread *)
}.

(** What the shell prints, one constructor per [console.print] call
    site that the core's behaviour depends on. *)
Inductive msg :=
| MsgRotationSet (mode : string)
| MsgRotationUsage
| MsgTorNeedsRoot
| MsgTorEnabled
| MsgAntiFpActive
| MsgHeaderSet (k v : string)
| MsgStatusHeader
| MsgStatusItem (k : string) (v : pyval)
| MsgPoolSize (n : nat)
| MsgInit
| MsgTorSkipped
| MsgTorFailed (e : string)
| MsgProxiesLoaded (n : nat)
| MsgNoProxies
| MsgActive (port : Z)
| MsgSetUsage
| MsgFeatureUsage
| MsgEnableUsage
| MsgCommands
| MsgShutdown
| MsgUseExit.

Record Shell := {
  engine : ProxyEngine;
  net : NetworkUtils;
  is_root : bool;
  console : list msg;
  tor_log : list tor_event;
  server_thread : option server
}.

(** A line ends in the loop going on, in [sys.exit(0)], or in an
    exception that [main] does not catch. *)
Inductive outcome := Continue (s : Shell) | Exit (s : Shell) | Raised (e : exn) (s : Shell).

(** Lines 43-69: the platform name; the second component is the value
    the function leaves in [IS_ROOT]. *)
Definition detect_platform (p : PlatformEnv) : string * bool :=
  if termux p then
    match tsu_id p with
    | Some (rc, out) =>
        if (rc =? 0) && String.eqb (py_strip out) "0" then ("termux-root", true)
        else ("termux-nonroot", false)
    | None => ("termux-nonroot", false)
    end
  else if String.eqb (os_name p) "linux" then
    if euid p =? 0 then ("linux-root", true) else ("linux-user", false)
  else if String.eqb (os_name p) "darwin" then
    if euid p =? 0 then ("macos-root", true) else ("macos-user", false)
  else if String.eqb (os_name p) "windows" then
    if net_session_rc p =? 0 then ("windows-admin", true) else ("windows-user", false)
  else ("unknown", false).

Definition say (m : msg) (s : Shell) : Shell :=
  {| engine := engine s; net := net s; is_root := is_root s;
     console := console s ++ [m]; tor_log := tor_log s; server_thread := server_thread s |}.

Definition says (ms : list msg) (s : Shell) : Shell := fold_left (fun s' m => say m s') ms s.

Definition with_engine (e : ProxyEngine) (s : Shell) : Shell :=
  {| engine := e; net := net s; is_root := is_root s;
     console := console s; tor_log := tor_log s; server_thread := server_thread s |}.

Definition with_root (r : bool) (s : Shell) : Shell :=
  {| engine := engine s; net := net s; is_root := r;
     console := console s; tor_log := tor_log s; server_thread := server_thread s |}.

(** [not IS_ROOT and "termux" in detect_platform()]: the platform is
    only consulted (and [IS_ROOT] refreshed) when [IS_ROOT] is false. *)
Definition termux_nonroot (p : PlatformEnv) (s : Shell) : bool * Shell :=
  if is_root s then (false, s)
  else let '(name, r) := detect_platform p in
       (py_contains "termux" name, with_root r s).

(** Lines 153-158. *)
Definition cmd_set_ip_rotation (mode : string) (s : Shell) : Shell :=
  if String.eqb mode "per-request" || String.eqb mode "disabled" then
    say (MsgRotationSet mode) (with_engine (set_config (Set_ip_rotation mode) (engine s)) s)
  else say MsgRotationUsage s.

(** Lines 160-165. *)
Definition cmd_enable_tor (p : PlatformEnv) (s : Shell) : Shell :=
  let '(refused, s1) := termux_nonroot p s in
  if refused then say MsgTorNeedsRoot s1
  else say MsgTorEnabled (with_engine (set_config (Set_tor_enabled true) (engine s1)) s1).

(** Lines 167-169. *)
Definition cmd_enable_anti_fp (s : Shell) : Shell :=
  say MsgAntiFpActive (with_engine (set_config (Set_anti_fingerprint true) (engine s)) s).

(** [console.print(text)] at a site that prints user data: rich
    renders [text] first, so a [MarkupError] leaves the console as it
    was.  The other sites print fixed markup that renders. *)
Definition cprint (m : msg) (text : string) : PyM Shell unit :=
  fun s => match markup_check text with
           | Ok _ => (Ok tt, say m s)
           | Err e => (Err e, s)
           end.

(** Lines 171-173: the header is stored, then echoed. *)
Definition cmd_set_header (k v : string) : PyM Shell unit :=
  bind (modify (fun s => with_engine (add_header k v (engine s)) s)) (fun _ =>
  cprint (MsgHeaderSet k v) (header_line k v)).

(** Line 177-178: [for k, v in engine.config.items()]. *)
Fixpoint print_items (items : pydict pyval) : PyM Shell unit :=
  match items with
  | [] => ret tt
  | (k, v) :: items' =>
      bind (cprint (MsgStatusItem k v) (status_line k v)) (fun _ => print_items items')
  end.

(** Lines 175-180: one line per item of the dict, in its order, then
    the size of the pool. *)
Definition cmd_status : PyM Shell unit :=
  bind (modify (say MsgStatusHeader)) (fun _ =>
  bind get (fun s =>
  bind (print_items (config_items (config (engine s)))) (fun _ =>
  match proxy_pool (engine s) with
  | [] => ret tt
  | pool => modify (say (MsgPoolSize (length pool)))
  end))).

(** Lines 125-133: start Tor when enabled; the boolean is false when
    [cmd_start] returns after printing the failure. *)
Definition start_tor (env : ShellEnv) (s : Shell) : Shell * bool :=
  if tor_enabled (config (engine s)) then
    let '(skip, s1) := termux_nonroot (platform env) s in
    if skip then (say MsgTorSkipped s1, true)
    else
      let '(r, log') := ensure_running (tor_env env) (tor_log s1) in
      let s2 := {| engine := engine s1; net := net s1; is_root := is_root s1;
                   console := console s1; tor_log := log'; server_thread := server_thread s1 |} in
      match r with
      | Ok _ => (s2, true)
      | Err e => (say (MsgTorFailed (exn_msg e)) s2, false)
      end
  else (s, true).

(** Lines 135-141. *)
Definition load_pool (env : ShellEnv) (s : Shell) : Shell :=
  if negb (String.eqb (ip_rotation (config (engine s))) "disabled") then
    let n' := fetch_proxies (download env) (net s) in
    let s1 := {| engine := engine s; net := n'; is_root := is_root s;
                 console := console s; tor_log := tor_log s; server_thread := server_thread s |} in
    match proxies n' with
    | [] => say MsgNoProxies s1
    | ps => say (MsgProxiesLoaded (length ps)) (with_engine (update_proxy_pool ps (engine s1)) s1)
    end
  else s.

(** Lines 146-151: [start_proxy] only starts the thread, so the
    [except PermissionError] branch cannot run; a bind failure ends the
    thread, not [cmd_start]. *)
Definition launch (env : ShellEnv) (s : Shell) : Shell :=
  let '(e', started) := start_proxy (engine s) in
  let s1 := {| engine := e'; net := net s; is_root := is_root s; console := console s;
               tor_log := tor_log s;
               server_thread := if started then Some (run_server (bind_result env) e')
                                else server_thread s |} in
  say (MsgActive (port e')) s1.

(** Lines 122-151. *)
Definition cmd_start (env : ShellEnv) (s : Shell) : Shell :=
  let '(s1, go) := start_tor env (say MsgInit s) in
  if go then launch env (load_pool env s1) else s1.

(** A command that may raise, run as a line of the loop. *)
Definition run_cmd (c : PyM Shell unit) (s : Shell) : outcome :=
  match c s with
  | (Ok _, s') => Continue s'
  | (Err e, s') => Raised e s'
  end.

(** Lines 189-219: one line of input; [word i] is [parts[i]]. *)
Definition run_line (env : ShellEnv) (line : string) (s : Shell) : outcome :=
  let parts := py_split_ws (py_strip line) in
  let word i := nth i parts "" in
  match parts with
  | [] => Continue s
  | a :: _ =>
      let action := py_lower a in
      if String.eqb action "set" then
        if (3 <=? length parts)%nat && String.eqb (word 1%nat) "ip-rotation" then
          Continue (cmd_set_ip_rotation (word 2%nat) s)
        else if (4 <=? length parts)%nat && String.eqb (word 1%nat) "header" then
          run_cmd (cmd_set_header (word 2%nat) (String.concat " " (skipn 3 parts))) s
        else Continue (say MsgSetUsage s)
      else if String.eqb action "enable" then
        if (2 <=? length parts)%nat then
          if String.eqb (word 1%nat) "tor" then Continue (cmd_enable_tor (platform env) s)
          else if String.eqb (word 1%nat) "anti-fingerprint" then Continue (cmd_enable_anti_fp s)
          else Continue (say MsgFeatureUsage s)
        else Continue (say MsgEnableUsage s)
      else if String.eqb action "start" then Continue (cmd_start env s)
      else if String.eqb action "status" then run_cmd cmd_status s
      else if String.eqb action "exit" then Exit (say MsgShutdown s)
      else Continue (say MsgCommands s)
  end.

(** Lines 186-223: the loop until [exit], an uncaught exception or
    the end of input. *)
Fixpoint main_loop (env : ShellEnv) (lines : list string) (s : Shell) : Shell :=
  match lines with
  | [] => s
  | l :: ls =>
      match run_line env l s with
      | Continue s' => main_loop env ls s'
      | Exit s' | Raised _ s' => s'
      end
  end.

(** Lines 116-120 and 182-185: the globals after [install_deps],
    [show_disclaimer] and [banner], which all refresh [IS_ROOT]. *)
Definition init_shell (p : PlatformEnv) (home : string) : Shell := {|
  engine := init_engine home; net := {| proxies := [] |};
  is_root := snd (detect_platform p); console := []; tor_log := [];
  server_thread := None |}.

Definition outcome_state (o : outcome) : Shell :=
  match o with Continue s | Exit s | Raised _ s => s end.

(** One line read in some environment, or a Ctrl-C at the prompt
    (lines 220-221). *)
Definition shell_step (s s' : Shell) : Prop :=
  (exists env line, outcome_state (run_line env line s) = s') \/ s' = say MsgUseExit s.

Inductive reachable (p : PlatformEnv) (home : string) : Shell -> Prop :=
| reach_init : reachable p home (init_shell p home)
| reach_step s s' : reachable p home s -> shell_step s s' -> reachable p home s'.

(** ** The configuration the shell can reach *)

(** What every reachable engine satisfies: MITM off, a rotation mode of
    the two the shell accepts, the dict's own [proxy_pool] entry empty,
    header names pairwise distinct. *)
Definition engine_inv (e : ProxyEngine) : Prop :=
  mitm_enabled (config e) = false /\
  (ip_rotation (config e) = "disabled" \/ ip_rotation (config e) = "per-request") /\
  cfg_proxy_pool (config e) = [] /\
  NoDup (dict_keys (headers (config e))).

Section Inv.

Lemma engine_inv_init home : engine_inv (init_engine home).
Proof. repeat split; [by left|constructor]. Qed.

Lemma engine_inv_say m s : engine (say m s) = engine s.
Proof. reflexivity. Qed.

Lemma engine_inv_termux p s : engine (snd (termux_nonroot p s)) = engine s.
Proof. unfold termux_nonroot. destruct (is_root s); [done|]. by destruct (detect_platform p). Qed.

Lemma cmd_set_ip_rotation_inv mode s :
  engine_inv (engine s) -> engine_inv (engine (cmd_set_ip_rotation mode s)).
Proof.
  intros (H1 & H2 & H3 & H4). unfold cmd_set_ip_rotation.
  destruct (String.eqb_spec mode "per-request"); [subst; repeat split; auto|].
  destruct (String.eqb_spec mode "disabled"); [subst; repeat split; auto|].
  by repeat split.
Qed.

Lemma cmd_enable_tor_inv p s :
  engine_inv (engine s) -> engine_inv (engine (cmd_enable_tor p s)).
Proof.
  intros Hi. unfold cmd_enable_tor.
  pose proof (engine_inv_termux p s) as He. destruct (termux_nonroot p s) as [[] s1];
    simpl in *; rewrite He; [done|].
  destruct Hi as (H1 & H2 & H3 & H4). by repeat split.
Qed.

Lemma start_tor_engine env s : engine (fst (start_tor env s)) = engine s.
Proof.
  unfold start_tor. destruct (tor_enabled _); [|done].
  pose proof (engine_inv_termux (platform env) s) as He.
  destruct (termux_nonroot (platform env) s) as [[] s1]; simpl in *; [done|].
  destruct (ensure_running _ _) as [[] ?]; simpl; done.
Qed.

Lemma load_pool_config env s : config (engine (load_pool env s)) = config (engine s).
Proof. unfold load_pool. destruct (negb _); [destruct (proxies _)|]; reflexivity. Qed.

Lemma launch_config env s : config (engine (launch env s)) = config (engine s).
Proof. unfold launch, start_proxy. by destruct (running (engine s)). Qed.

(** [cmd_start] changes the engine's pool and running flag only. *)
Lemma cmd_start_config env s : config (engine (cmd_start env s)) = config (engine s).
Proof.
  unfold cmd_start. pose proof (start_tor_engine env (say MsgInit s)) as He.
  destruct (start_tor env (say MsgInit s)) as [s1 []]; simpl in *; [|by rewrite He].
  by rewrite launch_config, load_pool_config, He.
Qed.

Lemma console_say m s : console (say m s) = console s ++ [m].
Proof. reflexivity. Qed.

Lemma run_cmd_state c s : outcome_state (run_cmd c s) = snd (c s).
Proof. unfold run_cmd. by destruct (c s) as [[] ?]. Qed.

(** A command that only writes to the console, or raises. *)
Definition prints_only (c : PyM Shell unit) : Prop :=
  forall s, engine (snd (c s)) = engine s /\ server_thread (snd (c s)) = server_thread s.

Lemma prints_only_ret : prints_only (ret tt).
Proof. done. Qed.

Lemma prints_only_say m : prints_only (modify (say m)).
Proof. done. Qed.

Lemma prints_only_cprint m t : prints_only (cprint m t).
Proof. intros s. unfold cprint. by destruct (markup_check t). Qed.

Lemma prints_only_bind {A} (m : PyM Shell A) (k : A -> PyM Shell unit) :
  (forall s, engine (snd (m s)) = engine s /\ server_thread (snd (m s)) = server_thread s) ->
  (forall a, prints_only (k a)) -> prints_only (bind m k).
Proof.
  intros Hm Hk s. unfold bind. destruct (Hm s) as [He Ht].
  destruct (m s) as [[a|e] s'] eqn:E; simpl in *; [|done].
  destruct (Hk a s') as [-> ->]. done.
Qed.

Lemma prints_only_print_items items : prints_only (print_items items).
Proof.
  induction items as [|[k v] items IH]; simpl; [apply prints_only_ret|].
  apply prints_only_bind; [apply prints_only_cprint|done].
Qed.

Lemma prints_only_cmd_status : prints_only cmd_status.
Proof.
  unfold cmd_status. apply prints_only_bind; [done|intros _].
  apply prints_only_bind; [done|intros s].
  apply prints_only_bind; [apply prints_only_print_items|intros _].
  destruct (proxy_pool (engine s)); [apply prints_only_ret|apply prints_only_say].
Qed.

Lemma cmd_status_engine s : engine (snd (cmd_status s)) = engine s.
Proof. apply prints_only_cmd_status. Qed.

(** [set header] stores the header whether or not the echo renders. *)
Lemma cmd_set_header_state k v s :
  engine (snd (cmd_set_header k v s)) = add_header k v (engine s) /\
  server_thread (snd (cmd_set_header k v s)) = server_thread s.
Proof. apply (prints_only_cprint (MsgHeaderSet k v) (header_line k v) (with_engine (add_header k v (engine s)) s)). Qed.

Lemma cmd_set_header_inv k v s :
  engine_inv (engine s) -> engine_inv (engine (snd (cmd_set_header k v s))).
Proof.
  rewrite (proj1 (cmd_set_header_state k v s)).
  intros (H1 & H2 & H3 & H4). repeat split; auto. by apply dict_set_nodup.
Qed.

Lemma engine_inv_config e e' : config e' = config e -> engine_inv e -> engine_inv e'.
Proof. unfold engine_inv. intros ->. done. Qed.

Lemma run_line_inv env line s :
  engine_inv (engine s) -> engine_inv (engine (outcome_state (run_line env line s))).
Proof.
  intros Hi. unfold run_line. destruct (py_split_ws _) as [|a rest]; [done|].
  repeat case_match; cbn [outcome_state]; rewrite ?run_cmd_state;
    eauto using cmd_set_ip_rotation_inv, cmd_set_header_inv, cmd_enable_tor_inv,
      engine_inv_config, cmd_start_config.
  by rewrite cmd_status_engine.
Qed.

Lemma reachable_inv p home s : reachable p home s -> engine_inv (engine s).
Proof.
  induction 1 as [|s s' _ IH [(env & line & Hl)| ->]].
  - apply engine_inv_init.
  - rewrite <- Hl. by apply run_line_inv.
  - by rewrite engine_inv_say.
Qed.

(** C8 Invariant of the shell: in every state the shell reaches, from
    its start and through any lines in any environment and any Ctrl-C
    at the prompt, MITM is off, the rotation mode is "disabled" or
    "per-request", the dict's own [proxy_pool] entry is still empty and
    header names are distinct. *)
Theorem reachable_engine_inv p home s :
  reachable p home s -> engine_inv (engine s).
Proof. apply reachable_inv. Qed.

(** C9 No command of the shell sets [mitm_enabled]: in every reachable
    state every CONNECT is answered 403, so TLS interception can never
    run. *)
Theorem reachable_connect_403 p home s {St} `{CertIssuer St} fetch hash target t
    (hs : HState St) :
  reachable p home s ->
  handle_one fetch hash (engine s) (CReq "CONNECT" target t) hs =
  (Ok tt, append_out hs [SendResponse 403 None; EndHeaders]).
Proof.
  intros Hr. rewrite handle_one_connect. apply do_CONNECT_disabled.
  by destruct (reachable_inv p home s Hr).
Qed.

(** ** Printing user data *)

Definition item_msg (kv : string * pyval) : msg := MsgStatusItem kv.1 kv.2.

Definition renders (kv : string * pyval) : Prop := markup_check (status_line kv.1 kv.2) = Ok tt.

Lemma says_app l1 l2 s : says (l1 ++ l2) s = says l2 (says l1 s).
Proof. apply fold_left_app. Qed.

Lemma console_says l s : console (says l s) = console s ++ l.
Proof.
  revert s. induction l as [|m l IH]; intros s; simpl; [by rewrite app_nil_r|].
  rewrite IH. simpl. by rewrite <- app_assoc.
Qed.

Lemma print_items_ok items s :
  Forall renders items -> print_items items s = (Ok tt, says (map item_msg items) s).
Proof.
  revert s. induction items as [|[k v] items IH]; intros s Hf; [done|].
  apply Forall_cons in Hf as [Hkv Hf]. simpl. unfold bind, cprint.
  unfold renders in Hkv. simpl in Hkv. rewrite Hkv. by apply IH.
Qed.

(** The loop stops at the first item whose line does not render, with
    the items before it printed. *)
Lemma print_items_err pre k v post e s :
  Forall renders pre -> markup_check (status_line k v) = Err e ->
  print_items (pre ++ (k, v) :: post) s = (Err e, says (map item_msg pre) s).
Proof.
  revert s. induction pre as [|[k' v'] pre IH]; intros s Hf He; simpl.
  - unfold bind, cprint. by rewrite He.
  - apply Forall_cons in Hf as [Hkv Hf]. unfold bind, cprint.
    unfold renders in Hkv. simpl in Hkv. rewrite Hkv. by apply IH.
Qed.

(** The items of a reachable engine other than [headers] render: their
    values come from fixed sets. *)
Lemma reachable_items_render p home s :
  reachable p home s ->
  Forall renders (take 3 (config_items (config (engine s)))) /\
  Forall renders (drop 4 (config_items (config (engine s)))).
Proof.
  intros Hr. destruct (reachable_inv p home s Hr) as (Hm & Hrot & Hp & _).
  cbn [config_items take drop]. rewrite Hm, Hp.
  destruct (tor_enabled _), (anti_fingerprint _), Hrot as [-> | ->];
    split; repeat constructor.
Qed.

(** C13 [set header <key> <val...>] stores the header before it echoes
    it, and the echo is rendered as markup: when the name or the value
    closes a tag that is not open, rich raises [MarkupError], which no
    [except] of [main] catches, so the program ends with the header
    stored and nothing printed; otherwise the echo is printed and the
    loop goes on. *)
Theorem run_line_set_header env line s a k vs :
  py_split_ws (py_strip line) = a :: "header" :: k :: vs -> py_lower a = "set" -> vs <> [] ->
  run_line env line s =
    match markup_check (header_line k (String.concat " " vs)) with
    | Ok _ => Continue (say (MsgHeaderSet k (String.concat " " vs))
                          (with_engine (add_header k (String.concat " " vs) (engine s)) s))
    | Err e => Raised e (with_engine (add_header k (String.concat " " vs) (engine s)) s)
    end.
Proof.
  intros Hp Ha Hv. unfold run_line. rewrite Hp. cbv zeta. rewrite Ha.
  destruct vs as [|v vs]; [done|]. cbn [String.eqb Ascii.eqb Bool.eqb andb nth skipn length Nat.leb].
  unfold run_cmd, cmd_set_header, bind, modify, cprint.
  by destruct (markup_check _).
Qed.

(** C15 [status] in every reachable state: the items other than
    [headers] always render, so [status] prints every item and the size
    of the pool when the [repr] of the headers dict renders as markup,
    and otherwise prints its title and the first three items and raises
    [MarkupError], which ends the program. *)
Theorem reachable_status p home s :
  reachable p home s ->
  match markup_check (status_line "headers" (PyDict (headers (config (engine s))))) with
  | Ok _ =>
      cmd_status s =
        (Ok tt, says (MsgStatusHeader :: map item_msg (config_items (config (engine s))) ++
                      (if bool_decide (proxy_pool (engine s) = []) then []
                       else [MsgPoolSize (length (proxy_pool (engine s)))])) s)
  | Err e =>
      cmd_status s =
        (Err e, says (MsgStatusHeader :: map item_msg (take 3 (config_items (config (engine s))))) s)
  end.
Proof.
  intros Hr. destruct (reachable_items_render p home s Hr) as [H3 H4].
  assert (config_items (config (engine s)) =
          take 3 (config_items (config (engine s))) ++
          ("headers", PyDict (headers (config (engine s)))) :: drop 4 (config_items (config (engine s))))
    as Hsplit by reflexivity.
  unfold cmd_status, bind, modify, get. cbn [engine say].
  destruct (markup_check _) as [[]|e] eqn:E.
  - rewrite print_items_ok.
    + destruct (proxy_pool (engine s)) as [|x l];
        [rewrite bool_decide_true by done|rewrite bool_decide_false by done];
        cbn [says fold_left]; rewrite says_app, ?app_nil_r; done.
    + rewrite Hsplit. apply Forall_app. split; [done|]. by constructor.
  - rewrite Hsplit, (print_items_err _ _ _ _ e); [|done..].
    by rewrite <- Hsplit.
Qed.

End Inv.

Section Start.

Lemma say_last m s : last (console (say m s)) = Some m.
Proof. unfold say. simpl. apply last_snoc. Qed.

(** A failure to start Tor aborts [cmd_start]: the failure is
    printed, the pool is not refreshed and the listener is not started. *)
Theorem cmd_start_tor_failure env s x :
  tor_enabled (config (engine s)) = true ->
  fst (termux_nonroot (platform env) (say MsgInit s)) = false ->
  fst (ensure_running (tor_env env) (tor_log s)) = Err x ->
  engine (cmd_start env s) = engine s /\
  server_thread (cmd_start env s) = server_thread s /\
  last (console (cmd_start env s)) = Some (MsgTorFailed (exn_msg x)).
Proof.
  intros Ht Hn He. unfold cmd_start, start_tor. simpl (engine (say _ _)). rewrite Ht.
  pose proof (engine_inv_termux (platform env) (say MsgInit s)) as Heng.
  assert (tor_log (snd (termux_nonroot (platform env) (say MsgInit s))) = tor_log s) as Hlog.
  { unfold termux_nonroot. destruct (is_root _); [done|]. by destruct (detect_platform _). }
  assert (server_thread (snd (termux_nonroot (platform env) (say MsgInit s))) = server_thread s)
    as Hsrv.
  { unfold termux_nonroot. destruct (is_root _); [done|]. by destruct (detect_platform _). }
  destruct (termux_nonroot (platform env) (say MsgInit s)) as [b s1]. simpl in *. subst b.
  rewrite Hlog. destruct (ensure_running (tor_env env) (tor_log s)) as [r log'].
  simpl in He. subst r. simpl. split; [done|]. split; [done|]. apply last_snoc.
Qed.

Lemma start_tor_thread env s :
  server_thread (fst (start_tor env s)) = server_thread s /\
  engine (fst (start_tor env s)) = engine s.
Proof.
  split; [|apply start_tor_engine]. unfold start_tor. destruct (tor_enabled _); [|done].
  assert (server_thread (snd (termux_nonroot (platform env) s)) = server_thread s) as Hs.
  { unfold termux_nonroot. destruct (is_root _); [done|]. by destruct (detect_platform _). }
  destruct (termux_nonroot (platform env) s) as [[] s1]; simpl in *; [done|].
  by destruct (ensure_running _ _) as [[] ?].
Qed.

Lemma load_pool_thread env s :
  server_thread (load_pool env s) = server_thread s /\
  running (engine (load_pool env s)) = running (engine s) /\
  port (engine (load_pool env s)) = port (engine s).
Proof. unfold load_pool. destruct (negb _); [destruct (proxies _)|]; done. Qed.

Lemma launch_running env s :
  running (engine s) = true ->
  server_thread (launch env s) = server_thread s /\ running (engine (launch env s)) = true.
Proof. intros Hr. unfold launch, start_proxy. by rewrite Hr. Qed.

Lemma launch_fresh env s :
  running (engine s) = false ->
  server_thread (launch env s) = Some (run_server (bind_result env)
                                        (fst (start_proxy (engine s)))) /\
  running (engine (launch env s)) = true /\
  last (console (launch env s)) = Some (MsgActive (port (engine s))).
Proof. intros Hr. unfold launch, start_proxy. rewrite Hr. simpl. by rewrite last_snoc. Qed.

(** Once the flag is set, [start] never touches the server thread. *)
Lemma cmd_start_running env s :
  running (engine s) = true ->
  server_thread (cmd_start env s) = server_thread s /\ running (engine (cmd_start env s)) = true.
Proof.
  intros Hr. unfold cmd_start.
  destruct (start_tor_thread env (say MsgInit s)) as [Hs He].
  destruct (start_tor env (say MsgInit s)) as [s1 []]; simpl in *.
  - destruct (load_pool_thread env s1) as (Hs' & Hr' & _).
    assert (running (engine (load_pool env s1)) = true) as Hl by (rewrite Hr', He; done).
    destruct (launch_running env _ Hl) as [-> ->]. by rewrite Hs', Hs.
  - by rewrite Hs, He.
Qed.

(** ** The server thread across commands *)

(** A command that leaves the server thread and the running flag alone. *)
Definition quiet (s s' : Shell) : Prop :=
  server_thread s' = server_thread s /\ running (engine s') = running (engine s).

Lemma quiet_say m s : quiet s (say m s).
Proof. done. Qed.

Lemma quiet_termux p s : quiet s (snd (termux_nonroot p s)).
Proof. unfold termux_nonroot. destruct (is_root s); [done|]. by destruct (detect_platform p). Qed.

Lemma quiet_cmds mode p k v s :
  quiet s (cmd_set_ip_rotation mode s) /\ quiet s (cmd_enable_tor p s) /\
  quiet s (cmd_enable_anti_fp s) /\ quiet s (snd (cmd_set_header k v s)) /\
  quiet s (snd (cmd_status s)).
Proof.
  split; [unfold cmd_set_ip_rotation; by case_match|].
  split; [|split; [done|split]].
  - unfold cmd_enable_tor. pose proof (quiet_termux p s) as [Ht Hr].
    destruct (termux_nonroot p s) as [[] s1]; simpl in *; by split.
  - unfold quiet. destruct (cmd_set_header_state k v s) as [-> ->]. by split.
  - unfold quiet. destruct (prints_only_cmd_status s) as [-> ->]. by split.
Qed.

Lemma launch_running_true env s : running (engine (launch env s)) = true.
Proof. unfold launch, start_proxy. by destruct (running (engine s)) eqn:E. Qed.

Lemma cmd_start_thread env s :
  server_thread (cmd_start env s) = server_thread s \/ running (engine (cmd_start env s)) = true.
Proof.
  unfold cmd_start. destruct (start_tor_thread env (say MsgInit s)) as [Hs _].
  destruct (start_tor env (say MsgInit s)) as [s1 []]; simpl in *.
  - right. apply launch_running_true.
  - by left.
Qed.

(** A line is a quiet command or a [start]. *)
Lemma run_line_cases env l s :
  quiet s (outcome_state (run_line env l s)) \/ outcome_state (run_line env l s) = cmd_start env s.
Proof.
  unfold run_line. destruct (py_split_ws _) as [|a r]; [by left|].
  pose proof (quiet_cmds (nth 2 (a :: r) "") (platform env) (nth 2 (a :: r) "")
                (String.concat " " (skipn 3 (a :: r))) s) as (Q1 & Q2 & Q3 & Q4 & Q5).
  repeat case_match; cbn [outcome_state]; rewrite ?run_cmd_state; auto using quiet_say.
Qed.

(** Once the flag is set, no line touches the server thread. *)
Lemma run_line_running env l s :
  running (engine s) = true ->
  server_thread (outcome_state (run_line env l s)) = server_thread s /\
  running (engine (outcome_state (run_line env l s))) = true.
Proof.
  intros Hr. destruct (run_line_cases env l s) as [[-> ->]| ->]; [done|].
  by apply cmd_start_running.
Qed.

(** Every reachable shell has a server thread only once the flag is set. *)
Definition thread_inv (s : Shell) : Prop :=
  server_thread s = None \/ running (engine s) = true.

Lemma reachable_thread_inv p home s : reachable p home s -> thread_inv s.
Proof.
  induction 1 as [|s s' _ IH [(env & l & <-)| ->]]; [by left| |done].
  destruct (run_line_cases env l s) as [[Ht Hr]| Hs].
  - unfold thread_inv. by rewrite Ht, Hr.
  - destruct IH as [Hn|Hr].
    + unfold thread_inv. rewrite Hs. destruct (cmd_start_thread env s) as [->|]; [by left|by right].
    + right. by apply run_line_running.
Qed.

(** C22 A failed bind is not reported and cannot be retried: [cmd_start]
    prints that the core is active, the server thread has died with the
    bind error, the running flag is set, and every later [start] leaves
    the dead thread as it is. *)
Theorem cmd_start_bind_failure env s x :
  tor_enabled (config (engine s)) = false -> running (engine s) = false ->
  bind_result env = Some x ->
  running (engine (cmd_start env s)) = true /\
  server_thread (cmd_start env s) = Some (Crashed x) /\
  last (console (cmd_start env s)) = Some (MsgActive (port (engine s))) /\
  forall env', server_thread (cmd_start env' (cmd_start env s)) = Some (Crashed x).
Proof.
  intros Ht Hr Hb.
  assert (cmd_start env s = launch env (load_pool env (say MsgInit s))) as Hc.
  { unfold cmd_start, start_tor. simpl (engine (say _ _)). by rewrite Ht. }
  destruct (load_pool_thread env (say MsgInit s)) as (_ & Hr' & Hp).
  destruct (launch_fresh env (load_pool env (say MsgInit s))) as (Hs & Hrun & Hl);
    [by rewrite Hr'|].
  rewrite Hc, Hs, Hb, Hrun, Hl, Hp. split; [done|]. split; [done|]. split; [done|].
  intros env'. rewrite (proj1 (cmd_start_running env' _ Hrun)). by rewrite Hs, Hb.
Qed.

(** C33 When the refresh of a rotating pool yields nothing, the shell
    prints that it continues without rotation, yet the engine keeps its
    previous pool and the rotation mode, so requests still go through
    the old proxies. *)
Theorem load_pool_keeps_stale_pool env s :
  ip_rotation (config (engine s)) <> "disabled" ->
  proxies (fetch_proxies (download env) (net s)) = [] ->
  proxy_pool (engine (load_pool env s)) = proxy_pool (engine s) /\
  config (engine (load_pool env s)) = config (engine s) /\
  last (console (load_pool env s)) = Some MsgNoProxies.
Proof.
  intros Hm Hp. unfold load_pool. apply String.eqb_neq in Hm. rewrite Hm. simpl.
  rewrite Hp. split; [done|]. split; [done|]. apply last_snoc.
Qed.

End Start.

(** ** Concrete sessions *)

Definition linux_user : PlatformEnv := {|
  os_name := "linux"; termux := false; tsu_id := None; euid := 1000; net_session_rc := 1 |}.

Definition demo_env : ShellEnv := {|
  platform := linux_user; tor_env := Tor.linux_env false;
  download := Some (200, "1.2.3.4:8000" +:+ String "010" "5.6.7.8:8000"); bind_result := None |}.

Definition session (env : ShellEnv) (lines : list string) : Shell :=
  main_loop env lines (init_shell linux_user "/home/op").

Lemma reachable_main_loop p home env lines s :
  reachable p home s -> reachable p home (main_loop env lines s).
Proof.
  revert s. induction lines as [|l ls IH]; intros s Hr; simpl; [done|].
  assert (reachable p home (outcome_state (run_line env l s))) as Hr'.
  { apply (reach_step _ _ s); [done|]. left. by exists env, l. }
  destruct (run_line env l s); simpl in *; [by apply IH|done..].
Qed.

Lemma reachable_engine_inv_witness :
  engine_inv (engine (session demo_env ["set ip-rotation per-request"; "start"])).
Proof.
  apply (reachable_engine_inv linux_user "/home/op").
  apply reachable_main_loop, reach_init.
Defined.

Lemma reachable_connect_403_witness :
  handle_one Handler.demo_fetch RouterProps.demo_hash
    (engine (session demo_env ["enable tor"; "start"]))
    (CReq "CONNECT" "example.com:443" None) Handler.s0 (H := store_issuer Handler.demo_env) =
  (Ok tt, append_out Handler.s0 [SendResponse 403 None; EndHeaders]).
Proof.
  apply (reachable_connect_403 linux_user "/home/op").
  apply reachable_main_loop, reach_init.
Defined.

Lemma run_line_set_header_witness :
  markup_check (header_line "X" "[/x]") =
    Err (MarkupError "closing tag '[/x]' at position 23 doesn't match any open tag") /\
  run_line demo_env "set header X [/x]" (init_shell linux_user "/home/op") =
    match markup_check (header_line "X" (String.concat " " ["[/x]"])) with
    | Ok _ => Continue (say (MsgHeaderSet "X" (String.concat " " ["[/x]"]))
                 (with_engine (add_header "X" (String.concat " " ["[/x]"])
                    (engine (init_shell linux_user "/home/op"))) (init_shell linux_user "/home/op")))
    | Err e => Raised e (with_engine (add_header "X" (String.concat " " ["[/x]"])
                 (engine (init_shell linux_user "/home/op"))) (init_shell linux_user "/home/op"))
    end.
Proof.
  split; [vm_compute; reflexivity|].
  apply (run_line_set_header demo_env _ _ "set" "X" ["[/x]"]); [vm_compute; reflexivity..|discriminate].
Defined.

Lemma reachable_status_witness :
  let s := session demo_env ["set header X-Test \[/x]"] in
  markup_check (status_line "headers" (PyDict (headers (config (engine s))))) =
    Err (MarkupError "closing tag '[/x]' at position 25 doesn't match any open tag") /\
  match markup_check (status_line "headers" (PyDict (headers (config (engine s))))) with
  | Ok _ =>
      cmd_status s =
        (Ok tt, says (MsgStatusHeader :: map item_msg (config_items (config (engine s))) ++
                      (if bool_decide (proxy_pool (engine s) = []) then []
                       else [MsgPoolSize (length (proxy_pool (engine s)))])) s)
  | Err e =>
      cmd_status s =
        (Err e, says (MsgStatusHeader :: map item_msg (take 3 (config_items (config (engine s))))) s)
  end.
Proof.
  intros s. split; [vm_compute; reflexivity|].
  apply (reachable_status linux_user "/home/op"). apply reachable_main_loop, reach_init.
Defined.

Definition tor_missing_env : ShellEnv := {|
  platform := linux_user; tor_env := Tor.windows_env (Some (1, ""));
  download := None; bind_result := None |}.

Lemma cmd_start_tor_failure_witness :
  let s := session tor_missing_env ["enable tor"] in
  engine (cmd_start tor_missing_env s) = engine s /\
  server_thread (cmd_start tor_missing_env s) = server_thread s /\
  last (console (cmd_start tor_missing_env s)) =
    Some (MsgTorFailed (exn_msg (Exception "Tor not found. Install manually."))).
Proof. apply cmd_start_tor_failure; vm_compute; reflexivity. Defined.

Definition port_taken_env : ShellEnv := {|
  platform := linux_user; tor_env := Tor.linux_env true; download := None;
  bind_result := Some (OSError "[Errno 98] Address already in use") |}.

Lemma cmd_start_bind_failure_witness :
  let s := init_shell linux_user "/home/op" in
  running (engine (cmd_start port_taken_env s)) = true /\
  server_thread (cmd_start port_taken_env s) =
    Some (Crashed (OSError "[Errno 98] Address already in use")) /\
  last (console (cmd_start port_taken_env s)) = Some (MsgActive (port (engine s))) /\
  forall env', server_thread (cmd_start env' (cmd_start port_taken_env s)) =
               Some (Crashed (OSError "[Errno 98] Address already in use")).
Proof. apply cmd_start_bind_failure; reflexivity. Defined.

Lemma load_pool_keeps_stale_pool_witness :
  let s := session demo_env ["set ip-rotation per-request"; "start"] in
  proxy_pool (engine (load_pool tor_missing_env s)) = proxy_pool (engine s) /\
  config (engine (load_pool tor_missing_env s)) = config (engine s) /\
  last (console (load_pool tor_missing_env s)) = Some MsgNoProxies.
Proof. apply load_pool_keeps_stale_pool; vm_compute; [discriminate|reflexivity]. Defined.

End Cli.
