(* ===== verification/Startup.v ===== *)
(** * Start-up and the main loop of the shell
    (src/raproxy.py, lines 1-42, 71-120 and 182-226)

    Before the shell reads a line, raproxy.py puts [<script dir>/core] in
    front of [sys.path] and imports its four core modules (lines 11-25),
    exiting with status 1 when one is missing, and bootstraps [rich]
    (lines 27-36).  [main] then runs [install_deps], [show_disclaimer] and
    [banner] (lines 71-114), which all call [detect_platform] again, and
    loops on the prompt until [exit], the end of input or an exception
    its [except] clauses do not catch, printing a hint on Ctrl-C (lines
    186-223).

    The installation (the script's path, the [.py] files of the
    program's directories, whether the file system folds the case of
    directory names, the distributions in site-packages, whether pip
    works) is the record [Install]; the operator's input is a list of
    [input] events whose end is end-of-file.  [raproxy] is the whole run:
    what it prints, its exit status and the shell state it ends in. *)

From S2P Require Import Prelude Config Network Tor Cli.
Import Engine Cli.

Module Startup.

(** ** [os.path.dirname] and module resolution *)

Fixpoint drop_while (p : ascii -> bool) (l : list ascii) : list ascii :=
  match l with
  | [] => []
  | c :: l' => if p c then drop_while p l' else l
  end.

Definition is_slash (c : ascii) : bool := Ascii.eqb c "/".

(** [posixpath.dirname]: the text up to the last slash, without its
    trailing slashes unless it is made of slashes only. *)
Definition py_dirname (p : string) : string :=
  let head_rev := drop_while (fun c => negb (is_slash c)) (rev (list_ascii_of_string p)) in
  if forallb is_slash head_rev then string_of_list_ascii (rev head_rev)
  else string_of_list_ascii (rev (drop_while is_slash head_rev)).

Record Install := {
  script : string;                     (* os.path.abspath(__file__) *)
  py_files : list (string * string);   (* (directory, file name) of each .py file *)
  folds_case : bool;                   (* directory names compared without case *)
  site_packages : list string;         (* the modules installed by pip *)
  pip_works : bool                     (* pip install succeeds *)
}.

(** Lines 12-15. *)
Definition base_dir (i : Install) : string := py_dirname (script i).
Definition core_dir (i : Install) : string := path_join (base_dir i) "core".

Definition sys_path (i : Install) : list string :=
  let path := [base_dir i] in
  if bool_decide (core_dir i ∈ path) then path else core_dir i :: path.

(** The importer lists a directory through the file system, so the case
    of the directory's name matters only where the file system keeps it;
    the module's file name is matched with its case. *)
Definition dir_eq (ci : bool) (a b : string) : bool :=
  if ci then String.eqb (py_lower a) (py_lower b) else String.eqb a b.

Definition in_dir (i : Install) (name d : string) : bool :=
  existsb (fun '(d', f) => String.eqb f (name +:+ ".py") && dir_eq (folds_case i) d d')
          (py_files i).

(** A module is found in the first directory of [sys.path] that has its
    file, and otherwise among the installed distributions. *)
Definition find_module (i : Install) (name : string) : bool :=
  existsb (in_dir i name) (sys_path i) || bool_decide (name ∈ site_packages i).

(** The third-party modules each program module imports at its top:
    [requests] for proxy_engine.py (line 5) and network.py (line 2). *)
Definition module_deps (name : string) : list string :=
  if String.eqb name "proxy_engine" || String.eqb name "network" then ["requests"] else [].

Definition import_module (i : Install) (name : string) : res unit :=
  if negb (find_module i name) then Err (ImportError name)
  else match List.find (fun m => negb (find_module i m)) (module_deps name) with
       | Some m => Err (ImportError m)
       | None => Ok tt
       end.

Fixpoint import_all (i : Install) (names : list string) : res unit :=
  match names with
  | [] => Ok tt
  | n :: names' => match import_module i n with
                   | Ok _ => import_all i names'
                   | Err e => Err e
                   end
  end.

(** Lines 18-21, in their order. *)
Definition core_modules : list string := ["proxy_engine"; "tor_manager"; "stealth"; "network"].

(** ** The run *)

Inductive input := Line (l : string) | CtrlC.

(** What the run prints before the shell's own messages. *)
Inductive out_line :=
| OMissingCore (err : string)      (* line 23 *)
| OEnsureCore                      (* line 24 *)
| OInstallingRich                  (* line 32 *)
| OPlatform (plat : string)        (* line 73, upper-cased *)
| OInstallingRequests              (* line 79 *)
| ODisclaimer                      (* lines 84-95 *)
| OBanner (plat : string) (root : bool)   (* lines 110-114 *)
| OShell (m : msg).

Inductive exit_status := Exited (code : Z) | Uncaught (e : exn).

Record run := { printed : list out_line; status : exit_status; last_shell : option Shell }.

(** [pip install <pkg>] through [subprocess.check_call]. *)
Definition pip_install (i : Install) (pkg : string) : res Install :=
  if pip_works i then
    Ok {| script := script i; py_files := py_files i; folds_case := folds_case i;
          site_packages := site_packages i ++ [pkg]; pip_works := pip_works i |}
  else Err (CalledProcessError ("pip install " +:+ pkg)).

(** Lines 27-36. *)
Definition bootstrap_rich (i : Install) : list out_line * res Install :=
  if find_module i "rich" then ([], Ok i) else ([OInstallingRich], pip_install i "rich").

(** Lines 71-80: the platform, then the [requests] check. *)
Definition install_deps (i : Install) (p : PlatformEnv) : list out_line * res Install :=
  let out := [OPlatform (detect_platform p).1] in
  if find_module i "requests" then (out, Ok i)
  else (out ++ [OInstallingRequests], pip_install i "requests").

(** Lines 82-97: the prompt of the disclaimer reads one input. *)
Definition show_disclaimer (p : PlatformEnv) (ins : list input)
    : list out_line * res (list input) :=
  if py_contains "termux-nonroot" (detect_platform p).1 then
    match ins with
    | [] => ([ODisclaimer], Err EOFError)
    | CtrlC :: _ => ([ODisclaimer], Err KeyboardInterrupt)
    | Line _ :: ins' => ([ODisclaimer], Ok ins')
    end
  else ([], Ok ins).

(** Lines 99-114. *)
Definition banner (p : PlatformEnv) : list out_line :=
  let '(plat, root) := detect_platform p in [OBanner plat root].

(** Lines 186-223, the loop over the inputs, structurally: a line is
    run, a Ctrl-C prints the hint, the end of input breaks. *)
Fixpoint shell_loop (env : ShellEnv) (ins : list input) (s : Shell) : outcome :=
  match ins with
  | [] => Continue s
  | CtrlC :: ins' => shell_loop env ins' (say MsgUseExit s)
  | Line l :: ins' =>
      match run_line env l s with
      | Continue s' => shell_loop env ins' s'
      | Exit s' => Exit s'
      | Raised e s' => Raised e s'
      end
  end.

(** The test of line 215 on the words of line 189-192: the line is an
    [exit] command. *)
Definition exit_command (l : string) : bool :=
  match py_split_ws (py_strip l) with
  | a :: _ => String.eqb (py_lower a) "exit"
  | [] => false
  end.

Definition input_exits (x : input) : bool :=
  match x with Line l => exit_command l | CtrlC => false end.

Definition shell_output (s : Shell) : list out_line := map OShell (console s).

(** The whole program: module import, [rich], then [main]; [sys.exit(0)]
    after [exit] and the [break] on end of input both end with status 0,
    an exception a command raises ends it with a traceback. *)
Definition raproxy (i : Install) (p : PlatformEnv) (home : string) (env : ShellEnv)
    (ins : list input) : run :=
  match import_all i core_modules with
  | Err e => {| printed := [OMissingCore (exn_msg e); OEnsureCore]; status := Exited 1;
                last_shell := None |}
  | Ok _ =>
    let '(o1, r1) := bootstrap_rich i in
    match r1 with
    | Err e => {| printed := o1; status := Uncaught e; last_shell := None |}
    | Ok i1 =>
      let '(o2, r2) := install_deps i1 p in
      match r2 with
      | Err e => {| printed := o1 ++ o2; status := Uncaught e; last_shell := None |}
      | Ok _ =>
        let '(o3, r3) := show_disclaimer p ins in
        match r3 with
        | Err e => {| printed := o1 ++ o2 ++ o3; status := Uncaught e; last_shell := None |}
        | Ok ins' =>
          let o := shell_loop env ins' (init_shell p home) in
          let s := outcome_state o in
          {| printed := o1 ++ o2 ++ o3 ++ banner p ++ shell_output s;
             status := match o with Raised e _ => Uncaught e | _ => Exited 0 end;
             last_shell := Some s |}
        end
      end
    end
  end.

(** The repository's own layout: the script and two modules in one
    directory, [tor_manager.py] in its subdirectory [Core]. *)
Definition repo_files (b : string) : list (string * string) :=
  [(b, "raproxy.py"); (b, "proxy_engine.py"); (b, "network.py");
   (b +:+ "/Core", "tor_manager.py")].

(** ** Module resolution *)

Lemma drop_while_app p l1 l2 :
  forallb p l1 = true -> drop_while p (l1 ++ l2) = drop_while p l2.
Proof. induction l1 as [|c l1 IH]; simpl; [done|]. intros [-> ?]%andb_prop. by apply IH. Qed.

Lemma endswith_no_slash b :
  b <> "" -> py_endswith b "/" = false ->
  exists c t, rev (list_ascii_of_string b) = c :: t /\ is_slash c = false.
Proof.
  intros Hb He. unfold py_endswith in He.
  destruct (rev (list_ascii_of_string b)) as [|c t] eqn:E.
  - exfalso. apply Hb, list_ascii_inj. apply (f_equal (@rev ascii)) in E.
    by rewrite rev_involutive in E.
  - exists c, t. split; [done|]. simpl in He. unfold is_slash.
    destruct (Ascii.eqb_spec c "/") as [->|]; [|done]. by rewrite prefix_empty in He.
Qed.

(** The directory of a file [b/f]. *)
Lemma dirname_file b f :
  b <> "" -> py_endswith b "/" = false ->
  forallb (fun c => negb (is_slash c)) (list_ascii_of_string f) = true ->
  py_dirname (b +:+ String "/" f) = b.
Proof.
  intros Hb He Hf. destruct (endswith_no_slash b Hb He) as (c & t & Hr & Hc).
  assert (drop_while (fun c => negb (is_slash c))
            (rev (list_ascii_of_string (b +:+ String "/" f))) = "/"%char :: c :: t) as Hd.
  { rewrite list_ascii_app. simpl (list_ascii_of_string (String _ _)).
    rewrite rev_app_distr. simpl (rev (_ :: _)).
    rewrite <- app_assoc, drop_while_app by by rewrite forallb_rev. by rewrite Hr. }
  unfold py_dirname. rewrite Hd. simpl forallb. simpl drop_while. rewrite Hc. cbn [andb].
  rewrite <- Hr, rev_involutive. apply string_of_list_ascii_of_string.
Qed.

Lemma path_join_rel a b :
  a <> "" -> py_endswith a "/" = false -> py_startswith b "/" = false ->
  path_join a b = a +:+ "/" +:+ b.
Proof.
  intros Ha He Hs. unfold path_join. rewrite Hs, He.
  destruct (String.eqb_spec a ""); [done|done].
Qed.

Lemma import_missing i n : find_module i n = false -> import_module i n = Err (ImportError n).
Proof. unfold import_module. by intros ->. Qed.

Lemma import_found i n :
  find_module i n = true -> Forall (fun m => find_module i m = true) (module_deps n) ->
  import_module i n = Ok tt.
Proof.
  unfold import_module. intros -> Hd. simpl.
  destruct (List.find _ _) as [m|] eqn:E; [|done].
  apply find_some in E as [Hm Hn]. rewrite Forall_forall in Hd.
  by rewrite (Hd m (proj2 (list_elem_of_In _ _) Hm)) in Hn.
Qed.

(** Whatever the order of failures before it, a missing module stops
    the imports. *)
Lemma import_all_missing i pre n post :
  find_module i n = false -> exists e, import_all i (pre ++ n :: post) = Err e.
Proof.
  intros Hn. induction pre as [|m pre IH]; simpl.
  - rewrite import_missing by done. by eexists.
  - destruct (import_module i m); [done|by eexists].
Qed.

Lemma in_dir_none i n d :
  Forall (fun df => df.2 <> n +:+ ".py") (py_files i) -> in_dir i n d = false.
Proof.
  unfold in_dir. induction 1 as [|[d' f] fs Hf _ IH]; simpl; [done|].
  rewrite IH, orb_false_r. simpl in Hf. by destruct (String.eqb_spec f (n +:+ ".py")).
Qed.

(** C10 The program cannot start from the repository: raproxy.py imports
    [stealth] (line 20), which no file of the repository provides, so
    in any installation without a [stealth.py] the run prints the
    import error and exits with status 1 before [main], whatever the
    platform and the input. *)
Theorem startup_without_stealth i p home env ins :
  Forall (fun df => df.2 <> "stealth.py") (py_files i) -> "stealth" ∉ site_packages i ->
  exists m, raproxy i p home env ins =
            {| printed := [OMissingCore m; OEnsureCore]; status := Exited 1; last_shell := None |}.
Proof.
  intros Hf Hs. unfold raproxy.
  assert (find_module i "stealth" = false) as Hm.
  { unfold find_module. rewrite bool_decide_false by done. rewrite orb_false_r.
    apply not_true_is_false. intros (d & _ & Hd)%existsb_exists.
    by rewrite in_dir_none in Hd. }
  destruct (import_all_missing i ["proxy_engine"; "tor_manager"] "stealth" ["network"] Hm)
    as [e He].
  change core_modules with (["proxy_engine"; "tor_manager"] ++ "stealth" :: ["network"]).
  rewrite He. by eexists.
Qed.

(** C11 On a file system that keeps the case of directory names (Linux,
    Android), the repository's own layout fails one import earlier: line
    13 puts [<dir>/core] on [sys.path] but the repository's directory is
    [Core], so with [requests] installed the run stops on
    [tor_manager] with status 1. *)
Theorem startup_core_dir_case i p home env ins b :
  b <> "" -> py_endswith b "/" = false ->
  script i = b +:+ "/raproxy.py" -> py_files i = repo_files b -> folds_case i = false ->
  "requests" ∈ site_packages i -> "tor_manager" ∉ site_packages i ->
  raproxy i p home env ins =
  {| printed := [OMissingCore "No module named 'tor_manager'"; OEnsureCore];
     status := Exited 1; last_shell := None |}.
Proof.
  intros Hb He Hs Hf Hci Hreq Htm.
  assert (base_dir i = b) as Hbase by (unfold base_dir; rewrite Hs; by apply dirname_file).
  assert (core_dir i = b +:+ "/core") as Hcore
    by (unfold core_dir; rewrite Hbase; by apply path_join_rel).
  assert (sys_path i = [b +:+ "/core"; b]) as Hsp.
  { unfold sys_path. rewrite Hbase, Hcore, bool_decide_false; [done|].
    rewrite list_elem_of_singleton. intros H. pose proof (string_app_eqb_self b "/core") as E.
    rewrite H, String.eqb_refl in E. by discriminate E. }
  assert (Hfind : forall n, find_module i n =
     existsb (fun d => existsb (fun '(d', f) => String.eqb f (n +:+ ".py") && String.eqb d d')
                               (repo_files b)) [b +:+ "/core"; b]
     || bool_decide (n ∈ site_packages i)).
  { intros n. unfold find_module, in_dir, dir_eq. by rewrite Hsp, Hf, Hci. }
  assert (find_module i "proxy_engine" = true) as H1.
  { rewrite Hfind. change ("proxy_engine" +:+ ".py") with "proxy_engine.py". simpl.
    rewrite String.eqb_refl, string_app_eqb_self by done. reflexivity. }
  assert (find_module i "requests" = true) as H2.
  { rewrite Hfind, bool_decide_true by done. by rewrite orb_true_r. }
  assert (find_module i "tor_manager" = false) as H3.
  { rewrite Hfind, bool_decide_false by done.
    change ("tor_manager" +:+ ".py") with "tor_manager.py". simpl.
    rewrite string_app_eqb_l, string_app_eqb_self_r by done. reflexivity. }
  unfold raproxy. cbn [import_all core_modules].
  rewrite (import_found i "proxy_engine"), import_missing by (done || by repeat constructor).
  reflexivity.
Qed.

(** ** What [main] runs *)

Lemma import_module_ok i n :
  import_module i n = Ok tt -> Forall (fun m => find_module i m = true) (module_deps n).
Proof.
  unfold import_module. destruct (find_module i n); [|done]. simpl.
  destruct (List.find _ _) eqn:E; [done|]. intros _. apply Forall_forall. intros m Hm.
  apply list_elem_of_In in Hm. pose proof (find_none _ _ E m Hm) as Hn. simpl in Hn.
  by apply negb_false_iff.
Qed.

(** Importing the core modules imports [requests]. *)
Lemma import_all_requests i u : import_all i core_modules = Ok u -> find_module i "requests" = true.
Proof.
  cbn [import_all core_modules]. destruct (import_module i "proxy_engine") as [[]|] eqn:E;
    [|done]. intros _. apply import_module_ok in E. by inversion E.
Qed.

Lemma find_module_pip i i' pkg n :
  pip_install i pkg = Ok i' -> find_module i n = true -> find_module i' n = true.
Proof.
  unfold pip_install. destruct (pip_works i); intros [= <-]. unfold find_module, in_dir, sys_path,
    core_dir, base_dir. simpl. intros [->|Hs]%orb_true_iff; [done|].
  apply orb_true_intro. right. apply bool_decide_eq_true in Hs. apply bool_decide_eq_true.
  set_solver.
Qed.

Lemma bootstrap_rich_spec i o i1 :
  bootstrap_rich i = (o, Ok i1) ->
  (o = [] \/ o = [OInstallingRich]) /\ forall n, find_module i n = true -> find_module i1 n = true.
Proof.
  unfold bootstrap_rich. destruct (find_module i "rich"); intros [= <- Hi].
  - subst. auto.
  - split; [auto|]. intros n. by apply (find_module_pip i i1 "rich").
Qed.

Lemma bootstrap_rich_out i o r : bootstrap_rich i = (o, r) -> o = [] \/ o = [OInstallingRich].
Proof. unfold bootstrap_rich. destruct (find_module i "rich"); intros [= <- _]; auto. Qed.

Lemma show_disclaimer_out p ins o r : show_disclaimer p ins = (o, r) -> o = [] \/ o = [ODisclaimer].
Proof. unfold show_disclaimer. repeat case_match; intros [= <- _]; auto. Qed.

Lemma install_deps_found i p :
  find_module i "requests" = true -> install_deps i p = ([OPlatform (detect_platform p).1], Ok i).
Proof. unfold install_deps. by intros ->. Qed.

Lemma shell_output_only m s : m ∈ shell_output s -> exists x, m = OShell x.
Proof. unfold shell_output. rewrite list_elem_of_fmap. intros (x & -> & _). by exists x. Qed.

(** C26 The [except ImportError] branch of [install_deps] (lines 78-80)
    is dead code: [proxy_engine] already imported [requests] at the top
    of the program, so no run ever prints that it installs [requests]
    or calls pip for it. *)
Theorem requests_install_unreachable i p home env ins :
  OInstallingRequests ∉ printed (raproxy i p home env ins).
Proof.
  unfold raproxy. destruct (import_all i core_modules) as [u|e] eqn:Hi; [|set_solver].
  pose proof (import_all_requests i u Hi) as Hreq.
  destruct (bootstrap_rich i) as [o1 r1] eqn:Hb.
  destruct (bootstrap_rich_out _ _ _ Hb) as [-> | ->]; destruct r1 as [i1|e]; try set_solver;
    destruct (bootstrap_rich_spec _ _ _ Hb) as [_ Hmono];
    rewrite install_deps_found by auto;
    destruct (show_disclaimer p ins) as [o3 r3] eqn:Hd;
    destruct (show_disclaimer_out _ _ _ _ Hd) as [-> | ->], r3; simpl;
    unfold banner; destruct (detect_platform p); simpl; intros H;
    rewrite ?elem_of_app in H; try destruct_or! H;
    try (apply shell_output_only in H as [? [=]]); set_solver.
Qed.

(** ** The loop of [main] *)

Lemma shell_loop_reachable p home env ins s :
  reachable p home s -> reachable p home (outcome_state (shell_loop env ins s)).
Proof.
  revert s. induction ins as [|[l|] ins IH]; intros s Hr; simpl; [done| |].
  - assert (reachable p home (outcome_state (run_line env l s))) as Hl.
    { apply (reach_step _ _ s); [done|]. left. by exists env, l. }
    destruct (run_line env l s); simpl in *; [by apply IH|done..].
  - apply IH, (reach_step _ _ s); [done|]. by right.
Qed.

(** Refinement: every shell state the program reaches is a state of
    the shell's step relation [Cli.reachable] from [init_shell]: the
    start-up leaves the globals [init_shell] describes and the loop only
    takes [run_line] and Ctrl-C steps, so every theorem proved of
    [reachable] states holds of the program. *)
Theorem raproxy_shell_reachable i p home env ins s :
  last_shell (raproxy i p home env ins) = Some s -> reachable p home s.
Proof.
  unfold raproxy. repeat case_match; simpl; intros; simplify_eq;
    match goal with
    | H : shell_loop ?env ?ins ?s0 = _ |- _ =>
        pose proof (shell_loop_reachable p home env ins s0 (reach_init p home)) as Hr;
        by rewrite H in Hr
    end.
Qed.

Lemma run_line_exit env l s :
  (exists s', run_line env l s = Exit s') <-> exit_command l = true.
Proof.
  unfold run_line, exit_command. destruct (py_split_ws (py_strip l)) as [|a r].
  - split; [by intros [? [=]]|discriminate].
  - cbv zeta. destruct (String.eqb_spec (py_lower a) "exit") as [He|Hne].
    + rewrite He. simpl. split; [done|]. intros _. by eexists.
    + split; [|discriminate]. intros [s' Hs']. revert Hs'.
      unfold run_cmd. repeat case_match; discriminate.
Qed.

(** C27 On a non-root Termux the disclaimer's prompt (line 97) is outside
    the [try] of the loop: the end of input there ends the program with
    an uncaught [EOFError], and Ctrl-C with an uncaught
    [KeyboardInterrupt], before the banner and the shell. *)
Theorem disclaimer_prompt_uncaught i p home env rest :
  import_all i core_modules = Ok tt -> find_module i "rich" = true ->
  (detect_platform p).1 = "termux-nonroot" ->
  raproxy i p home env [] =
    {| printed := [OPlatform "termux-nonroot"; ODisclaimer]; status := Uncaught EOFError;
       last_shell := None |} /\
  raproxy i p home env (CtrlC :: rest) =
    {| printed := [OPlatform "termux-nonroot"; ODisclaimer]; status := Uncaught KeyboardInterrupt;
       last_shell := None |}.
Proof.
  intros Hi Hr Hp. pose proof (import_all_requests i tt Hi) as Hreq.
  unfold raproxy, bootstrap_rich, show_disclaimer. rewrite Hi, Hr, install_deps_found, Hp
    by done.
  by split.
Qed.

(** ** Concrete runs *)

(** A checkout of the repository in /opt/Raproxy with [requests],
    [rich] and [cryptography] installed, on Linux. *)
Definition repo_install : Install := {|
  script := "/opt/Raproxy/src/raproxy.py"; py_files := repo_files "/opt/Raproxy/src";
  folds_case := false; site_packages := ["requests"; "rich"; "cryptography"]; pip_works := true |}.

(** The layout raproxy.py expects: [core/] next to the script, with a
    [stealth.py]. *)
Definition expected_install : Install := {|
  script := "/opt/Raproxy/src/raproxy.py";
  py_files := [("/opt/Raproxy/src", "raproxy.py"); ("/opt/Raproxy/src", "proxy_engine.py");
               ("/opt/Raproxy/src", "network.py"); ("/opt/Raproxy/src/core", "tor_manager.py");
               ("/opt/Raproxy/src/core", "stealth.py")];
  folds_case := false; site_packages := ["requests"; "rich"; "cryptography"]; pip_works := true |}.

Definition termux_user : PlatformEnv := {|
  os_name := "linux"; termux := true; tsu_id := Some (1, ""); euid := 10123; net_session_rc := 1 |}.

Lemma startup_without_stealth_witness :
  exists m, raproxy repo_install linux_user "/home/op" demo_env [Line "start"] =
            {| printed := [OMissingCore m; OEnsureCore]; status := Exited 1; last_shell := None |}.
Proof.
  apply startup_without_stealth;
    apply (bool_decide_unpack _); vm_compute; reflexivity.
Defined.

Lemma startup_core_dir_case_witness :
  raproxy repo_install linux_user "/home/op" demo_env [Line "start"] =
  {| printed := [OMissingCore "No module named 'tor_manager'"; OEnsureCore];
     status := Exited 1; last_shell := None |}.
Proof.
  apply (startup_core_dir_case _ _ _ _ _ "/opt/Raproxy/src");
    try (apply (bool_decide_unpack _); vm_compute); reflexivity.
Defined.

Lemma disclaimer_prompt_uncaught_witness :
  raproxy expected_install termux_user "/data/home" demo_env [] =
    {| printed := [OPlatform "termux-nonroot"; ODisclaimer]; status := Uncaught EOFError;
       last_shell := None |} /\
  raproxy expected_install termux_user "/data/home" demo_env (CtrlC :: [Line "start"]) =
    {| printed := [OPlatform "termux-nonroot"; ODisclaimer]; status := Uncaught KeyboardInterrupt;
       last_shell := None |}.
Proof. apply disclaimer_prompt_uncaught; vm_compute; reflexivity. Defined.

End Startup.
