(* ===== verification/System.v ===== *)
(** * The shell and the listener together (src/raproxy.py and
    src/proxy_engine.py)

    The process runs two threads over one [ProxyEngine]: the main thread
    reads the operator's lines ([main], lines 186-223 of raproxy.py) and
    the daemon thread that [start_proxy] starts runs [serve_forever] of a
    [socketserver.TCPServer] (lines 85-95 of proxy_engine.py), which
    handles the accepted connections one at a time, with the engine as
    the shell has left it.  [event] interleaves the two: a line, a Ctrl-C
    at the prompt, a client connecting with a whole request, a client
    whose handler does not return, and that client hanging up.  A
    connection that completes is handled as one step between two lines;
    the torn reads inside one request are in Router.v.

    The server is serial and nothing sets a timeout on the client socket:
    a client that connects and sends nothing keeps [handle] blocked in
    [rfile.readline], and an upstream body that never ends keeps it in
    the relay loop ([requests.get]'s timeout bounds each read, not the
    whole body).  Until that peer hangs up, later clients wait in the
    kernel's accept queue ([pending]); then they are served in order.
    The accept queue is unbounded here; the kernel's [listen(5)] backlog
    and the clients' own timeouts are not modelled.  When the main
    thread ends ([exit], or an exception a command raises), the daemon
    thread dies with the process and nothing is accepted any more.

    The theorems: a handler that does not return blocks every later
    connection, whatever the operator types, until its peer hangs up; a
    listener that failed to bind accepts no connection, whatever the
    operator types. *)

From S2P Require Import Prelude Config Router CertStore Handler Cli Startup.
Import Engine Handler Cli Startup.

Module System.

(** A line; a Ctrl-C at the prompt; a client that sends a whole
    request; a client whose handler does not return (it sends nothing,
    or its upstream body never ends); that client hanging up. *)
Inductive event := EvLine (l : string) | EvCtrlC | EvConn (c : client) | EvStuck | EvHangup.

(** What a client gets: not accepted by this process (nothing of it
    listens), or the transcript of its connection. *)
Inductive conn_result := Refused | Served (evs : list out_event).

Section System.

Context {St : Type} `{CertIssuer St}.
Variable fetch : outbound -> upstream.
Variable hash : string -> Z.
Variable env : ShellEnv.

Record Sys := {
  sh : Shell;                          (* the main thread's globals *)
  alive : bool;                        (* the process has not exited *)
  certs : St;                          (* the certificate store *)
  busy : bool;                         (* [handle] is blocked on a peer *)
  pending : list (option client);      (* the accept queue; None: a stuck client *)
  conns : list (client * conn_result); (* every finished connection, in order *)
  upstream_log : list outbound         (* every request sent upstream *)
}.

(** The listener accepts when the process is alive and its server
    thread has bound the port. *)
Definition listening (s : Sys) : bool :=
  alive s && match server_thread (sh s) with Some (Serving _) => true | _ => false end.

Definition with_shell (s : Sys) (sh' : Shell) (alive' : bool) : Sys :=
  {| sh := sh'; alive := alive'; certs := certs s; busy := busy s; pending := pending s;
     conns := conns s; upstream_log := upstream_log s |}.

Definition with_queue (b : bool) (q : list (option client)) (s : Sys) : Sys :=
  {| sh := sh s; alive := alive s; certs := certs s; busy := b; pending := q;
     conns := conns s; upstream_log := upstream_log s |}.

(** [process_request]: one turn of [serve_forever], [handle] run to its end. *)
Definition process_request (c : client) (s : Sys) : Sys :=
  let '(o, up, st') := run_connection fetch hash (engine (sh s)) c (certs s) in
  {| sh := sh s; alive := alive s; certs := st'; busy := busy s; pending := pending s;
     conns := conns s ++ [(c, Served o)]; upstream_log := upstream_log s ++ up |}.

Definition refuse (c : client) (s : Sys) : Sys :=
  {| sh := sh s; alive := alive s; certs := certs s; busy := busy s; pending := pending s;
     conns := conns s ++ [(c, Refused)]; upstream_log := upstream_log s |}.

(** [serve_forever] takes the queued clients in order, until one of them
    blocks it again. *)
Fixpoint drain (q : list (option client)) (s : Sys) : Sys :=
  match q with
  | [] => with_queue false [] s
  | Some c :: q' => drain q' (process_request c s)
  | None :: q' => with_queue true q' s
  end.

Definition sys_step (s : Sys) (ev : event) : Sys :=
  match ev with
  | EvLine l =>
      if alive s then
        match run_line env l (sh s) with
        | Continue sh' => with_shell s sh' true
        | Exit sh' | Raised _ sh' => with_shell s sh' false
        end
      else s
  | EvCtrlC => if alive s then with_shell s (say MsgUseExit (sh s)) true else s
  | EvConn c =>
      if listening s then
        if busy s then with_queue true (pending s ++ [Some c]) s else process_request c s
      else refuse c s
  | EvStuck =>
      if listening s then
        if busy s then with_queue true (pending s ++ [None]) s else with_queue true [] s
      else s
  | EvHangup => if listening s && busy s then drain (pending s) s else s
  end.

Definition run_system (evs : list event) (s : Sys) : Sys := fold_left sys_step evs s.

Definition sys_init (p : PlatformEnv) (home : string) (st0 : St) : Sys :=
  {| sh := init_shell p home; alive := true; certs := st0; busy := false; pending := [];
     conns := []; upstream_log := [] |}.

Definition is_hangup (ev : event) : bool :=
  match ev with EvHangup => true | _ => false end.

(** The connections finished since [s]. *)
Definition new_conns (s : Sys) (evs : list event) : list (client * conn_result) :=
  drop (length (conns s)) (conns (run_system evs s)).

End System.

Section Props.

Context {St : Type} `{CertIssuer St}.
Variable fetch : outbound -> upstream.
Variable hash : string -> Z.
Variable env : ShellEnv.

Abbreviation step := (sys_step fetch hash env).
Abbreviation run := (run_system fetch hash env).

Lemma run_system_ind (I : Sys -> Prop) :
  (forall s ev, I s -> I (step s ev)) -> forall evs s, I s -> I (run evs s).
Proof. intros Hs evs. induction evs as [|ev evs IH]; intros s Hi; simpl; auto. Qed.

Lemma process_request_fields c s :
  sh (process_request fetch hash c s) = sh s /\ alive (process_request fetch hash c s) = alive s /\
  exists o, conns (process_request fetch hash c s) = conns s ++ [(c, Served o)].
Proof. unfold process_request. destruct (run_connection _ _ _ _ _) as [[o up] st']. eauto. Qed.

Lemma drain_fields q s :
  sh (drain fetch hash q s) = sh s /\ alive (drain fetch hash q s) = alive s /\
  exists n, conns (drain fetch hash q s) = conns s ++ n.
Proof.
  revert s. induction q as [|[c|] q IH]; intros s; simpl;
    try (split; [done|split; [done|exists []; by rewrite app_nil_r]]).
  destruct (process_request_fields c s) as (Hs & Ha & o & Ho).
  destruct (IH (process_request fetch hash c s)) as (-> & -> & n & ->).
  split; [done|split; [done|]]. exists ((c, Served o) :: n). by rewrite Ho, <- app_assoc.
Qed.

Lemma sys_step_conns s ev : exists n, conns (step s ev) = conns s ++ n.
Proof.
  destruct ev as [l| |c| |]; simpl.
  - destruct (alive s); [|by exists []; rewrite app_nil_r].
    destruct (run_line env l (sh s)); exists []; by rewrite app_nil_r.
  - destruct (alive s); exists []; by rewrite app_nil_r.
  - destruct (listening s); [destruct (busy s)|]; simpl;
      [exists []; by rewrite app_nil_r|destruct (process_request_fields c s) as (_ & _ & o & ->)|];
      by eexists.
  - destruct (listening s); [destruct (busy s)|]; exists []; by rewrite app_nil_r.
  - destruct (listening s && busy s); [apply drain_fields|exists []; by rewrite app_nil_r].
Qed.

Lemma run_system_conns evs s : exists r, conns (run evs s) = conns s ++ r.
Proof.
  revert s. induction evs as [|ev evs IH]; intros s; simpl; [exists []; by rewrite app_nil_r|].
  destruct (sys_step_conns s ev) as [n Hn]. destruct (IH (step s ev)) as [r ->].
  exists (n ++ r). by rewrite Hn, app_assoc.
Qed.

Lemma new_conns_cons s ev evs :
  new_conns fetch hash env s (ev :: evs) =
  drop (length (conns s)) (conns (step s ev)) ++ new_conns fetch hash env (step s ev) evs.
Proof.
  unfold new_conns. simpl. destruct (sys_step_conns s ev) as [n Hn].
  destruct (run_system_conns evs (step s ev)) as [r Hr]. rewrite Hr, Hn.
  rewrite (drop_app_length (conns s ++ n) r), (drop_app_length (conns s) n).
  by rewrite <- app_assoc, drop_app_length.
Qed.

Lemma sys_step_shell s ev :
  sh (step s ev) = sh s \/ (alive s = true /\ exists l, sh (step s ev) = outcome_state (run_line env l (sh s)))
  \/ (alive s = true /\ sh (step s ev) = say MsgUseExit (sh s)).
Proof.
  destruct ev as [l| |c| |]; simpl.
  - destruct (alive s) eqn:Ha; [|by left]. right; left. split; [done|]. exists l.
    by destruct (run_line env l (sh s)).
  - destruct (alive s) eqn:Ha; [by right; right|by left].
  - left. destruct (listening s); [destruct (busy s)|]; [done|apply process_request_fields|done].
  - left. destruct (listening s); [destruct (busy s)|]; done.
  - left. destruct (listening s && busy s); [apply drain_fields|done].
Qed.

Lemma sys_step_reachable p home s ev :
  reachable p home (sh s) -> reachable p home (sh (step s ev)).
Proof.
  intros Hr. destruct (sys_step_shell s ev) as [->|[[_ [l ->]]|[_ ->]]]; [done| |];
    apply (reach_step _ _ (sh s)); [done| |done|]; [left; by exists env, l|by right].
Qed.

Lemma run_system_reachable p home st0 evs :
  reachable p home (sh (run_system fetch hash env evs (sys_init p home st0))).
Proof. apply run_system_ind; [apply sys_step_reachable|apply reach_init]. Qed.

Lemma step_not_listening s ev :
  listening s = false -> Forall (fun cr => cr.2 = Refused) (drop (length (conns s)) (conns (step s ev))).
Proof.
  intros Hl. destruct ev as [l| |c| |]; simpl; rewrite ?Hl; simpl;
    try (rewrite drop_app_length; by constructor);
    try (destruct (alive s); [destruct (run_line env l (sh s))|]);
    try (destruct (alive s)); simpl; rewrite drop_all; constructor.
Qed.

(** Once the flag is set, no event touches the server thread. *)
Lemma sys_step_thread s ev :
  running (engine (sh s)) = true -> server_thread (sh (step s ev)) = server_thread (sh s).
Proof.
  intros Hrun. destruct (sys_step_shell s ev) as [->|[[_ [l ->]]|[_ ->]]]; [done| |done].
  by apply run_line_running.
Qed.

(** One event other than the hang-up, while [handle] is blocked. *)
Lemma step_busy s ev :
  busy s = true -> is_hangup ev = false ->
  busy (step s ev) = true /\ upstream_log (step s ev) = upstream_log s /\
  (exists q, pending (step s ev) = pending s ++ q) /\
  Forall (fun cr => cr.2 = Refused) (drop (length (conns s)) (conns (step s ev))).
Proof.
  intros Hb Hh. destruct ev as [l| |c| |]; simpl; try discriminate;
    repeat match goal with
           | |- context [if alive s then _ else _] => destruct (alive s)
           | |- context [if listening s then _ else _] => destruct (listening s)
           | |- context [match run_line ?e ?l ?x with _ => _ end] => destruct (run_line e l x)
           end; rewrite ?Hb; simpl;
    refine (conj _ (conj _ (conj _ _))); rewrite ?drop_all, ?drop_app_length;
    try done; try (by repeat constructor);
    first [exists []; by rewrite app_nil_r | by eexists].
Qed.

(** C16 Liveness of the listener fails on one peer: the server is serial
    and sets no timeout, so while the handler is blocked on a client that
    sends nothing (or on an upstream body that never ends), no
    connection is served and nothing is sent upstream, whatever the
    operator types; every client that connects meanwhile waits in the
    accept queue, until that peer hangs up. *)
Theorem system_stuck_blocks s evs :
  busy s = true -> forallb (fun ev => negb (is_hangup ev)) evs = true ->
  Forall (fun cr => cr.2 = Refused) (new_conns fetch hash env s evs) /\
  busy (run evs s) = true /\ upstream_log (run evs s) = upstream_log s /\
  exists q, pending (run evs s) = pending s ++ q.
Proof.
  revert s. induction evs as [|ev evs IH]; intros s Hb Hx.
  - unfold new_conns. simpl. rewrite drop_all.
    split; [constructor|]. split; [done|]. split; [done|]. exists []. by rewrite app_nil_r.
  - simpl in Hx. apply andb_prop in Hx as [Hx1 Hx2]. apply negb_true_iff in Hx1.
    destruct (step_busy s ev Hb Hx1) as (Hb' & Hu & [q1 Hq] & Hf).
    destruct (IH (step s ev) Hb' Hx2) as (Hf' & Hb'' & Hu' & [q2 Hq']).
    rewrite new_conns_cons. split; [by apply Forall_app|]. simpl.
    split; [done|]. split; [by rewrite Hu', Hu|]. exists (q1 ++ q2).
    by rewrite Hq', Hq, app_assoc.
Qed.

(** C12 A listener that failed to bind is never retried: from a shell
    whose server thread died on the bind, no later connection is
    accepted by this process, whatever the operator types, [start]
    included.  The client is refused when nothing listens on the port;
    when the bind failed with EADDRINUSE, it reaches the process that
    holds the port instead. *)
Theorem system_crashed_refuses p home s x evs :
  reachable p home (sh s) -> server_thread (sh s) = Some (Crashed x) ->
  Forall (fun cr => cr.2 = Refused) (new_conns fetch hash env s evs).
Proof.
  revert s. induction evs as [|ev evs IH]; intros s Hr Hs.
  - unfold new_conns. simpl. rewrite drop_all. constructor.
  - assert (running (engine (sh s)) = true) as Hrun.
    { destruct (reachable_thread_inv p home _ Hr) as [Hn|]; [congruence|done]. }
    assert (listening s = false) as Hl by (unfold listening; rewrite Hs; apply andb_false_r).
    rewrite new_conns_cons. apply Forall_app. split; [by apply step_not_listening|].
    apply IH; [by apply sys_step_reachable|]. by rewrite sys_step_thread.
Qed.

End Props.

(** ** Concrete interleavings *)

Definition started : Sys :=
  @run_system CertStore.Store (store_issuer Handler.demo_env) demo_fetch RouterProps.demo_hash
    Cli.demo_env [EvLine "start"] (sys_init linux_user "/home/op" CertStore.empty_store).

Definition crashed : Sys :=
  @run_system CertStore.Store (store_issuer Handler.demo_env) demo_fetch RouterProps.demo_hash
    port_taken_env [EvLine "start"] (sys_init linux_user "/home/op" CertStore.empty_store).

(** The listener is up, and a client connects and sends nothing. *)
Definition stuck : Sys :=
  @run_system CertStore.Store (store_issuer Handler.demo_env) demo_fetch RouterProps.demo_hash
    Cli.demo_env [EvStuck] started.

Lemma system_stuck_blocks_witness :
  let evs := [EvConn (CReq "GET" "http://example.com/" None); EvLine "start"; EvCtrlC;
              EvConn (CReq "CONNECT" "example.com:443" None)] in
  let run := @run_system CertStore.Store (store_issuer Handler.demo_env) demo_fetch
               RouterProps.demo_hash Cli.demo_env in
  Forall (fun cr => cr.2 = Refused)
    (@new_conns CertStore.Store (store_issuer Handler.demo_env) demo_fetch RouterProps.demo_hash
       Cli.demo_env stuck evs) /\
  busy (run evs stuck) = true /\ upstream_log (run evs stuck) = upstream_log stuck /\
  exists q, pending (run evs stuck) = pending stuck ++ q.
Proof. apply system_stuck_blocks; vm_compute; reflexivity. Defined.

Lemma system_crashed_refuses_witness :
  Forall (fun cr => cr.2 = Refused)
    (@new_conns CertStore.Store (store_issuer Handler.demo_env) demo_fetch RouterProps.demo_hash
       port_taken_env crashed
       [EvLine "start"; EvConn (CReq "GET" "http://example.com/" None)]).
Proof.
  apply (system_crashed_refuses _ _ _ linux_user "/home/op" _ (OSError "[Errno 98] Address already in use")).
  - apply run_system_reachable.
  - vm_compute. reflexivity.
Defined.

End System.
